(** * dtw_openmp.c: block preparation and the four parallel distance-matrix
      entry points of DTAIDistanceC

    Shallow embedding of [dtw_distances_prepare] and of
    [dtw_distances_ptrs_parallel], [dtw_distances_ndim_ptrs_parallel],
    [dtw_distances_matrix_parallel], [dtw_distances_ndim_matrix_parallel].

    - [size_t] is a 64-bit unsigned integer: a [Z] in [0, 2^64) with the
      wrap-around of every operation written out ([Word]).
    - The two planner arrays [cbs] and [rls] are heap blocks: a list of slots
      ([None] is a slot that was never written), reached through a pointer
      that is [Null] when [malloc] failed.  An access outside the block, a
      dereference of [Null] and a read of a slot never written are undefined
      behaviour in C.  The outcome [Fault f] records the first such access
      of an execution: it reads "the execution makes an access of kind [f]
      whose behaviour is undefined", and says nothing of what a run of the
      compiled program does from there on.
    - [dtw_distances_length], [dtw_distance], [dtw_distance_ndim] and the
      type [DTWSettings] are declared outside this file (dtw.h / dtw.c); they
      are parameters of the development.
    - The OpenMP loop over rows is run in increasing row order; every store
      into [output] is recorded in the trace, with the pair it belongs to.
      The order in which the stores of different rows follow each other in
      the trace is that of this sequential reading and no fact of the
      program, whose rows run in parallel: what is stated of the program
      uses the stores of a trace up to their order.  The stores of a region
      go to distinct slots, so any other order leaves the same buffer
      ([region_writes_any_order]). *)

From Stdlib Require Import ZArith Lia List Bool.
From stdpp Require Import base list list_numbers.
Import ListNotations.
Open Scope Z_scope.

(** ** size_t arithmetic *)

Module Word.
Definition width : Z := 64.
Definition modulus : Z := 2 ^ width.
Definition wrap (z : Z) : Z := z mod modulus.
Definition add (a b : Z) : Z := wrap (a + b).
Definition sub (a b : Z) : Z := wrap (a - b).
Definition mul (a b : Z) : Z := wrap (a * b).
Definition in_range (z : Z) : Prop := 0 <= z < modulus.
(** [sizeof(size_t)] *)
Definition size_of : Z := 8.
End Word.

(** ** Data *)

(** [DTWBlock]: the fields [rb], [re], [cb], [ce] read and written by the
    source, all of type [size_t]. *)
Record DTWBlock : Type := mkBlock { rb : Z; re : Z; cb : Z; ce : Z }.

Definition set_re (b : DTWBlock) (v : Z) : DTWBlock :=
  mkBlock (rb b) v (cb b) (ce b).
Definition set_ce (b : DTWBlock) (v : Z) : DTWBlock :=
  mkBlock (rb b) (re b) (cb b) v.

Inductive fault : Type :=
| NullDereference
| OutOfBounds
| UninitialisedRead
| AssertionFailed.

Inductive outcome (A : Type) : Type :=
| Done (a : A)
| Fault (f : fault).
Arguments Done {A} a.
Arguments Fault {A} f.

#[global] Instance outcome_ret : MRet outcome := fun A a => Done a.
#[global] Instance outcome_bind : MBind outcome := fun A B k m =>
  match m with
  | Done a => k a
  | Fault f => Fault f
  end.

(** A heap block of [size_t] slots and a pointer to one. [Wild] is the value
    of a pointer variable that was declared and never assigned. *)
Abbreviation array := (list (option Z)) (only parsing).

Inductive pointer : Type :=
| Wild
| Null
| Block (a : array).

(** [malloc(bytes)]: [granted] says whether the allocator finds the memory.
    The block holds [bytes / sizeof(size_t)] slots, none of them written. *)
Definition malloc (granted : bool) (bytes : Z) : pointer :=
  if granted then Block (replicate (Z.to_nat (bytes / Word.size_of)) None)
  else Null.

(** [p[i] = v] *)
Definition poke (p : pointer) (i v : Z) : outcome pointer :=
  match p with
  | Block a =>
      if (0 <=? i) && (i <? Z.of_nat (length a))
      then Done (Block (<[Z.to_nat i := Some v]> a))
      else Fault OutOfBounds
  | Null => Fault NullDereference
  | Wild => Fault NullDereference
  end.

(** [p[i]] *)
Definition peek (p : pointer) (i : Z) : outcome Z :=
  match p with
  | Block a =>
      match a !! Z.to_nat i with
      | Some (Some v) => if 0 <=? i then Done v else Fault OutOfBounds
      | Some None => Fault UninitialisedRead
      | None => Fault OutOfBounds
      end
  | Null => Fault NullDereference
  | Wild => Fault NullDereference
  end.

(** The address passed for an out-parameter ([size_t *length],
    [size_t **cbs], [size_t **rls]). *)
Inductive address : Type :=
| NullAddress
| AddressOfLocal.

Definition is_null (a : address) : bool :=
  match a with
  | NullAddress => true
  | AddressOfLocal => false
  end.

(** What a call does that its caller can observe, in order. *)
Inductive event : Type :=
| EvLength (b : DTWBlock) (nb_series : Z) (use_ssize : bool)
| EvMalloc (bytes : Z) (granted : bool)
| EvPrintf
| EvFree
| EvStore (index r c : Z).

(** The outcome of the two [malloc] calls of one preparation. *)
Record allocator : Type := mkAllocator { cbs_granted : bool; rls_granted : bool }.

(** What [dtw_distances_prepare] leaves behind: the caller's block, the
    cells behind the three out-parameters, and the trace. *)
Record prepared : Type := mkPrepared {
  pr_block : DTWBlock;
  pr_length : Z;
  pr_cbs : pointer;
  pr_rls : pointer;
  pr_trace : list event
}.

(** ** dtw_distances_prepare *)

(** The planning loop, lines 65-75: [n] iterations are left, [r] is the row,
    [ir] the slot, [rs] the running offset. *)
Fixpoint plan_rows (n : nat) (block : DTWBlock) (r ir rs : Z)
    (cbs rls : pointer) : outcome (pointer * pointer) :=
  match n with
  | O => Done (cbs, rls)
  | S n' =>
      let col := if Word.add r 1 >? cb block then Word.add r 1 else cb block in
      cbs' ← poke cbs ir col;
      rls' ← poke rls ir rs;
      plan_rows n' block (Word.add r 1) (Word.add ir 1)
        (Word.add rs (Word.sub (ce block) col)) cbs' rls'
  end.

(** Lines 35-40, "Correct block". *)
Definition correct_block (block : DTWBlock) (nb_series : Z) : DTWBlock :=
  let block := if re block =? 0 then set_re block nb_series else block in
  if ce block =? 0 then set_ce block nb_series else block.

Section Prepare.
Variable DTWSettings : Type.
Variable use_ssize_t : DTWSettings -> bool.
Variable dtw_distances_length : DTWBlock -> Z -> bool -> Z.

Definition dtw_distances_prepare (block : DTWBlock) (nb_series : Z)
    (cbs rls length : address) (settings : DTWSettings) (heap : allocator)
    : outcome (Z * prepared) :=
  (* *length = dtw_distances_length(block, nb_series, settings->use_ssize_t); *)
  if is_null length then Fault NullDereference else
  let len := dtw_distances_length block nb_series (use_ssize_t settings) in
  let tr := [EvLength block nb_series (use_ssize_t settings)] in
  (* if (length == 0) return 1;   -- the address, not the value *)
  if is_null length then Done (1, mkPrepared block len Wild Wild tr) else
  let block := correct_block block nb_series in
  if re block <=? rb block then Done (1, mkPrepared block 0 Wild Wild tr) else
  if ce block <=? cb block then Done (1, mkPrepared block 0 Wild Wild tr) else
  (* *cbs = malloc(sizeof(size_t) * (block->ce - block->cb)); *)
  if is_null cbs then Fault NullDereference else
  let bytes := Word.mul Word.size_of (Word.sub (ce block) (cb block)) in
  let pc := malloc (cbs_granted heap) bytes in
  let tr := tr ++ [EvMalloc bytes (cbs_granted heap)] in
  (* if (!cbs) { printf; *length = 0; return 1; }   -- the address again *)
  if is_null cbs then Done (1, mkPrepared block 0 pc Wild (tr ++ [EvPrintf])) else
  if is_null rls then Fault NullDereference else
  let pl := malloc (rls_granted heap) bytes in
  let tr := tr ++ [EvMalloc bytes (rls_granted heap)] in
  if is_null rls then Done (1, mkPrepared block 0 pc pl (tr ++ [EvPrintf])) else
  (* assert(block->rb < block->re); *)
  if negb (rb block <? re block) then Fault AssertionFailed else
  '(pc', pl') ← plan_rows (Z.to_nat (re block - rb block)) block (rb block) 0 0 pc pl;
  Done (0, mkPrepared block len pc' pl' tr).
End Prepare.

(** ** The four distance-matrix entry points *)

(** What an entry point leaves behind for its caller. *)
Record result (V : Type) : Type := mkResult {
  res_block : DTWBlock;
  res_output : list V;
  res_trace : list event
}.
Arguments mkResult {V} _ _ _.
Arguments res_block {V} _.
Arguments res_output {V} _.
Arguments res_trace {V} _.

(** [a[i]] for an array of the caller ([ptrs], [lengths]). *)
Definition fetch {A : Type} (a : list A) (i : Z) : outcome A :=
  if i <? 0 then Fault OutOfBounds else
  match a !! Z.to_nat i with
  | Some x => Done x
  | None => Fault OutOfBounds
  end.

(** [output[i] = v] *)
Definition store {V : Type} (output : list V) (i : Z) (v : V) : outcome (list V) :=
  if (0 <=? i) && (i <? Z.of_nat (length output))
  then Done (<[Z.to_nat i := v]> output)
  else Fault OutOfBounds.

Section Computer.
Variable seq_t : Type.
Variable DTWSettings : Type.
Variable use_ssize_t : DTWSettings -> bool.
Variable dtw_distances_length : DTWBlock -> Z -> bool -> Z.
(** [dtw_distance(s1, l1, s2, l2, settings)]; a series is passed by the
    address of its first element. *)
Variable dtw_distance : Z -> Z -> Z -> Z -> DTWSettings -> seq_t.
(** [dtw_distance_ndim(s1, l1, s2, l2, ndim, settings)] *)
Variable dtw_distance_ndim : Z -> Z -> Z -> Z -> Z -> DTWSettings -> seq_t.

Section Skeleton.
(** The metric of the pair of series [r] and [c], as one variant fetches
    them. *)
Variable value : Z -> Z -> outcome seq_t.

(** [for (c = cbs[r_i]; c < block->ce; c++)] with [n] iterations left. *)
Fixpoint walk_columns (n : nat) (r r_i c c_i : Z) (rls : pointer)
    (output : list seq_t) : outcome (list seq_t * list event) :=
  match n with
  | O => Done (output, [])
  | S n' =>
      v ← value r c;
      rl ← peek rls r_i;
      let index := Word.add rl c_i in
      output' ← store output index v;
      '(output'', evs) ← walk_columns n' r r_i (Word.add c 1) (Word.add c_i 1) rls output';
      Done (output'', EvStore index r c :: evs)
  end.

(** [for (r_i = 0; r_i < (block->re - block->rb); r_i++)] with [n]
    iterations left.  The source runs the iterations under
    [#pragma omp parallel for]; they are run here one after the other, so
    the order of the stores of different rows is one of the orders the
    program may take. *)
Fixpoint walk_rows (n : nat) (block : DTWBlock) (r_i : Z) (cbs rls : pointer)
    (output : list seq_t) : outcome (list seq_t * list event) :=
  match n with
  | O => Done (output, [])
  | S n' =>
      let r := Word.add (rb block) r_i in
      c0 ← peek cbs r_i;
      '(output', evs) ← walk_columns (Z.to_nat (ce block - c0)) r r_i c0 0 rls output;
      '(output'', evs') ← walk_rows n' block (Word.add r_i 1) cbs rls output';
      Done (output'', evs ++ evs')
  end.

(** The body shared by the four entry points. *)
Definition distances_parallel (nb_series : Z) (output : list seq_t)
    (block : DTWBlock) (settings : DTWSettings) (heap : allocator)
    : outcome (Z * result seq_t) :=
  '(rc, p) ← dtw_distances_prepare DTWSettings use_ssize_t dtw_distances_length
               block nb_series AddressOfLocal AddressOfLocal AddressOfLocal settings heap;
  if negb (rc =? 0) then Done (0, mkResult (pr_block p) output (pr_trace p)) else
  let block := pr_block p in
  '(output', evs) ← walk_rows (Z.to_nat (Word.sub (re block) (rb block))) block 0
                      (pr_cbs p) (pr_rls p) output;
  (* free(cbs); free(rls); return length; *)
  Done (pr_length p, mkResult block output' (pr_trace p ++ evs ++ [EvFree; EvFree])).
End Skeleton.

Definition dtw_distances_ptrs_parallel (ptrs : list Z) (nb_ptrs : Z) (lengths : list Z)
    (output : list seq_t) (block : DTWBlock) (settings : DTWSettings) (heap : allocator)
    : outcome (Z * result seq_t) :=
  distances_parallel
    (fun r c =>
       pr ← fetch ptrs r; lr ← fetch lengths r;
       pc ← fetch ptrs c; lc ← fetch lengths c;
       Done (dtw_distance pr lr pc lc settings))
    nb_ptrs output block settings heap.

Definition dtw_distances_ndim_ptrs_parallel (ptrs : list Z) (nb_ptrs : Z) (lengths : list Z)
    (ndim : Z) (output : list seq_t) (block : DTWBlock) (settings : DTWSettings)
    (heap : allocator) : outcome (Z * result seq_t) :=
  distances_parallel
    (fun r c =>
       pr ← fetch ptrs r; lr ← fetch lengths r;
       pc ← fetch ptrs c; lc ← fetch lengths c;
       Done (dtw_distance_ndim pr lr pc lc ndim settings))
    nb_ptrs output block settings heap.

(** [&matrix[k]] is [matrix + k], [k] computed in [size_t]. *)
Definition dtw_distances_matrix_parallel (matrix : Z) (nb_rows nb_cols : Z)
    (output : list seq_t) (block : DTWBlock) (settings : DTWSettings) (heap : allocator)
    : outcome (Z * result seq_t) :=
  distances_parallel
    (fun r c =>
       Done (dtw_distance (matrix + Word.mul r nb_cols) nb_cols
                          (matrix + Word.mul c nb_cols) nb_cols settings))
    nb_rows output block settings heap.

Definition dtw_distances_ndim_matrix_parallel (matrix : Z) (nb_rows nb_cols : Z) (ndim : Z)
    (output : list seq_t) (block : DTWBlock) (settings : DTWSettings) (heap : allocator)
    : outcome (Z * result seq_t) :=
  distances_parallel
    (fun r c =>
       Done (dtw_distance_ndim
               (matrix + Word.mul (Word.mul r nb_cols) (Word.wrap ndim)) nb_cols
               (matrix + Word.mul (Word.mul c nb_cols) (Word.wrap ndim)) nb_cols
               ndim settings))
    nb_rows output block settings heap.
End Computer.

(** ** The region as the specification describes it *)

(** [col_start(r) = max(r + 1, col_begin)] *)
Definition col_start (b : DTWBlock) (r : Z) : Z := Z.max (r + 1) (cb b).

(** Visited-column count of row [r]: [max(0, col_end - max(r+1, col_begin))]. *)
Definition row_count (b : DTWBlock) (r : Z) : Z := Z.max 0 (ce b - col_start b r).

(** The rows [row_begin, ..., row_end - 1]. *)
Definition rows (b : DTWBlock) : list Z := seqZ (rb b) (re b - rb b).

Definition sumZ (l : list Z) : Z := foldr Z.add 0 l.

(** [Σ_{r=row_begin}^{row_end-1} max(0, col_end - max(r+1, col_begin))] *)
Definition total_pairs (b : DTWBlock) : Z := sumZ (row_count b <$> rows b).

(** Zero-sentinel defaulting: [row_end == 0 → row_end = N],
    [col_end == 0 → col_end = N]. *)
Definition normalized (b : DTWBlock) (N : Z) : DTWBlock :=
  mkBlock (rb b) (if re b =? 0 then N else re b) (cb b) (if ce b =? 0 then N else ce b).

(** Modelled from the spec: [dtw_distances_length] is defined in dtw.c, which
    is not among the sources.  The specification describes it as
    [region_length(region, N, size_mode)], which "computes the exact total
    visited-pair count for a normalized region", [size_mode] being "kept as a
    pass-through flag"; the count is the sum of the testable properties. *)
Definition region_length (b : DTWBlock) (N : Z) (size_mode : bool) : Z :=
  total_pairs (normalized b N).

(** The stores of a trace: (index, row, column). *)
Definition stores (tr : list event) : list (Z * (Z * Z)) :=
  omap (fun e => match e with EvStore i r c => Some (i, (r, c)) | _ => None end) tr.

(** The recurrence of the planning loop on the running offset, as [size_t]
    values: the offsets of [n] rows from row [r] on, the first one being [rs]. *)
Fixpoint row_offsets_from (b : DTWBlock) (r rs : Z) (n : nat) : list Z :=
  match n with
  | O => []
  | S n' => rs :: row_offsets_from b (r + 1)
                    (Word.add rs (Word.sub (ce b) (col_start b r))) n'
  end.

(** The two sequences the planning loop computes for a region. *)
Definition col_starts (b : DTWBlock) : list Z := col_start b <$> rows b.
Definition row_offsets (b : DTWBlock) : list Z :=
  row_offsets_from b (rb b) 0 (Z.to_nat (re b - rb b)).

(** Number of slots of each planner array:
    [malloc(sizeof(size_t) * (block->ce - block->cb))]. *)
Definition planner_slots (b : DTWBlock) : Z :=
  Word.mul Word.size_of (Word.sub (ce b) (cb b)) / Word.size_of.

(** A region after defaulting that is not empty. *)
Definition nonempty (b : DTWBlock) : Prop := rb b < re b /\ cb b < ce b.

(** A valid region for [N] series. *)
Definition valid_region (b : DTWBlock) (N : Z) : Prop :=
  0 <= rb b < re b /\ re b <= N /\ 0 <= cb b < ce b /\ ce b <= N.

(** The bytes asked of [malloc] for each planner array. *)
Definition planner_bytes (b : DTWBlock) : Z :=
  Word.mul Word.size_of (Word.sub (ce b) (cb b)).

(** The pairs of a region, row by row, columns increasing. *)
Definition pairs_from (b : DTWBlock) (r : Z) (n : Z) : list (Z * Z) :=
  r' ← seqZ r n; (fun c => (r', c)) <$> seqZ (col_start b r') (ce b - col_start b r').

Definition region_pairs (b : DTWBlock) : list (Z * Z) :=
  pairs_from b (rb b) (re b - rb b).

(** ** What a call that goes through does *)

(** Stores applied to a buffer, in order. *)
Definition write_all {V : Type} (ws : list (Z * V)) (out : list V) : list V :=
  foldl (fun o w => <[Z.to_nat (fst w) := snd w]> o) out ws.

(** The stores of one row: column [c] goes to [rl + (c - c0)]. *)
Definition row_events (b : DTWBlock) (r c0 rl : Z) : list event :=
  (fun c => EvStore (rl + (c - c0)) r c) <$> seqZ c0 (ce b - c0).

Definition row_writes {V : Type} (val : Z -> Z -> V) (b : DTWBlock) (r c0 rl : Z)
    : list (Z * V) :=
  (fun c => (rl + (c - c0), val r c)) <$> seqZ c0 (ce b - c0).

(** The stores of the rows from [r] on, given their column starts and their
    offsets. *)
Fixpoint region_events (b : DTWBlock) (r : Z) (css rls : list Z) : list event :=
  match css, rls with
  | c0 :: css', rl :: rls' => row_events b r c0 rl ++ region_events b (r + 1) css' rls'
  | _, _ => []
  end.

Fixpoint region_writes {V : Type} (val : Z -> Z -> V) (b : DTWBlock) (r : Z)
    (css rls : list Z) : list (Z * V) :=
  match css, rls with
  | c0 :: css', rl :: rls' =>
      row_writes val b r c0 rl ++ region_writes val b (r + 1) css' rls'
  | _, _ => []
  end.

(** What the row loop needs of the rows from [r] on: each row that has a
    column to visit finds its metric, and its slice lies in the buffer of
    [len] slots. *)
Fixpoint rows_ok {seq_t : Type} (value : Z -> Z -> outcome seq_t) (val : Z -> Z -> seq_t)
    (b : DTWBlock) (len : Z) (r : Z) (css rls : list Z) : Prop :=
  match css, rls with
  | c0 :: css', rl :: rls' =>
      (0 <= c0 /\
       (c0 < ce b ->
        0 <= rl /\ rl + (ce b - c0) <= len /\ rl + (ce b - c0) < Word.modulus /\
        ce b < Word.modulus /\
        forall c, c0 <= c < ce b -> value r c = Done (val r c)))
      /\ rows_ok value val b len (r + 1) css' rls'
  | [], [] => True
  | _, _ => False
  end.

(** The trace of a call that goes through. *)
Definition full_trace {DTWSettings : Type} (use_ssize_t : DTWSettings -> bool)
    (block : DTWBlock) (nb_series : Z) (settings : DTWSettings) : list event :=
  let b := correct_block block nb_series in
  [EvLength block nb_series (use_ssize_t settings);
   EvMalloc (planner_bytes b) true; EvMalloc (planner_bytes b) true]
  ++ region_events b (rb b) (col_starts b) (row_offsets b) ++ [EvFree; EvFree].

(** The conditions under which a call goes through: a valid region, both
    [malloc] calls granted, a slot for every row, and an output buffer that
    holds the pairs of the region. *)
Definition goes_through {seq_t : Type} (block : DTWBlock) (N : Z) (out : list seq_t) : Prop :=
  let b := correct_block block N in
  valid_region b N /\ N < Word.modulus /\
  re b - rb b <= planner_slots b /\
  total_pairs b <= Z.of_nat (length out) /\ total_pairs b < Word.modulus.

(** What a call that goes through returns and leaves behind, the metric
    of a pair being [val]. *)
Definition gone_through {seq_t DTWSettings : Type} (use_ssize_t : DTWSettings -> bool)
    (dtw_distances_length : DTWBlock -> Z -> bool -> Z) (val : Z -> Z -> seq_t)
    (block : DTWBlock) (N : Z) (out : list seq_t) (settings : DTWSettings)
    : outcome (Z * result seq_t) :=
  let b := correct_block block N in
  Done (dtw_distances_length block N (use_ssize_t settings),
        mkResult b
          (write_all (region_writes val b (rb b) (col_starts b) (row_offsets b)) out)
          (full_trace use_ssize_t block N settings)).

(** The metric of the pair [(r, c)] as each variant fetches it, when the
    fetches are in bounds. *)
Definition ptrs_metric {seq_t DTWSettings : Type}
    (dtw_distance : Z -> Z -> Z -> Z -> DTWSettings -> seq_t)
    (ptrs lengths : list Z) (settings : DTWSettings) (r c : Z) : seq_t :=
  dtw_distance (ptrs !!! Z.to_nat r) (lengths !!! Z.to_nat r)
               (ptrs !!! Z.to_nat c) (lengths !!! Z.to_nat c) settings.

Definition ndim_ptrs_metric {seq_t DTWSettings : Type}
    (dtw_distance_ndim : Z -> Z -> Z -> Z -> Z -> DTWSettings -> seq_t)
    (ptrs lengths : list Z) (ndim : Z) (settings : DTWSettings) (r c : Z) : seq_t :=
  dtw_distance_ndim (ptrs !!! Z.to_nat r) (lengths !!! Z.to_nat r)
                    (ptrs !!! Z.to_nat c) (lengths !!! Z.to_nat c) ndim settings.

Definition matrix_metric {seq_t DTWSettings : Type}
    (dtw_distance : Z -> Z -> Z -> Z -> DTWSettings -> seq_t)
    (matrix nb_cols : Z) (settings : DTWSettings) (r c : Z) : seq_t :=
  dtw_distance (matrix + Word.mul r nb_cols) nb_cols
               (matrix + Word.mul c nb_cols) nb_cols settings.

Definition ndim_matrix_metric {seq_t DTWSettings : Type}
    (dtw_distance_ndim : Z -> Z -> Z -> Z -> Z -> DTWSettings -> seq_t)
    (matrix nb_cols ndim : Z) (settings : DTWSettings) (r c : Z) : seq_t :=
  dtw_distance_ndim (matrix + Word.mul (Word.mul r nb_cols) (Word.wrap ndim)) nb_cols
                    (matrix + Word.mul (Word.mul c nb_cols) (Word.wrap ndim)) nb_cols
                    ndim settings.

(** What an entry point does once the preparation has returned [rc] and [p]:
    the row loop runs on [b]. *)
Definition after_prepare {seq_t : Type} (value : Z -> Z -> outcome seq_t) (out : list seq_t)
    (rc : Z) (p : prepared) (b : DTWBlock) : outcome (Z * result seq_t) :=
  if negb (rc =? 0) then Done (0, mkResult b out (pr_trace p)) else
  '(out', evs) ← walk_rows seq_t value (Z.to_nat (Word.sub (re b) (rb b))) b 0
                    (pr_cbs p) (pr_rls p) out;
  Done (pr_length p, mkResult b out' (pr_trace p ++ evs ++ [EvFree; EvFree])).

(** ** What any returning call may have done *)

Definition is_store (e : event) : Prop := exists i r c, e = EvStore i r c.

(** The store [s = (index, (r, c))] is of a pair of the region [b], above
    the diagonal, to a slot of a buffer of [len] values. *)
Definition store_in_region (b : DTWBlock) (len : nat) (s : Z * (Z * Z)) : Prop :=
  rb b <= fst (snd s) < re b /\
  Z.max (fst (snd s) + 1) (cb b) <= snd (snd s) < ce b /\
  0 <= fst s < Z.of_nat len.

(** The same without the slot: the pair of the store [s] is of the region
    [b], above the diagonal. *)
Definition pair_in_region (b : DTWBlock) (s : Z * (Z * Z)) : Prop :=
  rb b <= fst (snd s) < re b /\
  Z.max (fst (snd s) + 1) (cb b) <= snd (snd s) < ce b.

(** Blocks handed out by [malloc] and blocks given back to [free]. *)
Definition is_granted (e : event) : bool :=
  match e with EvMalloc _ true => true | _ => false end.
Definition is_free (e : event) : bool :=
  match e with EvFree => true | _ => false end.
Definition is_printf (e : event) : bool :=
  match e with EvPrintf => true | _ => false end.
Definition count (p : event -> bool) (tr : list event) : nat := length (filter p tr).

(** Every written slot of the block holds a [size_t] value. *)
Definition slots_in_range (p : pointer) : Prop :=
  match p with
  | Block a => Forall (fun s => forall v, s = Some v -> 0 <= v) a
  | _ => True
  end.

(** The block is the defaulted one (so [rb] and [cb] are as before, and the
    whole block when neither [re] nor [ce] was 0), the output buffer has its
    length and differs only at the indices of the recorded stores, every
    granted [malloc] is matched by a [free], and nothing is printed. *)
Definition effects_confined {V : Type} (block : DTWBlock) (N : Z) (out : list V)
    (call : outcome (Z * result V)) : Prop :=
  forall (len : Z) (res : result V),
    call = Done (len, res) ->
    res_block res = normalized block N /\
    rb (res_block res) = rb block /\ cb (res_block res) = cb block /\
    (re block <> 0 -> ce block <> 0 -> res_block res = block) /\
    length (res_output res) = length out /\
    (forall j : nat, Z.of_nat j ∉ (fst <$> stores (res_trace res)) ->
                     res_output res !! j = out !! j) /\
    count is_granted (res_trace res) = count is_free (res_trace res) /\
    count is_printf (res_trace res) = 0%nat.

(** ** The four entry points side by side *)

(** The writes of a trace, the metric of a pair being [val]. *)
Definition writes_of {V : Type} (val : Z -> Z -> V) (tr : list event) : list (Z * V) :=
  (fun s => (fst s, val (fst (snd s)) (snd (snd s)))) <$> stores tr.

(** Each entry point called on the same region, with the metric it stores
    for a pair when its fetches are in bounds.  [ptrs] and [lengths] are the
    arguments of the two ragged variants, [matrix] and [nb_cols] those of the
    two contiguous ones. *)
Definition variants {seq_t DTWSettings : Type} (use_ssize_t : DTWSettings -> bool)
    (dtw_distances_length : DTWBlock -> Z -> bool -> Z)
    (dtw_distance : Z -> Z -> Z -> Z -> DTWSettings -> seq_t)
    (dtw_distance_ndim : Z -> Z -> Z -> Z -> Z -> DTWSettings -> seq_t)
    (ptrs lengths : list Z) (matrix N nb_cols ndim : Z) (out : list seq_t)
    (block : DTWBlock) (settings : DTWSettings) (heap : allocator)
    : list ((Z -> Z -> seq_t) * outcome (Z * result seq_t)) :=
  [ (ptrs_metric dtw_distance ptrs lengths settings,
     dtw_distances_ptrs_parallel seq_t DTWSettings use_ssize_t dtw_distances_length
       dtw_distance ptrs N lengths out block settings heap);
    (ndim_ptrs_metric dtw_distance_ndim ptrs lengths ndim settings,
     dtw_distances_ndim_ptrs_parallel seq_t DTWSettings use_ssize_t dtw_distances_length
       dtw_distance_ndim ptrs N lengths ndim out block settings heap);
    (matrix_metric dtw_distance matrix nb_cols settings,
     dtw_distances_matrix_parallel seq_t DTWSettings use_ssize_t dtw_distances_length
       dtw_distance matrix N nb_cols out block settings heap);
    (ndim_matrix_metric dtw_distance_ndim matrix nb_cols ndim settings,
     dtw_distances_ndim_matrix_parallel seq_t DTWSettings use_ssize_t dtw_distances_length
       dtw_distance_ndim matrix N nb_cols ndim out block settings heap) ].

(** The outcome [call], its length query being on the block [b] instead. *)
Definition requeried {V : Type} (b : DTWBlock) (N : Z) (flag : bool)
    (call : outcome (Z * result V)) : outcome (Z * result V) :=
  match call with
  | Done (len, res) =>
      Done (len, mkResult (res_block res) (res_output res)
                   (EvLength b N flag :: tail (res_trace res)))
  | Fault f => Fault f
  end.

(** ** Sample data for the closed examples *)

Module Sample.
(** A settings bundle that holds the [use_ssize_t] flag only. *)
Definition settings : Type := bool.
Definition use_ssize_t (s : settings) : bool := s.

(** A stand-in metric that tells the two series apart. *)
Definition distance (s1 l1 s2 l2 : Z) (_ : settings) : Z := 1000 * s1 + s2.
Definition distance_ndim (s1 l1 s2 l2 ndim : Z) (_ : settings) : Z := 1000 * s1 + s2.

(** [N] series of [nb_cols] values each, stored one after the other from
    address [base] on. *)
Definition ptrs (base N nb_cols : Z) : list Z := (fun i => base + i * nb_cols) <$> seqZ 0 N.
Definition lengths (N nb_cols : Z) : list Z := replicate (Z.to_nat N) nb_cols.

Definition buffer (n : nat) : list Z := replicate n (-1).

Definition granted : allocator := mkAllocator true true.

Definition prepare (block : DTWBlock) (N : Z) (heap : allocator) : outcome (Z * prepared) :=
  dtw_distances_prepare settings use_ssize_t region_length block N
    AddressOfLocal AddressOfLocal AddressOfLocal false heap.

Definition ptrs_parallel (block : DTWBlock) (N : Z) (heap : allocator)
    : outcome (Z * result Z) :=
  dtw_distances_ptrs_parallel Z settings use_ssize_t region_length distance
    (ptrs 0 N 3) N (lengths N 3) (buffer 8) block false heap.

Definition matrix_parallel (block : DTWBlock) (N : Z) (heap : allocator)
    : outcome (Z * result Z) :=
  dtw_distances_matrix_parallel Z settings use_ssize_t region_length distance
    0 N 3 (buffer 8) block false heap.

(** The four entry points on [N] single-channel series of 3 values. *)
Definition calls (block : DTWBlock) (N : Z) (heap : allocator)
    : list ((Z -> Z -> Z) * outcome (Z * result Z)) :=
  variants use_ssize_t region_length distance distance_ndim
    (ptrs 0 N 3) (lengths N 3) 0 N 3 1 (buffer 8) block false heap.
End Sample.

(** A valid region of [N = 4] series with three rows and two columns. *)
Definition tall_block : DTWBlock := mkBlock 0 3 2 4.

(** A valid region of [N = 4] series with four rows and two columns. *)
Definition narrow_block : DTWBlock := mkBlock 0 4 0 2.

(** ** The compact layout *)

(** The slot at which the values of row [r] begin: the number of pairs of
    the rows of the region before it. *)
Definition row_offset (b : DTWBlock) (r : Z) : Z :=
  sumZ (row_count b <$> seqZ (rb b) (r - rb b)).

(** The slot of the pair [(r, c)]. *)
Definition slot_of (b : DTWBlock) (r c : Z) : Z := row_offset b r + (c - col_start b r).

(** ** Proof steps *)

Ltac bind_inv H :=
  match type of H with
  | (?m ≫= _) = Done _ =>
      let E := fresh "E" in
      destruct m eqn:E; cbn [mbind outcome_bind] in H; [|discriminate H]
  end.

(** * Proofs *)

(** ** Facts on size_t arithmetic *)

Lemma modulus_eq : Word.modulus = 18446744073709551616.
Proof. reflexivity. Qed.

Lemma wrap_small (z : Z) : Word.in_range z -> Word.wrap z = z.
Proof. unfold Word.in_range, Word.wrap. intros H. apply Z.mod_small. exact H. Qed.

Lemma wrap_in_range (z : Z) : Word.in_range (Word.wrap z).
Proof.
  unfold Word.in_range, Word.wrap. apply Z.mod_pos_bound. rewrite modulus_eq. lia.
Qed.

Lemma add_small (a b : Z) : Word.in_range (a + b) -> Word.add a b = a + b.
Proof. apply wrap_small. Qed.

Lemma sub_small (a b : Z) : Word.in_range (a - b) -> Word.sub a b = a - b.
Proof. apply wrap_small. Qed.

Lemma planner_slots_small (b : DTWBlock) :
  0 <= ce b - cb b < 2 ^ 61 -> planner_slots b = ce b - cb b.
Proof.
  intros H. unfold planner_slots, Word.mul, Word.size_of.
  rewrite sub_small by (unfold Word.in_range; rewrite modulus_eq; lia).
  rewrite wrap_small by (unfold Word.in_range; rewrite modulus_eq; lia).
  rewrite Z.mul_comm. apply Z.div_mul. lia.
Qed.

(** ** The planning loop *)

Lemma col_start_code (b : DTWBlock) (r : Z) :
  Word.in_range (r + 1) ->
  (if Word.add r 1 >? cb b then Word.add r 1 else cb b) = col_start b r.
Proof.
  intros H. rewrite add_small by exact H. unfold col_start.
  destruct (Z.gtb_spec (r + 1) (cb b)); lia.
Qed.

Lemma poke_block (a : array) (i : nat) (v : Z) :
  (i < length a)%nat ->
  poke (Block a) (Z.of_nat i) v = Done (Block (<[i := Some v]> a)).
Proof.
  intros H. unfold poke.
  replace (0 <=? Z.of_nat i) with true by (symmetry; apply Z.leb_le; lia).
  replace (Z.of_nat i <? Z.of_nat (length a)) with true by (symmetry; apply Z.ltb_lt; lia).
  simpl. by rewrite Nat2Z.id.
Qed.

Lemma poke_block_out (a : array) (i : nat) (v : Z) :
  (length a <= i)%nat -> poke (Block a) (Z.of_nat i) v = Fault OutOfBounds.
Proof.
  intros H. unfold poke.
  replace (Z.of_nat i <? Z.of_nat (length a)) with false by (symmetry; apply Z.ltb_ge; lia).
  by rewrite andb_false_r.
Qed.

Lemma splice_step {A : Type} (l : list A) (i n : nat) (x : A) (m : list A) :
  (i < length l)%nat ->
  take (S i) (<[i := x]> l) ++ m ++ drop (S i + n) (<[i := x]> l)
  = take i l ++ (x :: m) ++ drop (i + S n) l.
Proof.
  intros H.
  rewrite (take_S_r _ _ x) by (by apply list_lookup_insert_eq).
  rewrite take_insert_ge by lia.
  rewrite drop_insert_lt by lia.
  rewrite <- app_assoc. simpl.
  replace (i + S n)%nat with (S (i + n)) by lia. reflexivity.
Qed.

(** When the slots [i, i + n) exist in both arrays, the loop fills them with
    the column starts and the running offsets of the rows from [r] on and
    leaves the other slots as they were. *)
Lemma plan_rows_fill (b : DTWBlock) (n : nat) :
  forall (r rs : Z) (i : nat) (a1 a2 : array),
    0 <= r -> r + Z.of_nat n < Word.modulus ->
    (i + n <= length a1)%nat -> (i + n <= length a2)%nat ->
    Z.of_nat (length a1) < Word.modulus ->
    plan_rows n b r (Z.of_nat i) rs (Block a1) (Block a2)
    = Done (Block (take i a1 ++ (Some <$> (col_start b <$> seqZ r (Z.of_nat n)))
                     ++ drop (i + n) a1),
            Block (take i a2 ++ (Some <$> row_offsets_from b r rs n)
                     ++ drop (i + n) a2)).
Proof.
  induction n as [|n IH]; intros r rs i a1 a2 Hr Hrn H1 H2 Hlen.
  - simpl. rewrite Nat.add_0_r, !take_drop. reflexivity.
  - cbn [plan_rows].
    rewrite col_start_code by (unfold Word.in_range; lia).
    rewrite poke_block by lia. cbn [mbind outcome_bind].
    rewrite poke_block by lia. cbn [mbind outcome_bind].
    rewrite (add_small r 1) by (unfold Word.in_range; lia).
    rewrite (add_small (Z.of_nat i) 1) by (unfold Word.in_range; lia).
    replace (Z.of_nat i + 1) with (Z.of_nat (S i)) by lia.
    rewrite IH by (rewrite ?length_insert; lia).
    rewrite (seqZ_cons r (Z.of_nat (S n))) by lia.
    replace (Z.pred (Z.of_nat (S n))) with (Z.of_nat n) by lia.
    replace (Z.succ r) with (r + 1) by lia.
    cbn [row_offsets_from fmap list_fmap].
    rewrite !splice_step by lia. reflexivity.
Qed.

(** When a slot is missing, the loop writes outside the block. *)
Lemma plan_rows_overflow (b : DTWBlock) (n : nat) :
  forall (r rs : Z) (i : nat) (a1 a2 : array),
    0 <= r -> r + Z.of_nat n < Word.modulus ->
    (i <= length a1)%nat -> (length a1 < i + n)%nat ->
    length a2 = length a1 ->
    Z.of_nat (length a1) < Word.modulus ->
    plan_rows n b r (Z.of_nat i) rs (Block a1) (Block a2) = Fault OutOfBounds.
Proof.
  induction n as [|n IH]; intros r rs i a1 a2 Hr Hrn H1 H2 H12 Hlen.
  - lia.
  - cbn [plan_rows].
    destruct (decide (i < length a1)%nat) as [Hlt|Hge].
    + rewrite poke_block by lia. cbn [mbind outcome_bind].
      rewrite poke_block by lia. cbn [mbind outcome_bind].
      rewrite (add_small r 1) by (unfold Word.in_range; lia).
      rewrite (add_small (Z.of_nat i) 1) by (unfold Word.in_range; lia).
      replace (Z.of_nat i + 1) with (Z.of_nat (S i)) by lia.
      apply IH; rewrite ?length_insert; lia.
    + rewrite (poke_block_out a1) by lia. reflexivity.
Qed.

(** The loop on two blocks fresh from [malloc], [slots] slots each. *)
Lemma plan_rows_fresh (b : DTWBlock) (slots : Z) :
  0 <= rb b <= re b -> re b < Word.modulus -> slots < Word.modulus ->
  re b - rb b <= slots ->
  plan_rows (Z.to_nat (re b - rb b)) b (rb b) 0 0
    (Block (replicate (Z.to_nat slots) None)) (Block (replicate (Z.to_nat slots) None))
  = Done (Block ((Some <$> (col_start b <$> seqZ (rb b) (Z.of_nat (Z.to_nat (re b - rb b)))))
                 ++ replicate (Z.to_nat (slots - (re b - rb b))) None),
          Block ((Some <$> row_offsets b)
                 ++ replicate (Z.to_nat (slots - (re b - rb b))) None)).
Proof.
  intros Hrb Hre Hs Hfit.
  pose proof (plan_rows_fill b (Z.to_nat (re b - rb b)) (rb b) 0 0%nat
                (replicate (Z.to_nat slots) None) (replicate (Z.to_nat slots) None)) as H.
  rewrite !length_replicate in H. change (Z.of_nat 0) with 0 in H.
  cbn [take app] in H.
  rewrite H by lia. rewrite drop_replicate. unfold row_offsets.
  replace (Z.to_nat slots - (0 + Z.to_nat (re b - rb b)))%nat
    with (Z.to_nat (slots - (re b - rb b))) by lia.
  reflexivity.
Qed.

Lemma plan_rows_fresh_overflow (b : DTWBlock) (slots : Z) :
  0 <= rb b -> re b < Word.modulus -> 0 <= slots < Word.modulus ->
  slots < re b - rb b ->
  plan_rows (Z.to_nat (re b - rb b)) b (rb b) 0 0
    (Block (replicate (Z.to_nat slots) None)) (Block (replicate (Z.to_nat slots) None))
  = Fault OutOfBounds.
Proof.
  intros Hrb Hre Hs Hfit.
  apply (plan_rows_overflow b (Z.to_nat (re b - rb b)) (rb b) 0 0%nat);
    rewrite ?length_replicate; lia.
Qed.

(** ** dtw_distances_prepare on a region *)

Lemma correct_block_normalized (b : DTWBlock) (N : Z) :
  correct_block b N = normalized b N.
Proof.
  unfold correct_block, normalized, set_re, set_ce. destruct b as [b1 e1 b2 e2].
  simpl. destruct (e1 =? 0) eqn:E1; simpl; destruct (e2 =? 0) eqn:E2; reflexivity.
Qed.

Section PrepareFacts.
Variable DTWSettings : Type.
Variable use_ssize_t : DTWSettings -> bool.
Variable dtw_distances_length : DTWBlock -> Z -> bool -> Z.

#[local] Abbreviation prepare :=
  (dtw_distances_prepare DTWSettings use_ssize_t dtw_distances_length).

Lemma planner_slots_bound (b : DTWBlock) : 0 <= planner_slots b < Word.modulus.
Proof.
  unfold planner_slots, Word.size_of.
  pose proof (wrap_in_range (8 * Word.sub (ce b) (cb b))) as H.
  unfold Word.in_range in H. fold (Word.mul 8 (Word.sub (ce b) (cb b))) in H.
  rewrite modulus_eq in *. split.
  - apply Z.div_pos; lia.
  - apply Z.div_lt_upper_bound; lia.
Qed.

(** An empty region after defaulting: nonzero return, length 0, nothing
    allocated. *)
Lemma prepare_empty (block : DTWBlock) (nb_series : Z) (settings : DTWSettings)
    (heap : allocator) :
  re (correct_block block nb_series) <= rb (correct_block block nb_series) \/
  ce (correct_block block nb_series) <= cb (correct_block block nb_series) ->
  prepare block nb_series AddressOfLocal AddressOfLocal AddressOfLocal settings heap
  = Done (1, mkPrepared (correct_block block nb_series) 0 Wild Wild
               [EvLength block nb_series (use_ssize_t settings)]).
Proof.
  intros H. unfold dtw_distances_prepare. cbn [is_null].
  destruct (Z.leb_spec (re (correct_block block nb_series))
                       (rb (correct_block block nb_series))); [reflexivity|].
  destruct (Z.leb_spec (ce (correct_block block nb_series))
                       (cb (correct_block block nb_series))); [reflexivity|lia].
Qed.

(** The part of [dtw_distances_prepare] after the emptiness checks. *)
Lemma prepare_nonempty (block : DTWBlock) (nb_series : Z) (settings : DTWSettings)
    (heap : allocator) :
  let b := correct_block block nb_series in
  nonempty b ->
  prepare block nb_series AddressOfLocal AddressOfLocal AddressOfLocal settings heap
  = '(pc, pl) ← plan_rows (Z.to_nat (re b - rb b)) b (rb b) 0 0
                  (malloc (cbs_granted heap) (planner_bytes b))
                  (malloc (rls_granted heap) (planner_bytes b));
    Done (0, mkPrepared b (dtw_distances_length block nb_series (use_ssize_t settings))
               pc pl
               [EvLength block nb_series (use_ssize_t settings);
                EvMalloc (planner_bytes b) (cbs_granted heap);
                EvMalloc (planner_bytes b) (rls_granted heap)]).
Proof.
  intros b [Hr Hc]. unfold dtw_distances_prepare. cbn [is_null]. fold b.
  destruct (Z.leb_spec (re b) (rb b)); [lia|].
  destruct (Z.leb_spec (ce b) (cb b)); [lia|].
  destruct (Z.ltb_spec (rb b) (re b)); [|lia].
  reflexivity.
Qed.

(** Every row has its slot: the preparation succeeds and the slots hold
    the column starts and the running offsets of the rows. *)
Lemma prepare_fits (block : DTWBlock) (nb_series : Z) (settings : DTWSettings) :
  let b := correct_block block nb_series in
  nonempty b -> 0 <= rb b -> re b < Word.modulus ->
  re b - rb b <= planner_slots b ->
  prepare block nb_series AddressOfLocal AddressOfLocal AddressOfLocal settings
    (mkAllocator true true)
  = Done (0, mkPrepared b (dtw_distances_length block nb_series (use_ssize_t settings))
               (Block ((Some <$> col_starts b)
                       ++ replicate (Z.to_nat (planner_slots b - (re b - rb b))) None))
               (Block ((Some <$> row_offsets b)
                       ++ replicate (Z.to_nat (planner_slots b - (re b - rb b))) None))
               [EvLength block nb_series (use_ssize_t settings);
                EvMalloc (planner_bytes b) true; EvMalloc (planner_bytes b) true]).
Proof.
  intros b Hne Hrb Hre Hfit.
  rewrite prepare_nonempty by exact Hne. fold b. cbn [cbs_granted rls_granted malloc].
  pose proof (planner_slots_bound b) as Hs. destruct Hne as [Hr Hc].
  unfold planner_bytes. fold (planner_slots b).
  rewrite plan_rows_fresh by lia. cbn [mbind outcome_bind].
  rewrite Z2Nat.id by lia. reflexivity.
Qed.

(** More rows than slots: the planning loop writes outside both arrays. *)
Lemma prepare_overflow (block : DTWBlock) (nb_series : Z) (settings : DTWSettings) :
  let b := correct_block block nb_series in
  nonempty b -> 0 <= rb b -> re b < Word.modulus ->
  planner_slots b < re b - rb b ->
  prepare block nb_series AddressOfLocal AddressOfLocal AddressOfLocal settings
    (mkAllocator true true)
  = Fault OutOfBounds.
Proof.
  intros b Hne Hrb Hre Hfit.
  rewrite prepare_nonempty by exact Hne. fold b. cbn [cbs_granted rls_granted malloc].
  pose proof (planner_slots_bound b) as Hs. destruct Hne as [Hr Hc].
  unfold planner_bytes. fold (planner_slots b).
  rewrite plan_rows_fresh_overflow by lia. reflexivity.
Qed.

(** A failed [malloc] is not noticed: the planning loop runs and writes
    through the null pointer (or outside the other array). *)
Lemma prepare_malloc_failed (block : DTWBlock) (nb_series : Z) (settings : DTWSettings)
    (heap : allocator) :
  nonempty (correct_block block nb_series) ->
  cbs_granted heap = false \/ rls_granted heap = false ->
  exists f : fault,
    prepare block nb_series AddressOfLocal AddressOfLocal AddressOfLocal settings heap
    = Fault f.
Proof.
  intros Hne Hheap. rewrite prepare_nonempty by exact Hne.
  destruct Hne as [Hr Hc].
  destruct (Z.to_nat (re (correct_block block nb_series)
                      - rb (correct_block block nb_series))) as [|n] eqn:En; [lia|].
  cbn [plan_rows].
  destruct (cbs_granted heap) eqn:E1.
  - destruct Hheap as [?|E2]; [congruence|]. rewrite E2. cbn [malloc].
    match goal with
    | |- context [poke (Block ?a) ?i ?v] => destruct (poke (Block a) i v) as [p|f]
    end.
    + cbn [mbind outcome_bind]. cbn [poke]. cbn [mbind outcome_bind]. eauto.
    + cbn [mbind outcome_bind]. eauto.
  - cbn [malloc poke mbind outcome_bind]. eauto.
Qed.
End PrepareFacts.

(** ** The compute loops *)

Lemma length_write_all {V : Type} (ws : list (Z * V)) (out : list V) :
  length (write_all ws out) = length out.
Proof.
  revert out. induction ws as [|w ws IH]; intros out; simpl; [reflexivity|].
  unfold write_all in *. simpl. rewrite IH. apply length_insert.
Qed.

Lemma write_all_app {V : Type} (ws1 ws2 : list (Z * V)) (out : list V) :
  write_all (ws1 ++ ws2) out = write_all ws2 (write_all ws1 out).
Proof. unfold write_all. apply foldl_app. Qed.

Lemma peek_block (a : array) (i : nat) (v : Z) :
  a !! i = Some (Some v) -> peek (Block a) (Z.of_nat i) = Done v.
Proof.
  intros H. unfold peek. rewrite Nat2Z.id, H.
  replace (0 <=? Z.of_nat i) with true by (symmetry; apply Z.leb_le; lia).
  reflexivity.
Qed.

Lemma store_in {V : Type} (out : list V) (i : Z) (v : V) :
  0 <= i < Z.of_nat (length out) -> store out i v = Done (<[Z.to_nat i := v]> out).
Proof.
  intros H. unfold store.
  replace (0 <=? i) with true by (symmetry; apply Z.leb_le; lia).
  replace (i <? Z.of_nat (length out)) with true by (symmetry; apply Z.ltb_lt; lia).
  reflexivity.
Qed.

Section Walk.
Variable seq_t : Type.
Variable value : Z -> Z -> outcome seq_t.
Variable val : Z -> Z -> seq_t.

(** The inner loop from column [c] with [c_i] columns done. *)
Lemma walk_columns_spec (r r_i rl : Z) (rls : pointer) (n : nat) :
  forall (c c_i : Z) (out : list seq_t),
    peek rls r_i = Done rl ->
    (forall c', c <= c' < c + Z.of_nat n -> value r c' = Done (val r c')) ->
    0 <= c -> c + Z.of_nat n < Word.modulus ->
    0 <= c_i -> 0 <= rl ->
    rl + c_i + Z.of_nat n <= Z.of_nat (length out) ->
    rl + c_i + Z.of_nat n < Word.modulus ->
    walk_columns seq_t value n r r_i c c_i rls out
    = Done (write_all ((fun c' => (rl + (c_i + (c' - c)), val r c')) <$> seqZ c (Z.of_nat n)) out,
            (fun c' => EvStore (rl + (c_i + (c' - c))) r c') <$> seqZ c (Z.of_nat n)).
Proof.
  induction n as [|n IH]; intros c c_i out Hrl Hval Hc Hcn Hci Hrl0 Hout Hmod.
  - reflexivity.
  - cbn [walk_columns]. rewrite Hval by lia. cbn [mbind outcome_bind].
    rewrite Hrl. cbn [mbind outcome_bind].
    rewrite (add_small rl c_i) by (unfold Word.in_range; lia).
    rewrite store_in by lia. cbn [mbind outcome_bind].
    rewrite (add_small c 1) by (unfold Word.in_range; lia).
    rewrite (add_small c_i 1) by (unfold Word.in_range; lia).
    rewrite IH by
      first [exact Hrl | (intros; apply Hval; lia) | (rewrite ?length_insert; lia)].
    cbn [mbind outcome_bind].
    rewrite (seqZ_cons c (Z.of_nat (S n))) by lia.
    replace (Z.pred (Z.of_nat (S n))) with (Z.of_nat n) by lia.
    replace (Z.succ c) with (c + 1) by lia.
    cbn [fmap list_fmap]. unfold write_all. cbn [foldl fst snd].
    replace (rl + (c_i + (c - c))) with (rl + c_i) by lia.
    f_equal. f_equal.
    + f_equal. apply list_fmap_ext. intros _ c' _. f_equal. lia.
    + f_equal. apply list_fmap_ext. intros _ c' _. f_equal. lia.
Qed.

Lemma walk_row_spec (b : DTWBlock) (r r_i c0 rl : Z) (rls : pointer) (out : list seq_t) :
  0 <= c0 ->
  (c0 < ce b ->
   peek rls r_i = Done rl /\
   0 <= rl /\ rl + (ce b - c0) <= Z.of_nat (length out) /\
   rl + (ce b - c0) < Word.modulus /\ ce b < Word.modulus /\
   forall c, c0 <= c < ce b -> value r c = Done (val r c)) ->
  walk_columns seq_t value (Z.to_nat (ce b - c0)) r r_i c0 0 rls out
  = Done (write_all (row_writes val b r c0 rl) out, row_events b r c0 rl).
Proof.
  intros Hc0 H. unfold row_writes, row_events.
  destruct (Z.lt_ge_cases c0 (ce b)) as [Hlt|Hge].
  - destruct (H Hlt) as (Hpeek & Hrl & Hout & Hmod & Hce & Hval).
    rewrite (walk_columns_spec r r_i rl rls) by
      first [exact Hpeek | (intros; apply Hval; lia) | lia].
    rewrite Z2Nat.id by lia.
    assert (E1 : ((fun c' : Z => (rl + (0 + (c' - c0)), val r c')) <$> seqZ c0 (ce b - c0))
                 = ((fun c : Z => (rl + (c - c0), val r c)) <$> seqZ c0 (ce b - c0))).
    { apply list_fmap_ext. intros _ c' _. f_equal. }
    assert (E2 : ((fun c' : Z => EvStore (rl + (0 + (c' - c0))) r c') <$> seqZ c0 (ce b - c0))
                 = ((fun c : Z => EvStore (rl + (c - c0)) r c) <$> seqZ c0 (ce b - c0))).
    { apply list_fmap_ext. intros _ c' _. f_equal. }
    rewrite E1, E2. reflexivity.
  - replace (Z.to_nat (ce b - c0)) with 0%nat by lia.
    rewrite seqZ_nil by lia. reflexivity.
Qed.

(** The row loop over arrays that hold [css] and [rls] from slot
    [length pre1] on. *)
Lemma walk_rows_spec (b : DTWBlock) (junk1 junk2 : array) (css : list Z) :
  forall (rls : list Z) (pre1 pre2 : array) (out : list seq_t),
    length pre1 = length pre2 ->
    rows_ok value val b (Z.of_nat (length out)) (rb b + Z.of_nat (length pre1)) css rls ->
    0 <= rb b ->
    rb b + Z.of_nat (length pre1) + Z.of_nat (length css) < Word.modulus ->
    walk_rows seq_t value (length css) b (Z.of_nat (length pre1))
      (Block (pre1 ++ (Some <$> css) ++ junk1))
      (Block (pre2 ++ (Some <$> rls) ++ junk2)) out
    = Done (write_all (region_writes val b (rb b + Z.of_nat (length pre1)) css rls) out,
            region_events b (rb b + Z.of_nat (length pre1)) css rls).
Proof.
  induction css as [|c0 css IH]; intros rls pre1 pre2 out Hpre Hok Hrb Hmod.
  - destruct rls; reflexivity.
  - destruct rls as [|rl rls]; [destruct Hok|].
    destruct Hok as [[Hc0 Hrow] Hok]. cbn [length] in Hmod.
    cbn [walk_rows length fmap list_fmap app].
    rewrite (add_small (rb b)) by (unfold Word.in_range; lia).
    rewrite (peek_block _ _ c0) by (by apply list_lookup_middle).
    cbn [mbind outcome_bind].
    rewrite (walk_row_spec b _ _ c0 rl).
    2: exact Hc0.
    2:{ intros Hlt. split; [|by apply Hrow].
        apply peek_block. rewrite Hpre. by apply list_lookup_middle. }
    cbn [mbind outcome_bind].
    rewrite (add_small (Z.of_nat (length pre1)) 1) by (unfold Word.in_range; lia).
    replace (pre1 ++ Some c0 :: (Some <$> css) ++ junk1)
      with ((pre1 ++ [Some c0]) ++ (Some <$> css) ++ junk1)
      by (by rewrite <- app_assoc).
    replace (pre2 ++ Some rl :: (Some <$> rls) ++ junk2)
      with ((pre2 ++ [Some rl]) ++ (Some <$> rls) ++ junk2)
      by (by rewrite <- app_assoc).
    replace (Z.of_nat (length pre1) + 1) with (Z.of_nat (length (pre1 ++ [Some c0])))
      by (rewrite length_app; simpl; lia).
    rewrite IH.
    + cbn [mbind outcome_bind region_writes region_events].
      rewrite write_all_app.
      replace (rb b + Z.of_nat (length (pre1 ++ [Some c0])))
        with (rb b + Z.of_nat (length pre1) + 1)
        by (rewrite length_app; simpl; lia).
      reflexivity.
    + rewrite !length_app. simpl. lia.
    + rewrite length_write_all.
      replace (rb b + Z.of_nat (length (pre1 ++ [Some c0])))
        with (rb b + Z.of_nat (length pre1) + 1)
        by (rewrite length_app; simpl; lia).
      exact Hok.
    + exact Hrb.
    + rewrite length_app. simpl. lia.
Qed.
End Walk.

(** ** Counting the pairs of a region *)

Lemma row_count_nonneg (b : DTWBlock) (r : Z) : 0 <= row_count b r.
Proof. unfold row_count. lia. Qed.

Lemma sumZ_app (l1 l2 : list Z) : sumZ (l1 ++ l2) = sumZ l1 + sumZ l2.
Proof. induction l1 as [|x l1 IH]; simpl; [reflexivity|]. unfold sumZ in *. simpl. lia. Qed.

Lemma sum_counts_nonneg (b : DTWBlock) (n : nat) :
  forall r, 0 <= sumZ (row_count b <$> seqZ r (Z.of_nat n)).
Proof.
  induction n as [|n IH]; intros r.
  - reflexivity.
  - rewrite seqZ_cons by lia. replace (Z.pred (Z.of_nat (S n))) with (Z.of_nat n) by lia.
    cbn [fmap list_fmap sumZ foldr]. fold (sumZ (row_count b <$> seqZ (Z.succ r) (Z.of_nat n))).
    pose proof (IH (Z.succ r)). pose proof (row_count_nonneg b r). lia.
Qed.

Lemma sum_counts_cons (b : DTWBlock) (n : nat) (r : Z) :
  sumZ (row_count b <$> seqZ r (Z.of_nat (S n)))
  = row_count b r + sumZ (row_count b <$> seqZ (r + 1) (Z.of_nat n)).
Proof.
  rewrite seqZ_cons by lia. replace (Z.pred (Z.of_nat (S n))) with (Z.of_nat n) by lia.
  replace (Z.succ r) with (r + 1) by lia. reflexivity.
Qed.

(** Past the last column every later row is empty. *)
Lemma sum_counts_past_end (b : DTWBlock) (n : nat) :
  forall r, ce b <= col_start b r -> sumZ (row_count b <$> seqZ r (Z.of_nat n)) = 0.
Proof.
  induction n as [|n IH]; intros r H.
  - reflexivity.
  - rewrite sum_counts_cons. rewrite IH by (unfold col_start in *; lia).
    unfold row_count. lia.
Qed.

Lemma col_start_mono (b : DTWBlock) (r : Z) : col_start b r <= col_start b (r + 1).
Proof. unfold col_start. lia. Qed.

(** The offsets of the rows that still have columns are exact: what the
    loop needs of a region whose pairs fit the buffer. *)
Lemma rows_ok_plan (seq_t : Type) (value : Z -> Z -> outcome seq_t) (val : Z -> Z -> seq_t)
    (b : DTWBlock) (len : Z) (n : nat) :
  forall r rs,
    0 <= r -> ce b < Word.modulus ->
    (forall r' c, r <= r' < r + Z.of_nat n -> col_start b r' <= c < ce b ->
                  value r' c = Done (val r' c)) ->
    (col_start b r < ce b ->
     0 <= rs /\ rs + sumZ (row_count b <$> seqZ r (Z.of_nat n)) <= len /\
     rs + sumZ (row_count b <$> seqZ r (Z.of_nat n)) < Word.modulus) ->
    rows_ok value val b len r (col_start b <$> seqZ r (Z.of_nat n))
      (row_offsets_from b r rs n).
Proof.
  induction n as [|n IH]; intros r rs Hr Hce Hval Hrs.
  - exact I.
  - rewrite seqZ_cons by lia. replace (Z.pred (Z.of_nat (S n))) with (Z.of_nat n) by lia.
    replace (Z.succ r) with (r + 1) by lia.
    cbn [fmap list_fmap row_offsets_from rows_ok].
    rewrite sum_counts_cons in Hrs.
    pose proof (sum_counts_nonneg b n (r + 1)) as Hnn.
    split.
    + split; [unfold col_start; lia|]. intros Hlt. specialize (Hrs Hlt).
      assert (row_count b r = ce b - col_start b r) as Hcnt by (unfold row_count; lia).
      repeat split; try lia. intros c Hc. apply Hval; lia.
    + apply IH; [lia | exact Hce | intros; apply Hval; lia |].
      intros Hlt. pose proof (col_start_mono b r) as Hm.
      assert (col_start b r < ce b) as Hlt0 by lia. specialize (Hrs Hlt0).
      assert (row_count b r = ce b - col_start b r) as Hcnt by (unfold row_count; lia).
      rewrite (sub_small (ce b)) by (unfold Word.in_range, col_start in *; lia).
      rewrite add_small by (unfold Word.in_range; lia). lia.
Qed.

(** ** The stores of a region *)

Lemma stores_app (t1 t2 : list event) : stores (t1 ++ t2) = stores t1 ++ stores t2.
Proof. unfold stores. apply omap_app. Qed.

Lemma stores_row_events (b : DTWBlock) (r c0 rl : Z) :
  stores (row_events b r c0 rl)
  = (fun c => (rl + (c - c0), (r, c))) <$> seqZ c0 (ce b - c0).
Proof.
  unfold stores, row_events. induction (seqZ c0 (ce b - c0)) as [|c l IH];
    [reflexivity | cbn; f_equal; exact IH].
Qed.

Lemma region_events_pairs (b : DTWBlock) (n : nat) :
  forall r rs,
    (snd <$> stores (region_events b r (col_start b <$> seqZ r (Z.of_nat n))
                       (row_offsets_from b r rs n)))
    = pairs_from b r (Z.of_nat n).
Proof.
  induction n as [|n IH]; intros r rs.
  - reflexivity.
  - unfold pairs_from. rewrite seqZ_cons by lia.
    replace (Z.pred (Z.of_nat (S n))) with (Z.of_nat n) by lia.
    replace (Z.succ r) with (r + 1) by lia.
    cbn [fmap list_fmap row_offsets_from region_events mbind list_bind].
    rewrite stores_app, fmap_app, IH, stores_row_events.
    rewrite <- list_fmap_compose. reflexivity.
Qed.

Lemma seqZ_shift (rs c0 n : Z) :
  ((fun c => rs + (c - c0)) <$> seqZ c0 n) = seqZ rs n.
Proof.
  replace (seqZ rs n) with (seqZ ((rs - c0) + c0) n) by (f_equal; lia).
  rewrite <- (fmap_add_seqZ (rs - c0) c0 n).
  apply list_fmap_ext. intros _ c _. lia.
Qed.

Lemma region_events_indices (b : DTWBlock) (n : nat) :
  forall r rs,
    (col_start b r < ce b ->
     0 <= rs /\ rs + sumZ (row_count b <$> seqZ r (Z.of_nat n)) < Word.modulus) ->
    (fst <$> stores (region_events b r (col_start b <$> seqZ r (Z.of_nat n))
                       (row_offsets_from b r rs n)))
    = seqZ rs (sumZ (row_count b <$> seqZ r (Z.of_nat n))).
Proof.
  induction n as [|n IH]; intros r rs Hrs.
  - reflexivity.
  - rewrite sum_counts_cons in *.
    rewrite seqZ_cons by lia. replace (Z.pred (Z.of_nat (S n))) with (Z.of_nat n) by lia.
    replace (Z.succ r) with (r + 1) by lia.
    cbn [fmap list_fmap row_offsets_from region_events].
    rewrite stores_app, fmap_app, stores_row_events, <- list_fmap_compose.
    pose proof (sum_counts_nonneg b n (r + 1)) as Hnn.
    pose proof (col_start_mono b r) as Hm.
    destruct (Z.lt_ge_cases (col_start b r) (ce b)) as [Hlt|Hge].
    + specialize (Hrs Hlt).
      assert (row_count b r = ce b - col_start b r) as Hcnt by (unfold row_count; lia).
      rewrite IH.
      * rewrite (sub_small (ce b)) by (unfold Word.in_range, col_start in *; lia).
        rewrite add_small by (unfold Word.in_range; lia).
        rewrite seqZ_app by lia. rewrite Hcnt. f_equal.
        apply (seqZ_shift rs (col_start b r)).
      * intros _.
        rewrite (sub_small (ce b)) by (unfold Word.in_range, col_start in *; lia).
        rewrite add_small by (unfold Word.in_range; lia). lia.
    + rewrite (seqZ_nil (col_start b r)) by lia. cbn [fmap list_fmap app].
      rewrite IH by lia.
      rewrite (sum_counts_past_end b n (r + 1)) by lia.
      assert (row_count b r = 0) as -> by (unfold row_count; lia).
      reflexivity.
Qed.

(** ** The shared body on a region whose rows all have a slot *)

Lemma length_col_starts (b : DTWBlock) : length (col_starts b) = Z.to_nat (re b - rb b).
Proof. unfold col_starts, rows. by rewrite length_fmap, length_seqZ. Qed.

Lemma col_starts_of_nat (b : DTWBlock) :
  0 <= re b - rb b ->
  col_starts b = col_start b <$> seqZ (rb b) (Z.of_nat (Z.to_nat (re b - rb b))).
Proof. intros H. unfold col_starts, rows. by rewrite Z2Nat.id. Qed.

Lemma total_pairs_of_nat (b : DTWBlock) :
  0 <= re b - rb b ->
  total_pairs b = sumZ (row_count b <$> seqZ (rb b) (Z.of_nat (Z.to_nat (re b - rb b)))).
Proof. intros H. unfold total_pairs, rows. by rewrite Z2Nat.id. Qed.

Section Entry.
Variable seq_t : Type.
Variable DTWSettings : Type.
Variable use_ssize_t : DTWSettings -> bool.
Variable dtw_distances_length : DTWBlock -> Z -> bool -> Z.
Variable value : Z -> Z -> outcome seq_t.
Variable val : Z -> Z -> seq_t.

#[local] Abbreviation run :=
  (distances_parallel seq_t DTWSettings use_ssize_t dtw_distances_length value).

Lemma distances_parallel_fits (block : DTWBlock) (N : Z) (out : list seq_t)
    (settings : DTWSettings) :
  let b := correct_block block N in
  valid_region b N -> N < Word.modulus ->
  re b - rb b <= planner_slots b ->
  total_pairs b <= Z.of_nat (length out) -> total_pairs b < Word.modulus ->
  (forall r c, rb b <= r < re b -> col_start b r <= c < ce b ->
               value r c = Done (val r c)) ->
  run N out block settings (mkAllocator true true)
  = Done (dtw_distances_length block N (use_ssize_t settings),
          mkResult b
            (write_all (region_writes val b (rb b) (col_starts b) (row_offsets b)) out)
            (full_trace use_ssize_t block N settings)).
Proof.
  intros b (Hrb & Hre & Hcb & Hce) HN Hfit Hout Hmod Hval.
  unfold distances_parallel.
  rewrite prepare_fits; fold b; [| split; lia | lia | lia | exact Hfit].
  cbn [mbind outcome_bind negb Z.eqb pr_block pr_cbs pr_rls pr_length pr_trace].
  rewrite sub_small by (unfold Word.in_range; lia).
  rewrite <- length_col_starts.
  pose proof (walk_rows_spec seq_t value val b
                (replicate (Z.to_nat (planner_slots b - (re b - rb b))) None)
                (replicate (Z.to_nat (planner_slots b - (re b - rb b))) None)
                (col_starts b) (row_offsets b) [] [] out) as Hw.
  cbn [length app] in Hw. change (Z.of_nat 0) with 0 in Hw. rewrite Z.add_0_r in Hw.
  rewrite Hw; [reflexivity | reflexivity | | lia | rewrite length_col_starts; lia].
  rewrite col_starts_of_nat by lia. unfold row_offsets.
  apply rows_ok_plan; [lia | lia | intros; apply Hval; lia |].
  intros _. rewrite <- total_pairs_of_nat by lia. lia.
Qed.
End Entry.

(** ** The stores of a call that goes through *)

Lemma region_store_indices (b : DTWBlock) :
  0 <= re b - rb b -> total_pairs b < Word.modulus ->
  (fst <$> stores (region_events b (rb b) (col_starts b) (row_offsets b)))
  = seqZ 0 (total_pairs b).
Proof.
  intros H Hmod. rewrite col_starts_of_nat, total_pairs_of_nat by lia. unfold row_offsets.
  apply region_events_indices. intros _. rewrite <- total_pairs_of_nat by lia. lia.
Qed.

Lemma region_store_pairs (b : DTWBlock) :
  0 <= re b - rb b ->
  (snd <$> stores (region_events b (rb b) (col_starts b) (row_offsets b)))
  = region_pairs b.
Proof.
  intros H. rewrite col_starts_of_nat by lia. unfold row_offsets, region_pairs.
  rewrite region_events_pairs. by rewrite Z2Nat.id.
Qed.

Lemma elem_of_region_pairs (b : DTWBlock) (r c : Z) :
  (r, c) ∈ region_pairs b <->
  rb b <= r < re b /\ Z.max (r + 1) (cb b) <= c < ce b.
Proof.
  unfold region_pairs, pairs_from. rewrite list_elem_of_bind. split.
  - intros (r' & Hc & Hr). apply list_elem_of_fmap in Hc as (c' & Heq & Hc').
    inversion Heq; subst. apply elem_of_seqZ in Hr, Hc'. unfold col_start in *. lia.
  - intros [Hr Hc]. exists r. split.
    + apply list_elem_of_fmap. exists c. split; [reflexivity|].
      apply elem_of_seqZ. unfold col_start. lia.
    + apply elem_of_seqZ. lia.
Qed.

Lemma NoDup_region_pairs (b : DTWBlock) : NoDup (region_pairs b).
Proof.
  unfold region_pairs, pairs_from. apply NoDup_bind.
  - intros r1 r2 [r c] _ _ H1 H2.
    apply list_elem_of_fmap in H1 as (c1 & E1 & _).
    apply list_elem_of_fmap in H2 as (c2 & E2 & _). congruence.
  - intros r _. apply NoDup_fmap_2_strong; [|apply NoDup_seqZ].
    intros c1 c2 _ _ E. congruence.
  - apply NoDup_seqZ.
Qed.

Lemma length_region_pairs_stores (b : DTWBlock) :
  0 <= re b - rb b -> 0 <= total_pairs b < Word.modulus ->
  length (region_pairs b) = Z.to_nat (total_pairs b).
Proof.
  intros H Hmod. rewrite <- region_store_pairs by exact H.
  rewrite length_fmap, <- (length_fmap fst), region_store_indices by lia.
  apply length_seqZ.
Qed.

(** ** The order of the stores

    The row loop is an OpenMP parallel loop: the stores of different rows
    happen in any order.  They go to distinct slots, so the buffer they leave
    is the one of the row-by-row order. *)

Lemma write_all_permutation {V : Type} (ws ws' : list (Z * V)) :
  ws ≡ₚ ws' ->
  forall out : list V,
    NoDup ((fun w => Z.to_nat (fst w)) <$> ws) -> write_all ws out = write_all ws' out.
Proof.
  induction 1 as [|w l l' Hp IH|w1 w2 l|l1 l2 l3 H12 IH12 H23 IH23]; intros out Hnd.
  - reflexivity.
  - cbn in Hnd. apply NoDup_cons in Hnd as [_ Hnd]. unfold write_all in *. cbn.
    apply IH. exact Hnd.
  - cbn in Hnd. apply NoDup_cons in Hnd as [Hne _]. unfold write_all. cbn.
    f_equal. apply list_insert_insert_ne. intros Heq. apply Hne. rewrite Heq. left.
  - rewrite IH12 by exact Hnd. apply IH23. by rewrite <- H12.
Qed.

Lemma fst_region_writes {V : Type} (val : Z -> Z -> V) (b : DTWBlock) (css : list Z) :
  forall (r : Z) (rls : list Z),
    (fst <$> region_writes val b r css rls) = (fst <$> stores (region_events b r css rls)).
Proof.
  induction css as [|c0 css IH]; intros r [|rl rls]; try reflexivity.
  cbn [region_writes region_events]. rewrite stores_app, !fmap_app, IH, stores_row_events.
  unfold row_writes. rewrite <- !list_fmap_compose. reflexivity.
Qed.

(** The writes of a region in any order leave the same buffer. *)
Lemma region_writes_any_order {V : Type} (val : Z -> Z -> V) (b : DTWBlock)
    (ws : list (Z * V)) (out : list V) :
  0 <= re b - rb b -> total_pairs b < Word.modulus ->
  region_writes val b (rb b) (col_starts b) (row_offsets b) ≡ₚ ws ->
  write_all ws out
  = write_all (region_writes val b (rb b) (col_starts b) (row_offsets b)) out.
Proof.
  intros Hrows Hmod Hp. symmetry. apply write_all_permutation; [exact Hp|].
  change (fun w : Z * V => Z.to_nat (fst w)) with (Z.to_nat ∘ (@fst Z V)).
  rewrite (list_fmap_compose fst Z.to_nat), fst_region_writes, region_store_indices
    by assumption.
  apply NoDup_fmap_2_strong; [|apply NoDup_seqZ].
  intros x y Hx Hy Heq. apply elem_of_seqZ in Hx, Hy. lia.
Qed.

(** ** What any returning call leaves behind *)

Lemma store_inv {V : Type} (out out' : list V) (i : Z) (v : V) :
  store out i v = Done out' ->
  0 <= i < Z.of_nat (length out) /\ out' = <[Z.to_nat i := v]> out.
Proof.
  unfold store. destruct (Z.leb_spec 0 i); [|discriminate].
  destruct (Z.ltb_spec i (Z.of_nat (length out))); [|discriminate].
  simpl. intros [= <-]. split; [lia | reflexivity].
Qed.

Section Frame.
Variable seq_t : Type.
Variable value : Z -> Z -> outcome seq_t.

(** The inner loop changes the buffer only where it records a store. *)
Lemma walk_columns_frame (r r_i : Z) (rls : pointer) (n : nat) :
  forall (c c_i : Z) (out out' : list seq_t) (evs : list event),
    walk_columns seq_t value n r r_i c c_i rls out = Done (out', evs) ->
    length out' = length out /\ Forall is_store evs /\
    forall j : nat, Z.of_nat j ∉ (fst <$> stores evs) -> out' !! j = out !! j.
Proof.
  induction n as [|n IH]; intros c c_i out out' evs H.
  - cbn [walk_columns] in H. inversion H; subst.
    split; [reflexivity | split; [constructor | done]].
  - cbn [walk_columns] in H. bind_inv H. bind_inv H. bind_inv H. bind_inv H.
    destruct a2 as [o e]. inversion H; subst. clear H.
    apply store_inv in E1 as [Hi ->].
    apply IH in E2 as (Hlen & Hst & Hfr). rewrite length_insert in Hlen.
    split; [exact Hlen|]. split; [constructor; [by eexists _, _, _ | exact Hst]|].
    intros j Hj. cbn in Hj. rewrite not_elem_of_cons in Hj. destruct Hj as [Hne Hj].
    rewrite Hfr by exact Hj. apply list_lookup_insert_ne. lia.
Qed.

Lemma walk_rows_frame (b : DTWBlock) (cbs rls : pointer) (n : nat) :
  forall (r_i : Z) (out out' : list seq_t) (evs : list event),
    walk_rows seq_t value n b r_i cbs rls out = Done (out', evs) ->
    length out' = length out /\ Forall is_store evs /\
    forall j : nat, Z.of_nat j ∉ (fst <$> stores evs) -> out' !! j = out !! j.
Proof.
  induction n as [|n IH]; intros r_i out out' evs H.
  - cbn [walk_rows] in H. inversion H; subst.
    split; [reflexivity | split; [constructor | done]].
  - cbn [walk_rows] in H. bind_inv H. bind_inv H. destruct a0 as [o1 e1].
    bind_inv H. destruct a0 as [o2 e2]. inversion H; subst. clear H.
    apply walk_columns_frame in E0 as (Hl1 & Hs1 & Hf1).
    apply IH in E1 as (Hl2 & Hs2 & Hf2).
    split; [congruence|]. split; [by apply Forall_app|].
    intros j Hj. rewrite stores_app, fmap_app, not_elem_of_app in Hj.
    destruct Hj as [Hj1 Hj2]. rewrite Hf2, Hf1 by assumption. reflexivity.
Qed.
End Frame.

Lemma count_app (p : event -> bool) (t1 t2 : list event) :
  count p (t1 ++ t2) = (count p t1 + count p t2)%nat.
Proof. unfold count. by rewrite filter_app, length_app. Qed.

Lemma count_stores (p : event -> bool) (evs : list event) :
  (forall i r c, p (EvStore i r c) = false) -> Forall is_store evs -> count p evs = 0%nat.
Proof.
  intros Hp H. induction H as [|e evs (i & r & c & ->) _ IH]; [reflexivity|].
  unfold count in *. cbn. rewrite Hp. exact IH.
Qed.

Section PrepareInversion.
Variable DTWSettings : Type.
Variable use_ssize_t : DTWSettings -> bool.
Variable dtw_distances_length : DTWBlock -> Z -> bool -> Z.

(** The two ways [dtw_distances_prepare] returns to an entry point. *)
Lemma prepare_inv (block : DTWBlock) (nb_series : Z) (settings : DTWSettings)
    (heap : allocator) (rc : Z) (p : prepared) :
  dtw_distances_prepare DTWSettings use_ssize_t dtw_distances_length
    block nb_series AddressOfLocal AddressOfLocal AddressOfLocal settings heap
  = Done (rc, p) ->
  let b := correct_block block nb_series in
  (rc = 1 /\ (re b <= rb b \/ ce b <= cb b) /\
   p = mkPrepared b 0 Wild Wild [EvLength block nb_series (use_ssize_t settings)])
  \/
  (rc = 0 /\ nonempty b /\ heap = mkAllocator true true /\
   plan_rows (Z.to_nat (re b - rb b)) b (rb b) 0 0
     (malloc true (planner_bytes b)) (malloc true (planner_bytes b))
   = Done (pr_cbs p, pr_rls p) /\
   pr_block p = b /\
   pr_length p = dtw_distances_length block nb_series (use_ssize_t settings) /\
   pr_trace p = [EvLength block nb_series (use_ssize_t settings);
                 EvMalloc (planner_bytes b) true; EvMalloc (planner_bytes b) true]).
Proof.
  intros H b.
  destruct (Z.le_gt_cases (re b) (rb b)) as [Hr|Hr].
  { left. rewrite prepare_empty in H by (left; exact Hr). inversion H. auto. }
  destruct (Z.le_gt_cases (ce b) (cb b)) as [Hc|Hc].
  { left. rewrite prepare_empty in H by (right; exact Hc). inversion H. auto. }
  right. assert (nonempty b) as Hne by (split; lia).
  rewrite prepare_nonempty in H by exact Hne. fold b in H.
  destruct heap as [g1 g2]. cbn [cbs_granted rls_granted] in H.
  assert (g1 = true /\ g2 = true) as [-> ->].
  { destruct (Z.to_nat (re b - rb b)) as [|n] eqn:En; [lia|].
    cbn [plan_rows] in H. destruct g1; [|discriminate H].
    destruct g2; [done|]. cbn [malloc] in H.
    match type of H with
    | context [poke (Block ?a) ?i ?v] => destruct (poke (Block a) i v)
    end; cbn [mbind outcome_bind poke] in H; discriminate H. }
  bind_inv H. destruct a as [pc pl]. inversion H; subst. cbn.
  repeat split; try lia; try reflexivity.
Qed.
End PrepareInversion.

(** ** Two variants that fetch the same metric *)

Lemma poke_in_range (p p' : pointer) (i v : Z) :
  0 <= v -> slots_in_range p -> poke p i v = Done p' -> slots_in_range p'.
Proof.
  intros Hv Hp H. destruct p as [| |a]; try discriminate H. unfold poke in H.
  destruct (_ && _); [|discriminate H]. inversion H; subst. cbn in *.
  apply Forall_insert; [exact Hp|]. intros v' [= <-]. exact Hv.
Qed.

Lemma plan_rows_in_range (b : DTWBlock) (n : nat) :
  forall (r ir rs : Z) (cbs rls cbs' rls' : pointer),
    0 <= cb b -> slots_in_range cbs ->
    plan_rows n b r ir rs cbs rls = Done (cbs', rls') -> slots_in_range cbs'.
Proof.
  induction n as [|n IH]; intros r ir rs cbs rls cbs' rls' Hcb Hin H.
  - cbn in H. inversion H; subst. exact Hin.
  - cbn [plan_rows] in H. bind_inv H. bind_inv H.
    apply IH in H; [exact H | exact Hcb |].
    eapply poke_in_range; [| exact Hin | exact E].
    destruct (_ >? _); [apply wrap_in_range | exact Hcb].
Qed.

Lemma peek_in_range (p : pointer) (i v : Z) :
  slots_in_range p -> peek p i = Done v -> 0 <= v.
Proof.
  intros Hp H. destruct p as [| |a]; try discriminate H. unfold peek in H.
  destruct (a !! Z.to_nat i) as [[v'|]|] eqn:E; try discriminate H.
  destruct (0 <=? i); [|discriminate H]. inversion H; subst.
  cbn in Hp. rewrite Forall_lookup in Hp. exact (Hp _ _ E v eq_refl).
Qed.

Section Extensionality.
Variable seq_t : Type.
Variables value1 value2 : Z -> Z -> outcome seq_t.

Lemma walk_columns_ext (r r_i : Z) (rls : pointer) (n : nat) :
  forall (c c_i : Z) (out : list seq_t),
    0 <= c -> c + Z.of_nat n < Word.modulus ->
    (forall c', c <= c' < c + Z.of_nat n -> value1 r c' = value2 r c') ->
    walk_columns seq_t value1 n r r_i c c_i rls out
    = walk_columns seq_t value2 n r r_i c c_i rls out.
Proof.
  induction n as [|n IH]; intros c c_i out Hc Hmod Hval; [reflexivity|].
  cbn [walk_columns]. rewrite Hval by lia.
  destruct (value2 r c) as [v|f]; [|reflexivity]. cbn [mbind outcome_bind].
  destruct (peek rls r_i) as [rl|f]; [|reflexivity]. cbn [mbind outcome_bind].
  destruct (store out _ v) as [out1|f]; [|reflexivity]. cbn [mbind outcome_bind].
  rewrite (add_small c 1) by (unfold Word.in_range; lia).
  rewrite IH; [reflexivity | lia | lia | intros; apply Hval; lia].
Qed.

Lemma walk_rows_ext (b : DTWBlock) (N : Z) (cbs rls : pointer) (n : nat) :
  forall (r_i : Z) (out : list seq_t),
    slots_in_range cbs ->
    0 <= rb b -> 0 <= r_i -> rb b + r_i + Z.of_nat n <= N ->
    ce b <= N -> N < Word.modulus ->
    (forall r c, 0 <= r < N -> 0 <= c < N -> value1 r c = value2 r c) ->
    walk_rows seq_t value1 n b r_i cbs rls out
    = walk_rows seq_t value2 n b r_i cbs rls out.
Proof.
  induction n as [|n IH]; intros r_i out Hin Hrb Hri Hrows Hce HN Hval; [reflexivity|].
  cbn [walk_rows].
  destruct (peek cbs r_i) as [c0|f] eqn:E; [|reflexivity]. cbn [mbind outcome_bind].
  apply peek_in_range in E; [|exact Hin].
  rewrite (add_small (rb b) r_i) by (unfold Word.in_range; lia).
  assert (walk_columns seq_t value1 (Z.to_nat (ce b - c0)) (rb b + r_i) r_i c0 0 rls out
          = walk_columns seq_t value2 (Z.to_nat (ce b - c0)) (rb b + r_i) r_i c0 0 rls out)
    as ->.
  { destruct (Z.lt_ge_cases c0 (ce b)) as [Hlt|Hge].
    - apply walk_columns_ext; [lia | lia | intros; apply Hval; lia].
    - replace (Z.to_nat (ce b - c0)) with 0%nat by lia. reflexivity. }
  destruct (walk_columns _ _ _ _ _ _ _ _ _) as [[out1 evs]|f]; [|reflexivity].
  cbn [mbind outcome_bind].
  rewrite (add_small r_i 1) by (unfold Word.in_range; lia).
  rewrite IH; [reflexivity | exact Hin | lia | lia | lia | lia | lia | exact Hval].
Qed.
End Extensionality.

Section EntryExtensionality.
Variable seq_t : Type.
Variable DTWSettings : Type.
Variable use_ssize_t : DTWSettings -> bool.
Variable dtw_distances_length : DTWBlock -> Z -> bool -> Z.
Variables value1 value2 : Z -> Z -> outcome seq_t.

(** Two variants whose fetches agree on the series [0 .. N-1] do the same
    on every region inside the grid. *)
Lemma distances_parallel_ext (N : Z) (out : list seq_t) (block : DTWBlock)
    (settings : DTWSettings) (heap : allocator) :
  let b := correct_block block N in
  0 <= rb b -> 0 <= cb b -> re b <= N -> ce b <= N -> N < Word.modulus ->
  (forall r c, 0 <= r < N -> 0 <= c < N -> value1 r c = value2 r c) ->
  distances_parallel seq_t DTWSettings use_ssize_t dtw_distances_length value1
    N out block settings heap
  = distances_parallel seq_t DTWSettings use_ssize_t dtw_distances_length value2
    N out block settings heap.
Proof.
  intros b Hrb Hcb Hre Hce HN Hval. unfold distances_parallel.
  destruct (dtw_distances_prepare _ _ _ _ _ _ _ _ _ _) as [[rc p]|f] eqn:E;
    [|reflexivity].
  cbn [mbind outcome_bind].
  apply prepare_inv in E as [(-> & _ & ->)|(-> & [Hr Hc] & -> & Hplan & Hb & _ & _)];
    [reflexivity|].
  cbn [negb Z.eqb]. rewrite Hb. fold b in Hr, Hc, Hplan |- *.
  rewrite sub_small by (unfold Word.in_range; lia).
  rewrite (walk_rows_ext seq_t value1 value2 b N); [reflexivity | | lia..| exact Hval].
  eapply plan_rows_in_range; [exact Hcb | | exact Hplan].
  cbn. apply Forall_replicate. intros v [=].
Qed.
End EntryExtensionality.

(** ** The running offsets while no row lies past the last column *)

Lemma sum_counts_snoc (b : DTWBlock) (k : nat) (r : Z) :
  sumZ (row_count b <$> seqZ r (Z.of_nat (S k)))
  = sumZ (row_count b <$> seqZ r (Z.of_nat k)) + row_count b (r + Z.of_nat k).
Proof.
  rewrite seqZ_S, fmap_app, sumZ_app. cbn. unfold sumZ. cbn. lia.
Qed.

Lemma sum_counts_prefix (b : DTWBlock) (k n : nat) (r : Z) :
  (k <= n)%nat ->
  sumZ (row_count b <$> seqZ r (Z.of_nat k)) <= sumZ (row_count b <$> seqZ r (Z.of_nat n)).
Proof.
  intros H. replace (Z.of_nat n) with (Z.of_nat k + Z.of_nat (n - k)) by lia.
  rewrite seqZ_app, fmap_app, sumZ_app by lia.
  pose proof (sum_counts_nonneg b (n - k) (r + Z.of_nat k)). lia.
Qed.

(** Entry [k] of the offsets is the exact number of pairs of the [k] rows
    before it, as long as these rows start at or before the last column. *)
Lemma row_offsets_from_exact (b : DTWBlock) (n : nat) :
  forall (r rs : Z) (k : nat),
    (k < n)%nat -> 0 <= rs -> cb b <= ce b ->
    r + Z.of_nat k <= ce b ->
    rs + sumZ (row_count b <$> seqZ r (Z.of_nat k)) < Word.modulus ->
    row_offsets_from b r rs n !! k
    = Some (rs + sumZ (row_count b <$> seqZ r (Z.of_nat k))).
Proof.
  induction n as [|n IH]; intros r rs k Hk Hrs Hcb Hr Hmod; [lia|].
  destruct k as [|k].
  - change (Z.of_nat 0) with 0. rewrite seqZ_nil by lia. cbn. f_equal. lia.
  - cbn [row_offsets_from lookup list_lookup].
    rewrite sum_counts_cons in *.
    pose proof (sum_counts_nonneg b k (r + 1)) as Hnn.
    assert (row_count b r = ce b - col_start b r) as Hcnt
      by (unfold row_count, col_start; lia).
    pose proof (row_count_nonneg b r) as Hc0.
    rewrite (sub_small (ce b)) by (unfold Word.in_range; lia).
    rewrite add_small by (unfold Word.in_range; lia).
    rewrite IH by lia. f_equal. lia.
Qed.

(** ** The four entry points on a region whose rows all have a slot *)

Lemma fetch_in {A : Type} `{Inhabited A} (a : list A) (i : Z) :
  0 <= i < Z.of_nat (length a) -> fetch a i = Done (a !!! Z.to_nat i).
Proof.
  intros Hi. unfold fetch. destruct (Z.ltb_spec i 0); [lia|].
  destruct (lookup_lt_is_Some_2 a (Z.to_nat i)) as [x Hx]; [lia|].
  rewrite Hx. f_equal. symmetry. by apply list_lookup_total_correct.
Qed.

Section Variants.
Variable seq_t : Type.
Variable DTWSettings : Type.
Variable use_ssize_t : DTWSettings -> bool.
Variable dtw_distances_length : DTWBlock -> Z -> bool -> Z.
Variable dtw_distance : Z -> Z -> Z -> Z -> DTWSettings -> seq_t.
Variable dtw_distance_ndim : Z -> Z -> Z -> Z -> Z -> DTWSettings -> seq_t.

Lemma ptrs_parallel_goes_through (ptrs : list Z) (N : Z) (lengths : list Z)
    (out : list seq_t) (block : DTWBlock) (settings : DTWSettings) :
  goes_through block N out ->
  Z.of_nat (length ptrs) = N -> Z.of_nat (length lengths) = N ->
  dtw_distances_ptrs_parallel seq_t DTWSettings use_ssize_t dtw_distances_length
    dtw_distance ptrs N lengths out block settings (mkAllocator true true)
  = gone_through use_ssize_t dtw_distances_length
    (ptrs_metric dtw_distance ptrs lengths settings) block N out settings.
Proof.
  intros (Hv & HN & Hfit & Hout & Hmod) Hp Hl.
  unfold dtw_distances_ptrs_parallel, gone_through.
  apply distances_parallel_fits; try assumption.
  intros r c Hr Hc. destruct Hv as (? & ? & ? & ?). unfold col_start in Hc.
  rewrite !fetch_in by lia. reflexivity.
Qed.

Lemma ndim_ptrs_parallel_goes_through (ptrs : list Z) (N : Z) (lengths : list Z)
    (ndim : Z) (out : list seq_t) (block : DTWBlock) (settings : DTWSettings) :
  goes_through block N out ->
  Z.of_nat (length ptrs) = N -> Z.of_nat (length lengths) = N ->
  dtw_distances_ndim_ptrs_parallel seq_t DTWSettings use_ssize_t dtw_distances_length
    dtw_distance_ndim ptrs N lengths ndim out block settings (mkAllocator true true)
  = gone_through use_ssize_t dtw_distances_length
    (ndim_ptrs_metric dtw_distance_ndim ptrs lengths ndim settings) block N out settings.
Proof.
  intros (Hv & HN & Hfit & Hout & Hmod) Hp Hl.
  unfold dtw_distances_ndim_ptrs_parallel, gone_through.
  apply distances_parallel_fits; try assumption.
  intros r c Hr Hc. destruct Hv as (? & ? & ? & ?). unfold col_start in Hc.
  rewrite !fetch_in by lia. reflexivity.
Qed.

Lemma matrix_parallel_goes_through (matrix N nb_cols : Z)
    (out : list seq_t) (block : DTWBlock) (settings : DTWSettings) :
  goes_through block N out ->
  dtw_distances_matrix_parallel seq_t DTWSettings use_ssize_t dtw_distances_length
    dtw_distance matrix N nb_cols out block settings (mkAllocator true true)
  = gone_through use_ssize_t dtw_distances_length
    (matrix_metric dtw_distance matrix nb_cols settings) block N out settings.
Proof.
  intros (Hv & HN & Hfit & Hout & Hmod).
  unfold dtw_distances_matrix_parallel, gone_through.
  apply distances_parallel_fits; try assumption. reflexivity.
Qed.

Lemma ndim_matrix_parallel_goes_through (matrix N nb_cols ndim : Z)
    (out : list seq_t) (block : DTWBlock) (settings : DTWSettings) :
  goes_through block N out ->
  dtw_distances_ndim_matrix_parallel seq_t DTWSettings use_ssize_t dtw_distances_length
    dtw_distance_ndim matrix N nb_cols ndim out block settings (mkAllocator true true)
  = gone_through use_ssize_t dtw_distances_length
    (ndim_matrix_metric dtw_distance_ndim matrix nb_cols ndim settings) block N out settings.
Proof.
  intros (Hv & HN & Hfit & Hout & Hmod).
  unfold dtw_distances_ndim_matrix_parallel, gone_through.
  apply distances_parallel_fits; try assumption. reflexivity.
Qed.

(** The stores of a call that went through: the slots [0 .. total - 1] in
    order, one for each pair of the region in row-major order. *)
Lemma gone_through_stores (val : Z -> Z -> seq_t) (block : DTWBlock) (N : Z)
    (out : list seq_t) (settings : DTWSettings) (len : Z) (res : result seq_t) :
  goes_through block N out ->
  gone_through use_ssize_t dtw_distances_length val block N out settings = Done (len, res) ->
  let b := correct_block block N in
  stores (res_trace res) = stores (region_events b (rb b) (col_starts b) (row_offsets b)) /\
  (fst <$> stores (res_trace res)) = seqZ 0 (total_pairs b) /\
  (snd <$> stores (res_trace res)) = region_pairs b /\
  len = dtw_distances_length block N (use_ssize_t settings).
Proof.
  intros (Hv & HN & Hfit & Hout & Hmod) H b. unfold gone_through in H.
  inversion H; subst. cbn [res_trace]. unfold full_trace. fold b.
  rewrite !stores_app.
  change (stores [EvFree; EvFree]) with (@nil (Z * (Z * Z))).
  change (stores [EvLength block N (use_ssize_t settings);
                  EvMalloc (planner_bytes b) true; EvMalloc (planner_bytes b) true])
    with (@nil (Z * (Z * Z))).
  rewrite app_nil_r. cbn [app]. subst b.
  destruct Hv as (? & ? & ? & ?).
  rewrite region_store_indices, region_store_pairs by lia. done.
Qed.
End Variants.

(** On a region whose rows all have a slot, each of the four entry points
    returns what [dtw_distances_length] gave for the caller's block and
    stores to the slots [0 .. total - 1] the pairs of the region, the pair
    [(r, c)] at [row_offsets[r - rb] + (c - col_starts[r - rb])]; with the
    rows run one after the other the stores come row by row, columns
    increasing, the slots in increasing order. *)
Lemma fitting_region_is_traversed (seq_t DTWSettings : Type)
    (use_ssize_t : DTWSettings -> bool)
    (dtw_distances_length : DTWBlock -> Z -> bool -> Z)
    (dtw_distance : Z -> Z -> Z -> Z -> DTWSettings -> seq_t)
    (dtw_distance_ndim : Z -> Z -> Z -> Z -> Z -> DTWSettings -> seq_t)
    (ptrs lengths : list Z) (matrix N nb_cols ndim : Z) (out : list seq_t)
    (block : DTWBlock) (settings : DTWSettings) :
  goes_through block N out ->
  Z.of_nat (length ptrs) = N -> Z.of_nat (length lengths) = N ->
  let b := correct_block block N in
  let traversed (call : outcome (Z * result seq_t)) :=
    exists res,
      call = Done (dtw_distances_length block N (use_ssize_t settings), res) /\
      res_block res = b /\
      stores (res_trace res)
      = stores (region_events b (rb b) (col_starts b) (row_offsets b)) /\
      (fst <$> stores (res_trace res)) = seqZ 0 (total_pairs b) /\
      (snd <$> stores (res_trace res)) = region_pairs b in
  traversed (dtw_distances_ptrs_parallel seq_t DTWSettings use_ssize_t dtw_distances_length
               dtw_distance ptrs N lengths out block settings (mkAllocator true true)) /\
  traversed (dtw_distances_ndim_ptrs_parallel seq_t DTWSettings use_ssize_t
               dtw_distances_length dtw_distance_ndim ptrs N lengths ndim out block settings
               (mkAllocator true true)) /\
  traversed (dtw_distances_matrix_parallel seq_t DTWSettings use_ssize_t dtw_distances_length
               dtw_distance matrix N nb_cols out block settings (mkAllocator true true)) /\
  traversed (dtw_distances_ndim_matrix_parallel seq_t DTWSettings use_ssize_t
               dtw_distances_length dtw_distance_ndim matrix N nb_cols ndim out block settings
               (mkAllocator true true)).
Proof.
  intros Hgo Hp Hl b traversed.
  assert (forall val, traversed (gone_through use_ssize_t dtw_distances_length val
                                   block N out settings)) as Hgone.
  { intros val. eexists. split; [reflexivity|]. split; [reflexivity|].
    destruct (gone_through_stores seq_t DTWSettings use_ssize_t dtw_distances_length
                val block N out settings _ _ Hgo eq_refl) as (H1 & H2 & H3 & _).
    auto. }
  rewrite ptrs_parallel_goes_through, ndim_ptrs_parallel_goes_through,
    matrix_parallel_goes_through, ndim_matrix_parallel_goes_through by assumption.
  repeat split; apply Hgone.
Qed.

(** With the length collaborator of the specification the length returned on
    such a region is the number of its pairs. *)
Lemma fitting_region_returns_pair_count (seq_t DTWSettings : Type)
    (use_ssize_t : DTWSettings -> bool)
    (dtw_distance : Z -> Z -> Z -> Z -> DTWSettings -> seq_t)
    (matrix N nb_cols : Z) (out : list seq_t) (block : DTWBlock) (settings : DTWSettings) :
  goes_through block N out ->
  exists res,
    dtw_distances_matrix_parallel seq_t DTWSettings use_ssize_t region_length
      dtw_distance matrix N nb_cols out block settings (mkAllocator true true)
    = Done (total_pairs (normalized block N), res).
Proof.
  intros Hgo. rewrite matrix_parallel_goes_through by exact Hgo.
  eexists. unfold gone_through, region_length. reflexivity.
Qed.

(** ** The shared body on the other regions *)

Section EntryFailures.
Variable seq_t : Type.
Variable DTWSettings : Type.
Variable use_ssize_t : DTWSettings -> bool.
Variable dtw_distances_length : DTWBlock -> Z -> bool -> Z.
Variable value : Z -> Z -> outcome seq_t.

#[local] Abbreviation run :=
  (distances_parallel seq_t DTWSettings use_ssize_t dtw_distances_length value).

(** An empty region: 0 is returned, nothing is allocated or stored. *)
Lemma distances_parallel_empty (block : DTWBlock) (N : Z) (out : list seq_t)
    (settings : DTWSettings) (heap : allocator) :
  let b := correct_block block N in
  re b <= rb b \/ ce b <= cb b ->
  run N out block settings heap
  = Done (0, mkResult b out [EvLength block N (use_ssize_t settings)]).
Proof.
  intros b H. unfold distances_parallel.
  rewrite prepare_empty by exact H. reflexivity.
Qed.

(** More rows than slots: the call writes outside the planner arrays in the
    planning loop. *)
Lemma distances_parallel_overflow (block : DTWBlock) (N : Z) (out : list seq_t)
    (settings : DTWSettings) :
  let b := correct_block block N in
  nonempty b -> 0 <= rb b -> re b < Word.modulus ->
  planner_slots b < re b - rb b ->
  run N out block settings (mkAllocator true true) = Fault OutOfBounds.
Proof.
  intros b Hne Hrb Hre Hs. unfold distances_parallel.
  rewrite prepare_overflow by assumption. reflexivity.
Qed.

(** A failed [malloc]: the call leaves defined behaviour in the planning
    loop as well. *)
Lemma distances_parallel_malloc_failed (block : DTWBlock) (N : Z) (out : list seq_t)
    (settings : DTWSettings) (heap : allocator) :
  nonempty (correct_block block N) ->
  cbs_granted heap = false \/ rls_granted heap = false ->
  exists f : fault, run N out block settings heap = Fault f.
Proof.
  intros Hne Hheap. unfold distances_parallel.
  destruct (prepare_malloc_failed DTWSettings use_ssize_t dtw_distances_length
              block N settings heap Hne Hheap) as [f Hf].
  rewrite Hf. by exists f.
Qed.
End EntryFailures.

(** ** The scenarios of the specification *)

(** The scenario [N = 4], full region: six pairs, row 0 at offsets 0, 1, 2,
    row 1 at 3, 4, row 2 at 5, row 3 none. *)
Example full_region_of_four :
  exists res,
    Sample.ptrs_parallel (mkBlock 0 0 0 0) 4 Sample.granted = Done (6, res) /\
    res_block res = mkBlock 0 4 0 4 /\
    stores (res_trace res)
    = [(0, (0, 1)); (1, (0, 2)); (2, (0, 3)); (3, (1, 2)); (4, (1, 3)); (5, (2, 3))] /\
    res_output res = [3; 6; 9; 3006; 3009; 6009; -1; -1].
Proof. eexists. vm_compute. repeat split. Qed.

(** The scenario region [(1, 3, 0, 4)] on [N = 4]: row 1 visits 2 and 3,
    row 2 visits 3, three pairs. *)
Example rows_one_and_two_of_four :
  exists res,
    Sample.ptrs_parallel (mkBlock 1 3 0 4) 4 Sample.granted = Done (3, res) /\
    stores (res_trace res) = [(0, (1, 2)); (1, (1, 3)); (2, (2, 3))].
Proof. eexists. vm_compute. repeat split. Qed.

(** * The claims *)

(** ** Regions with more rows than columns (C1, C2, C3, C4)

    Both planner arrays get [block->ce - block->cb] slots, the planning loop
    writes one slot per row.  On the region [rb = 0, re = 3, cb = 2, ce = 4]
    of [N = 4] series the arrays have 2 slots and the loop writes slot 2; on
    the region [rb = 0, re = 4, cb = 0, ce = 2] it writes the slots 2 and 3. *)

Lemma tall_block_overflows :
  let b := correct_block tall_block 4 in
  nonempty b /\ 0 <= rb b /\ re b < Word.modulus /\ planner_slots b < re b - rb b.
Proof. vm_compute. repeat split; congruence. Qed.

Lemma narrow_block_overflows :
  let b := correct_block narrow_block 4 in
  nonempty b /\ 0 <= rb b /\ re b < Word.modulus /\ planner_slots b < re b - rb b.
Proof. vm_compute. repeat split; congruence. Qed.

(** C1 (code defect, the one of C3).  On the valid region
    [rb = 0, re = 4, cb = 0, ce = 2] of [N = 4] series the claim has row 0
    store column 1 at offset 0 and the rows 1, 2 and 3 store nothing.  The
    planner arrays have 2 slots for these 4 rows: in each of the four entry
    points the planning loop, having written the slots 0 and 1, writes
    outside the two blocks that [malloc] returned.  This is undefined
    behaviour, and the row loop that follows it is no longer bound to the
    traversal of the claim. *)
Theorem C1_narrow_region_is_planned_out_of_bounds :
  forall (seq_t DTWSettings : Type) (use_ssize_t : DTWSettings -> bool)
         (dtw_distances_length : DTWBlock -> Z -> bool -> Z)
         (dtw_distance : Z -> Z -> Z -> Z -> DTWSettings -> seq_t)
         (dtw_distance_ndim : Z -> Z -> Z -> Z -> Z -> DTWSettings -> seq_t)
         (ptrs lengths : list Z) (matrix nb_cols ndim : Z) (out : list seq_t)
         (settings : DTWSettings),
    valid_region (correct_block narrow_block 4) 4 /\
    stores (region_events narrow_block 0 (col_starts narrow_block)
              (row_offsets narrow_block))
    = [(0, (0, 1))] /\
    re narrow_block - rb narrow_block = 4 /\
    malloc true (planner_bytes narrow_block) = Block [None; None] /\
    poke (Block [Some 1; Some 2]) 2 3 = Fault OutOfBounds /\
    dtw_distances_ptrs_parallel seq_t DTWSettings use_ssize_t dtw_distances_length
      dtw_distance ptrs 4 lengths out narrow_block settings (mkAllocator true true)
    = Fault OutOfBounds /\
    dtw_distances_ndim_ptrs_parallel seq_t DTWSettings use_ssize_t dtw_distances_length
      dtw_distance_ndim ptrs 4 lengths ndim out narrow_block settings (mkAllocator true true)
    = Fault OutOfBounds /\
    dtw_distances_matrix_parallel seq_t DTWSettings use_ssize_t dtw_distances_length
      dtw_distance matrix 4 nb_cols out narrow_block settings (mkAllocator true true)
    = Fault OutOfBounds /\
    dtw_distances_ndim_matrix_parallel seq_t DTWSettings use_ssize_t dtw_distances_length
      dtw_distance_ndim matrix 4 nb_cols ndim out narrow_block settings
      (mkAllocator true true)
    = Fault OutOfBounds.
Proof.
  intros. destruct narrow_block_overflows as (Hne & Hrb & Hre & Hs).
  split; [vm_compute; repeat split; congruence|].
  do 4 (split; [reflexivity|]).
  repeat split; apply distances_parallel_overflow; assumption.
Qed.

(** C2 (code defect, the one of C3).  The valid region
    [rb = 0, re = 4, cb = 0, ce = 2] of [N = 4] series has one pair, so the
    claim has each entry point return 1.  Whatever [dtw_distances_length]
    gives, each of the four entry points writes, in the planning loop and
    before it reaches its [return length], outside the two planner arrays of
    2 slots; the behaviour is undefined from there, and the return of the
    claim is not what the program is bound to. *)
Theorem C2_narrow_region_overflows_before_the_return :
  forall (seq_t DTWSettings : Type) (use_ssize_t : DTWSettings -> bool)
         (dtw_distances_length : DTWBlock -> Z -> bool -> Z)
         (dtw_distance : Z -> Z -> Z -> Z -> DTWSettings -> seq_t)
         (dtw_distance_ndim : Z -> Z -> Z -> Z -> Z -> DTWSettings -> seq_t)
         (ptrs lengths : list Z) (matrix nb_cols ndim : Z) (out : list seq_t)
         (settings : DTWSettings),
    valid_region (correct_block narrow_block 4) 4 /\
    total_pairs (correct_block narrow_block 4) = 1 /\
    planner_slots (correct_block narrow_block 4) = 2 /\
    re (correct_block narrow_block 4) - rb (correct_block narrow_block 4) = 4 /\
    dtw_distances_ptrs_parallel seq_t DTWSettings use_ssize_t dtw_distances_length
      dtw_distance ptrs 4 lengths out narrow_block settings (mkAllocator true true)
    = Fault OutOfBounds /\
    dtw_distances_ndim_ptrs_parallel seq_t DTWSettings use_ssize_t dtw_distances_length
      dtw_distance_ndim ptrs 4 lengths ndim out narrow_block settings (mkAllocator true true)
    = Fault OutOfBounds /\
    dtw_distances_matrix_parallel seq_t DTWSettings use_ssize_t dtw_distances_length
      dtw_distance matrix 4 nb_cols out narrow_block settings (mkAllocator true true)
    = Fault OutOfBounds /\
    dtw_distances_ndim_matrix_parallel seq_t DTWSettings use_ssize_t dtw_distances_length
      dtw_distance_ndim matrix 4 nb_cols ndim out narrow_block settings
      (mkAllocator true true)
    = Fault OutOfBounds.
Proof.
  intros. destruct narrow_block_overflows as (Hne & Hrb & Hre & Hs).
  split; [vm_compute; repeat split; congruence|].
  do 3 (split; [reflexivity|]).
  repeat split; apply distances_parallel_overflow; assumption.
Qed.

(** C3 (code defect).  The planner arrays are allocated with
    [block->ce - block->cb] slots, not with one slot per row: on the region
    [rb = 0, re = 3, cb = 2, ce = 4] of [N = 4] series, 16 bytes (2 slots)
    are asked of each [malloc] for 3 rows, and the planning loop writes
    outside the arrays. *)
Theorem C3_planner_arrays_have_one_slot_per_column :
  forall (DTWSettings : Type) (use_ssize_t : DTWSettings -> bool)
         (dtw_distances_length : DTWBlock -> Z -> bool -> Z) (settings : DTWSettings),
    re tall_block - rb tall_block = 3 /\
    planner_bytes tall_block = 16 /\
    planner_slots tall_block = ce tall_block - cb tall_block /\
    malloc true (planner_bytes tall_block) = Block [None; None] /\
    poke (Block [Some 2; Some 2]) 2 3 = Fault OutOfBounds /\
    dtw_distances_prepare DTWSettings use_ssize_t dtw_distances_length
      tall_block 4 AddressOfLocal AddressOfLocal AddressOfLocal settings
      (mkAllocator true true)
    = Fault OutOfBounds.
Proof.
  intros. destruct tall_block_overflows as (Hne & Hrb & Hre & Hs).
  do 5 (split; [reflexivity|]). apply prepare_overflow; assumption.
Qed.

(** C4 (code defect, the one of C3).  The valid region
    [rb = 0, re = 4, cb = 0, ce = 2] of [N = 4] series has the one pair
    (0,1), which the claim has written to exactly one slot, the slices of the
    rows covering the buffer.  The slices are those of the planner array
    [rls], which has 2 slots for the 4 rows: each of the four entry points
    writes the offsets of the rows 2 and 3, and their column starts, outside
    the two blocks that [malloc] returned.  The behaviour is undefined from
    there, and what the row loop writes is no longer bound to the claim. *)
Theorem C4_narrow_region_slices_are_planned_out_of_bounds :
  forall (seq_t DTWSettings : Type) (use_ssize_t : DTWSettings -> bool)
         (dtw_distances_length : DTWBlock -> Z -> bool -> Z)
         (dtw_distance : Z -> Z -> Z -> Z -> DTWSettings -> seq_t)
         (dtw_distance_ndim : Z -> Z -> Z -> Z -> Z -> DTWSettings -> seq_t)
         (ptrs lengths : list Z) (matrix nb_cols ndim : Z) (out : list seq_t)
         (settings : DTWSettings),
    valid_region (correct_block narrow_block 4) 4 /\
    region_pairs (correct_block narrow_block 4) = [(0, 1)] /\
    length (row_offsets (correct_block narrow_block 4)) = 4%nat /\
    malloc true (planner_bytes (correct_block narrow_block 4)) = Block [None; None] /\
    dtw_distances_prepare DTWSettings use_ssize_t dtw_distances_length
      narrow_block 4 AddressOfLocal AddressOfLocal AddressOfLocal settings
      (mkAllocator true true)
    = Fault OutOfBounds /\
    dtw_distances_ptrs_parallel seq_t DTWSettings use_ssize_t dtw_distances_length
      dtw_distance ptrs 4 lengths out narrow_block settings (mkAllocator true true)
    = Fault OutOfBounds /\
    dtw_distances_ndim_ptrs_parallel seq_t DTWSettings use_ssize_t dtw_distances_length
      dtw_distance_ndim ptrs 4 lengths ndim out narrow_block settings (mkAllocator true true)
    = Fault OutOfBounds /\
    dtw_distances_matrix_parallel seq_t DTWSettings use_ssize_t dtw_distances_length
      dtw_distance matrix 4 nb_cols out narrow_block settings (mkAllocator true true)
    = Fault OutOfBounds /\
    dtw_distances_ndim_matrix_parallel seq_t DTWSettings use_ssize_t dtw_distances_length
      dtw_distance_ndim matrix 4 nb_cols ndim out narrow_block settings
      (mkAllocator true true)
    = Fault OutOfBounds.
Proof.
  intros. destruct narrow_block_overflows as (Hne & Hrb & Hre & Hs).
  split; [vm_compute; repeat split; congruence|].
  do 3 (split; [reflexivity|]).
  split; [apply prepare_overflow; assumption|].
  repeat split; apply distances_parallel_overflow; assumption.
Qed.

(** ** Empty regions (C5) *)

(** C5 (counterexample).  With [N = 5] the block [rb = 3, re = 2] is empty:
    the preparation returns 1 with length 0 and the entry point returns 0.
    With [N = 4] the block [rb = 3, re = 4, cb = 0, ce = 4] is the last row
    of the grid, a valid region without pairs: the preparation returns 0
    and the entry point returns length 0.  The caller receives the same
    value and the same untouched buffer from both calls. *)
Lemma C5_zero_is_returned_for_failure_and_for_empty_success :
  (exists p, Sample.prepare (mkBlock 3 2 0 0) 5 Sample.granted = Done (1, p) /\
             pr_length p = 0) /\
  (exists p, Sample.prepare (mkBlock 3 4 0 4) 4 Sample.granted = Done (0, p) /\
             pr_length p = 0) /\
  valid_region (normalized (mkBlock 3 4 0 4) 4) 4 /\
  (exists r1 r2,
      Sample.ptrs_parallel (mkBlock 3 2 0 0) 5 Sample.granted = Done (0, r1) /\
      Sample.ptrs_parallel (mkBlock 3 4 0 4) 4 Sample.granted = Done (0, r2) /\
      res_output r1 = Sample.buffer 8 /\ res_output r2 = Sample.buffer 8).
Proof.
  split; [eexists; split; vm_compute; reflexivity|].
  split; [eexists; split; vm_compute; reflexivity|].
  split; [vm_compute; repeat split; congruence|].
  eexists _, _. repeat split; vm_compute; reflexivity.
Qed.

(** C5 (amended).  When, after the zero-sentinel defaulting, [re <= rb] or
    [ce <= cb], the preparation returns nonzero with the length set to 0 and
    nothing allocated, and each of the four entry points returns 0, leaves
    the output buffer as it was and hands back the defaulted block. *)
Theorem C5_empty_region_returns_zero :
  forall (seq_t DTWSettings : Type) (use_ssize_t : DTWSettings -> bool)
         (dtw_distances_length : DTWBlock -> Z -> bool -> Z)
         (dtw_distance : Z -> Z -> Z -> Z -> DTWSettings -> seq_t)
         (dtw_distance_ndim : Z -> Z -> Z -> Z -> Z -> DTWSettings -> seq_t)
         (ptrs lengths : list Z) (matrix N nb_cols ndim : Z) (out : list seq_t)
         (block : DTWBlock) (settings : DTWSettings) (heap : allocator),
    re (normalized block N) <= rb (normalized block N) \/
    ce (normalized block N) <= cb (normalized block N) ->
    let failed := Done (0, mkResult (normalized block N) out
                             [EvLength block N (use_ssize_t settings)]) in
    dtw_distances_prepare DTWSettings use_ssize_t dtw_distances_length
      block N AddressOfLocal AddressOfLocal AddressOfLocal settings heap
    = Done (1, mkPrepared (normalized block N) 0 Wild Wild
                 [EvLength block N (use_ssize_t settings)]) /\
    dtw_distances_ptrs_parallel seq_t DTWSettings use_ssize_t dtw_distances_length
      dtw_distance ptrs N lengths out block settings heap = failed /\
    dtw_distances_ndim_ptrs_parallel seq_t DTWSettings use_ssize_t dtw_distances_length
      dtw_distance_ndim ptrs N lengths ndim out block settings heap = failed /\
    dtw_distances_matrix_parallel seq_t DTWSettings use_ssize_t dtw_distances_length
      dtw_distance matrix N nb_cols out block settings heap = failed /\
    dtw_distances_ndim_matrix_parallel seq_t DTWSettings use_ssize_t dtw_distances_length
      dtw_distance_ndim matrix N nb_cols ndim out block settings heap = failed.
Proof.
  intros until heap. rewrite <- correct_block_normalized. intros H failed.
  split; [apply prepare_empty; exact H|].
  repeat split; apply distances_parallel_empty; exact H.
Qed.

Lemma C5_empty_region_returns_zero_witness :
  (re (normalized (mkBlock 3 2 0 0) 5) <= rb (normalized (mkBlock 3 2 0 0) 5) \/
   ce (normalized (mkBlock 3 2 0 0) 5) <= cb (normalized (mkBlock 3 2 0 0) 5)) /\
  Sample.ptrs_parallel (mkBlock 3 2 0 0) 5 Sample.granted
  = Done (0, mkResult (mkBlock 3 2 0 5) (Sample.buffer 8)
               [EvLength (mkBlock 3 2 0 0) 5 false]).
Proof.
  assert (H : re (normalized (mkBlock 3 2 0 0) 5) <= rb (normalized (mkBlock 3 2 0 0) 5) \/
              ce (normalized (mkBlock 3 2 0 0) 5) <= cb (normalized (mkBlock 3 2 0 0) 5)).
  { left. vm_compute. discriminate. }
  split; [exact H|].
  exact (proj1 (proj2 (C5_empty_region_returns_zero Z Sample.settings Sample.use_ssize_t
                         region_length Sample.distance Sample.distance_ndim
                         (Sample.ptrs 0 5 3) (Sample.lengths 5 3) 0 5 3 1 (Sample.buffer 8)
                         (mkBlock 3 2 0 0) false Sample.granted H))).
Defined.

(** ** Effects of a call (C6) *)

(** C6 (counterexample).  A call with the block [(0, 0, 0, 0)] and [N = 4]
    hands the block back as [(0, 4, 0, 4)]. *)
Lemma C6_block_is_rewritten :
  exists res,
    Sample.ptrs_parallel (mkBlock 0 0 0 0) 4 Sample.granted = Done (6, res) /\
    res_block res = mkBlock 0 4 0 4 /\
    res_block res <> mkBlock 0 0 0 0.
Proof. eexists. vm_compute. repeat split. discriminate. Qed.

Lemma normalized_unchanged (block : DTWBlock) (N : Z) :
  re block <> 0 -> ce block <> 0 -> normalized block N = block.
Proof.
  intros Hr Hc. destruct block as [b1 e1 b2 e2]. unfold normalized. cbn in *.
  destruct (Z.eqb_spec e1 0); [contradiction|].
  destruct (Z.eqb_spec e2 0); [contradiction|]. reflexivity.
Qed.

Lemma distances_parallel_effects (seq_t DTWSettings : Type)
    (use_ssize_t : DTWSettings -> bool)
    (dtw_distances_length : DTWBlock -> Z -> bool -> Z)
    (value : Z -> Z -> outcome seq_t) (N : Z) (out : list seq_t) (block : DTWBlock)
    (settings : DTWSettings) (heap : allocator) :
  effects_confined block N out
    (distances_parallel seq_t DTWSettings use_ssize_t dtw_distances_length value
       N out block settings heap).
Proof.
  intros len res H. unfold distances_parallel in H. bind_inv H. destruct a as [rc p].
  apply prepare_inv in E as [(-> & _ & ->)|(-> & _ & -> & _ & Hb & _ & Htr)].
  - cbn in H. inversion H; subst. cbn [res_block res_output res_trace].
    rewrite correct_block_normalized.
    split; [reflexivity|]. split; [reflexivity|]. split; [reflexivity|].
    split; [apply normalized_unchanged|]. split; [reflexivity|].
    split; [reflexivity|]. split; reflexivity.
  - cbn [negb Z.eqb] in H. bind_inv H. destruct a as [out' evs].
    inversion H; subst. cbn [res_block res_output res_trace].
    apply walk_rows_frame in E as (Hlen & Hst & Hfr).
    rewrite Hb, Htr, correct_block_normalized.
    split; [reflexivity|]. split; [reflexivity|]. split; [reflexivity|].
    split; [apply normalized_unchanged|]. split; [exact Hlen|].
    split.
    + intros j Hj. apply Hfr. intros Hin. apply Hj.
      rewrite !stores_app, !fmap_app. apply elem_of_app. right.
      apply elem_of_app. left. exact Hin.
    + rewrite !count_app, !(count_stores _ evs) by (exact Hst || reflexivity).
      split; reflexivity.
Qed.

(** C6 (amended).  A call of any of the four entry points that returns has
    written the zero-sentinel defaults into the caller's block ([re == 0] and
    [ce == 0] replaced by [N], [rb] and [cb] kept; the block is unchanged
    when neither was 0); besides that it has only written the output buffer
    at the indices it stored to, and allocated and released the planner
    arrays. *)
Theorem C6_effects_besides_the_defaulted_block :
  forall (seq_t DTWSettings : Type) (use_ssize_t : DTWSettings -> bool)
         (dtw_distances_length : DTWBlock -> Z -> bool -> Z)
         (dtw_distance : Z -> Z -> Z -> Z -> DTWSettings -> seq_t)
         (dtw_distance_ndim : Z -> Z -> Z -> Z -> Z -> DTWSettings -> seq_t)
         (ptrs lengths : list Z) (matrix N nb_cols ndim : Z) (out : list seq_t)
         (block : DTWBlock) (settings : DTWSettings) (heap : allocator),
    effects_confined block N out
      (dtw_distances_ptrs_parallel seq_t DTWSettings use_ssize_t dtw_distances_length
         dtw_distance ptrs N lengths out block settings heap) /\
    effects_confined block N out
      (dtw_distances_ndim_ptrs_parallel seq_t DTWSettings use_ssize_t dtw_distances_length
         dtw_distance_ndim ptrs N lengths ndim out block settings heap) /\
    effects_confined block N out
      (dtw_distances_matrix_parallel seq_t DTWSettings use_ssize_t dtw_distances_length
         dtw_distance matrix N nb_cols out block settings heap) /\
    effects_confined block N out
      (dtw_distances_ndim_matrix_parallel seq_t DTWSettings use_ssize_t dtw_distances_length
         dtw_distance_ndim matrix N nb_cols ndim out block settings heap).
Proof.
  intros. split; [|split; [|split]]; apply distances_parallel_effects.
Qed.

Lemma C6_effects_besides_the_defaulted_block_witness :
  Sample.ptrs_parallel (mkBlock 0 0 0 0) 4 Sample.granted
  = Done (6, mkResult (mkBlock 0 4 0 4) [3; 6; 9; 3006; 3009; 6009; -1; -1]
               [EvLength (mkBlock 0 0 0 0) 4 false; EvMalloc 32 true; EvMalloc 32 true;
                EvStore 0 0 1; EvStore 1 0 2; EvStore 2 0 3;
                EvStore 3 1 2; EvStore 4 1 3; EvStore 5 2 3; EvFree; EvFree]) /\
  mkBlock 0 4 0 4 = normalized (mkBlock 0 0 0 0) 4 /\
  count is_granted [EvLength (mkBlock 0 0 0 0) 4 false; EvMalloc 32 true; EvMalloc 32 true;
                    EvStore 0 0 1; EvStore 1 0 2; EvStore 2 0 3;
                    EvStore 3 1 2; EvStore 4 1 3; EvStore 5 2 3; EvFree; EvFree]
  = count is_free [EvLength (mkBlock 0 0 0 0) 4 false; EvMalloc 32 true; EvMalloc 32 true;
                   EvStore 0 0 1; EvStore 1 0 2; EvStore 2 0 3;
                   EvStore 3 1 2; EvStore 4 1 3; EvStore 5 2 3; EvFree; EvFree].
Proof.
  assert (H : Sample.ptrs_parallel (mkBlock 0 0 0 0) 4 Sample.granted
              = Done (6, mkResult (mkBlock 0 4 0 4) [3; 6; 9; 3006; 3009; 6009; -1; -1]
                           [EvLength (mkBlock 0 0 0 0) 4 false;
                            EvMalloc 32 true; EvMalloc 32 true;
                            EvStore 0 0 1; EvStore 1 0 2; EvStore 2 0 3;
                            EvStore 3 1 2; EvStore 4 1 3; EvStore 5 2 3; EvFree; EvFree]))
    by (vm_compute; reflexivity).
  split; [exact H|].
  destruct (proj1 (C6_effects_besides_the_defaulted_block Z Sample.settings
                     Sample.use_ssize_t region_length Sample.distance Sample.distance_ndim
                     (Sample.ptrs 0 4 3) (Sample.lengths 4 3) 0 4 3 1 (Sample.buffer 8)
                     (mkBlock 0 0 0 0) false Sample.granted) _ _ H)
    as (Hb & _ & _ & _ & _ & _ & Hc & _).
  split; [exact Hb | exact Hc].
Defined.

(** ** The running offsets (C7) *)

(** C7 (counterexample).  On the valid region [rb = 5, re = 8, cb = 0,
    ce = 3] of [N = 8] series every row lies past the last column:
    [ce - cb] wraps for each of them and the offsets the planner stores are
    0, 2^64 - 3, 2^64 - 7; the third is smaller than the second. *)
Lemma C7_offsets_decrease_past_the_last_column :
  valid_region (normalized (mkBlock 5 8 0 3) 8) 8 /\
  (exists p, Sample.prepare (mkBlock 5 8 0 3) 8 Sample.granted = Done (0, p) /\
             pr_rls p = Block (Some <$> row_offsets (mkBlock 5 8 0 3))) /\
  row_offsets (mkBlock 5 8 0 3) = [0; 18446744073709551613; 18446744073709551609] /\
  18446744073709551609 < 18446744073709551613.
Proof.
  split; [vm_compute; repeat split; congruence|].
  split; [eexists; split; vm_compute; reflexivity|].
  split; [vm_compute; reflexivity | reflexivity].
Qed.

Lemma length_row_offsets_from (b : DTWBlock) (n : nat) :
  forall r rs, length (row_offsets_from b r rs n) = n.
Proof. induction n as [|n IH]; intros r rs; cbn; [reflexivity | by rewrite IH]. Qed.

(** C7 (amended).  For a valid region whose rows all have a slot and whose
    pair count is below 2^64, the planner stores the sequence
    [row_offsets]: it starts at 0 and, for every row [r] with
    [r + 1 <= col_end] that has a successor in the region,
    [row_offset(r + 1) = row_offset(r) + count(r)] without wrap-around, so
    the sequence does not decrease there, and stays equal exactly when the
    row visits no column. *)
Theorem C7_row_offsets_increase_up_to_the_last_column :
  forall (DTWSettings : Type) (use_ssize_t : DTWSettings -> bool)
         (dtw_distances_length : DTWBlock -> Z -> bool -> Z)
         (block : DTWBlock) (N : Z) (settings : DTWSettings),
    valid_region (normalized block N) N -> N < Word.modulus ->
    re (normalized block N) - rb (normalized block N) <= planner_slots (normalized block N) ->
    total_pairs (normalized block N) < Word.modulus ->
    (exists p junk,
        dtw_distances_prepare DTWSettings use_ssize_t dtw_distances_length
          block N AddressOfLocal AddressOfLocal AddressOfLocal settings
          (mkAllocator true true) = Done (0, p) /\
        pr_rls p = Block ((Some <$> row_offsets (normalized block N)) ++ junk)) /\
    length (row_offsets (normalized block N))
    = Z.to_nat (re (normalized block N) - rb (normalized block N)) /\
    row_offsets (normalized block N) !! 0%nat = Some 0 /\
    forall (i : nat) (x y : Z),
      rb (normalized block N) + Z.of_nat i + 1 <= ce (normalized block N) ->
      row_offsets (normalized block N) !! i = Some x ->
      row_offsets (normalized block N) !! S i = Some y ->
      y = x + row_count (normalized block N) (rb (normalized block N) + Z.of_nat i) /\
      x <= y /\
      (x = y <-> row_count (normalized block N) (rb (normalized block N) + Z.of_nat i) = 0).
Proof.
  intros DTWSettings use_ssize_t dtw_distances_length block N settings.
  rewrite <- (correct_block_normalized block N).
  set (b := correct_block block N).
  intros (Hrb & Hre & Hcb & Hce) HN Hfit Hmod.
  split.
  { eexists _, _. split; [apply prepare_fits; fold b; [split|..]; lia|]. reflexivity. }
  split; [apply length_row_offsets_from|].
  split.
  { unfold row_offsets. destruct (Z.to_nat (re b - rb b)) eqn:E; [lia|]. reflexivity. }
  intros i x y Hi Hx Hy.
  assert (S i < Z.to_nat (re b - rb b))%nat as Hlt.
  { apply lookup_lt_Some in Hy. unfold row_offsets in Hy.
    by rewrite length_row_offsets_from in Hy. }
  pose proof (sum_counts_prefix b (S i) (Z.to_nat (re b - rb b)) (rb b) ltac:(lia)) as Hpre.
  rewrite <- total_pairs_of_nat in Hpre by lia.
  rewrite sum_counts_snoc in Hpre.
  pose proof (sum_counts_nonneg b i (rb b)) as Hnn.
  pose proof (row_count_nonneg b (rb b + Z.of_nat i)) as Hcnt.
  unfold row_offsets in Hx, Hy.
  rewrite row_offsets_from_exact in Hx by lia.
  rewrite row_offsets_from_exact in Hy by (rewrite ?sum_counts_snoc; lia).
  rewrite sum_counts_snoc in Hy. inversion Hx; subst. inversion Hy; subst.
  repeat split; lia.
Qed.

Lemma C7_row_offsets_increase_up_to_the_last_column_witness :
  valid_region (normalized (mkBlock 0 0 0 0) 4) 4 /\
  4 < Word.modulus /\
  re (normalized (mkBlock 0 0 0 0) 4) - rb (normalized (mkBlock 0 0 0 0) 4)
  <= planner_slots (normalized (mkBlock 0 0 0 0) 4) /\
  total_pairs (normalized (mkBlock 0 0 0 0) 4) < Word.modulus /\
  row_offsets (normalized (mkBlock 0 0 0 0) 4) = [0; 3; 5; 6] /\
  (forall (i : nat) (x y : Z),
      rb (normalized (mkBlock 0 0 0 0) 4) + Z.of_nat i + 1 <= ce (normalized (mkBlock 0 0 0 0) 4) ->
      row_offsets (normalized (mkBlock 0 0 0 0) 4) !! i = Some x ->
      row_offsets (normalized (mkBlock 0 0 0 0) 4) !! S i = Some y ->
      x <= y).
Proof.
  assert (H1 : valid_region (normalized (mkBlock 0 0 0 0) 4) 4)
    by (vm_compute; repeat split; congruence).
  assert (H2 : 4 < Word.modulus) by reflexivity.
  assert (H3 : re (normalized (mkBlock 0 0 0 0) 4) - rb (normalized (mkBlock 0 0 0 0) 4)
               <= planner_slots (normalized (mkBlock 0 0 0 0) 4))
    by (vm_compute; congruence).
  assert (H4 : total_pairs (normalized (mkBlock 0 0 0 0) 4) < Word.modulus) by reflexivity.
  do 4 (split; [assumption|]). split; [reflexivity|].
  intros i x y Hi Hx Hy.
  exact (proj1 (proj2 (proj2 (proj2 (proj2
           (C7_row_offsets_increase_up_to_the_last_column
              Sample.settings Sample.use_ssize_t region_length
              (mkBlock 0 0 0 0) 4 false H1 H2 H3 H4))) i x y Hi Hx Hy))).
Defined.

(** ** Failed allocations (C8) *)

(** C8 (code defect).  The checks after the two [malloc] calls test the
    addresses [cbs] and [rls] of the out-parameters, which are never null,
    and not the pointers [*cbs] and [*rls] that [malloc] returned.  With
    [N = 4] and the full region, a failed first, second or both [malloc]s is
    not detected: nothing returns nonzero and nothing is released, the
    planning loop writes through the null pointer, in the preparation and so
    in each entry point. *)
Theorem C8_failed_malloc_is_not_detected :
  forall (seq_t DTWSettings : Type) (use_ssize_t : DTWSettings -> bool)
         (dtw_distances_length : DTWBlock -> Z -> bool -> Z)
         (dtw_distance : Z -> Z -> Z -> Z -> DTWSettings -> seq_t)
         (dtw_distance_ndim : Z -> Z -> Z -> Z -> Z -> DTWSettings -> seq_t)
         (ptrs lengths : list Z) (matrix nb_cols ndim : Z) (out : list seq_t)
         (settings : DTWSettings),
    let prepare := dtw_distances_prepare DTWSettings use_ssize_t dtw_distances_length
                     (mkBlock 0 0 0 0) 4 AddressOfLocal AddressOfLocal AddressOfLocal
                     settings in
    is_null AddressOfLocal = false /\
    prepare (mkAllocator false true) = Fault NullDereference /\
    prepare (mkAllocator true false) = Fault NullDereference /\
    prepare (mkAllocator false false) = Fault NullDereference /\
    dtw_distances_ptrs_parallel seq_t DTWSettings use_ssize_t dtw_distances_length
      dtw_distance ptrs 4 lengths out (mkBlock 0 0 0 0) settings (mkAllocator true false)
    = Fault NullDereference /\
    dtw_distances_ndim_ptrs_parallel seq_t DTWSettings use_ssize_t dtw_distances_length
      dtw_distance_ndim ptrs 4 lengths ndim out (mkBlock 0 0 0 0) settings
      (mkAllocator true false)
    = Fault NullDereference /\
    dtw_distances_matrix_parallel seq_t DTWSettings use_ssize_t dtw_distances_length
      dtw_distance matrix 4 nb_cols out (mkBlock 0 0 0 0) settings (mkAllocator true false)
    = Fault NullDereference /\
    dtw_distances_ndim_matrix_parallel seq_t DTWSettings use_ssize_t dtw_distances_length
      dtw_distance_ndim matrix 4 nb_cols ndim out (mkBlock 0 0 0 0) settings
      (mkAllocator true false)
    = Fault NullDereference.
Proof.
  intros. subst prepare.
  assert (forall heap, cbs_granted heap = false \/ rls_granted heap = false ->
            dtw_distances_prepare DTWSettings use_ssize_t dtw_distances_length
              (mkBlock 0 0 0 0) 4 AddressOfLocal AddressOfLocal AddressOfLocal settings heap
            = Fault NullDereference) as Hp.
  { intros [[|] [|]] [H|H]; try discriminate H; reflexivity. }
  split; [reflexivity|].
  do 3 (split; [apply Hp; cbn; auto|]).
  unfold dtw_distances_ptrs_parallel, dtw_distances_ndim_ptrs_parallel,
    dtw_distances_matrix_parallel, dtw_distances_ndim_matrix_parallel, distances_parallel.
  rewrite !Hp by (cbn; auto). repeat split.
Qed.

(** ** Ragged and contiguous series (C9) *)

(** C9.  Let [ptrs[i]] be the address of row [i] of a matrix of [N] rows and
    [nb_cols] columns that starts at address [matrix], and [lengths[i]] be
    [nb_cols].  For every region inside the grid, every output buffer, every
    settings and whatever [malloc] answers, [dtw_distances_ptrs_parallel]
    and [dtw_distances_matrix_parallel] end the same way: the same returned
    length, the same output buffer, the same block and trace (or the same
    fault). *)
Theorem C9_ragged_and_contiguous_agree :
  forall (seq_t DTWSettings : Type) (use_ssize_t : DTWSettings -> bool)
         (dtw_distances_length : DTWBlock -> Z -> bool -> Z)
         (dtw_distance : Z -> Z -> Z -> Z -> DTWSettings -> seq_t)
         (ptrs lengths : list Z) (matrix N nb_cols : Z) (out : list seq_t)
         (block : DTWBlock) (settings : DTWSettings) (heap : allocator),
    (forall i, 0 <= i < N -> ptrs !! Z.to_nat i = Some (matrix + i * nb_cols)) ->
    (forall i, 0 <= i < N -> lengths !! Z.to_nat i = Some nb_cols) ->
    0 <= nb_cols -> N * nb_cols < Word.modulus -> N < Word.modulus ->
    0 <= rb (normalized block N) -> 0 <= cb (normalized block N) ->
    re (normalized block N) <= N -> ce (normalized block N) <= N ->
    dtw_distances_ptrs_parallel seq_t DTWSettings use_ssize_t dtw_distances_length
      dtw_distance ptrs N lengths out block settings heap
    = dtw_distances_matrix_parallel seq_t DTWSettings use_ssize_t dtw_distances_length
        dtw_distance matrix N nb_cols out block settings heap.
Proof.
  intros seq_t DTWSettings use_ssize_t dtw_distances_length dtw_distance ptrs lengths
    matrix N nb_cols out block settings heap Hp Hl Hcols Hfit HN.
  rewrite <- (correct_block_normalized block N). intros Hrb Hcb Hre Hce.
  unfold dtw_distances_ptrs_parallel, dtw_distances_matrix_parallel.
  apply distances_parallel_ext; try assumption.
  intros r c Hr Hc.
  assert (forall i, 0 <= i < N -> fetch ptrs i = Done (matrix + Word.mul i nb_cols)) as Hfp.
  { intros i Hi. unfold fetch. destruct (Z.ltb_spec i 0); [lia|]. rewrite Hp by exact Hi.
    unfold Word.mul. rewrite wrap_small; [reflexivity|]. unfold Word.in_range. nia. }
  assert (forall i, 0 <= i < N -> fetch lengths i = Done nb_cols) as Hfl.
  { intros i Hi. unfold fetch. destruct (Z.ltb_spec i 0); [lia|]. by rewrite Hl. }
  rewrite !Hfp, !Hfl by assumption. reflexivity.
Qed.

Lemma C9_ragged_and_contiguous_agree_witness :
  (forall i, 0 <= i < 4 -> Sample.ptrs 0 4 3 !! Z.to_nat i = Some (0 + i * 3)) /\
  (forall i, 0 <= i < 4 -> Sample.lengths 4 3 !! Z.to_nat i = Some 3) /\
  Sample.ptrs_parallel (mkBlock 0 0 0 0) 4 Sample.granted
  = Sample.matrix_parallel (mkBlock 0 0 0 0) 4 Sample.granted /\
  exists res, Sample.matrix_parallel (mkBlock 0 0 0 0) 4 Sample.granted = Done (6, res) /\
              res_output res = [3; 6; 9; 3006; 3009; 6009; -1; -1].
Proof.
  assert (Hp : forall i, 0 <= i < 4 -> Sample.ptrs 0 4 3 !! Z.to_nat i = Some (0 + i * 3)).
  { intros i Hi.
    assert (i = 0 \/ i = 1 \/ i = 2 \/ i = 3) as [->|[->|[->| ->]]] by lia; reflexivity. }
  assert (Hl : forall i, 0 <= i < 4 -> Sample.lengths 4 3 !! Z.to_nat i = Some 3).
  { intros i Hi.
    assert (i = 0 \/ i = 1 \/ i = 2 \/ i = 3) as [->|[->|[->| ->]]] by lia; reflexivity. }
  split; [exact Hp|]. split; [exact Hl|]. split.
  - apply (C9_ragged_and_contiguous_agree Z Sample.settings Sample.use_ssize_t region_length
             Sample.distance (Sample.ptrs 0 4 3) (Sample.lengths 4 3) 0 4 3 (Sample.buffer 8)
             (mkBlock 0 0 0 0) false Sample.granted Hp Hl);
      vm_compute; congruence.
  - eexists. split; vm_compute; reflexivity.
Defined.

(** ** The length query and the defaulting (C10) *)

(** C10.  The preparation depends on [dtw_distances_length] through its
    value at the caller's block as it came in only: any collaborator with
    the same value there gives the same outcome.  Whenever the preparation
    returns, the one query it made is its first action and was given that
    block, before [re == 0] and [ce == 0] are replaced by the number of
    series; the block it hands back, the planning loop and the row loop of
    each of the four entry points use the defaulted block. *)
Theorem C10_length_is_queried_before_the_defaulting :
  forall (seq_t DTWSettings : Type) (use_ssize_t : DTWSettings -> bool)
         (dtw_distances_length : DTWBlock -> Z -> bool -> Z)
         (dtw_distance : Z -> Z -> Z -> Z -> DTWSettings -> seq_t)
         (dtw_distance_ndim : Z -> Z -> Z -> Z -> Z -> DTWSettings -> seq_t)
         (ptrs lengths : list Z) (matrix N nb_cols ndim : Z) (out : list seq_t)
         (block : DTWBlock) (settings : DTWSettings) (heap : allocator),
    (forall other_length : DTWBlock -> Z -> bool -> Z,
        other_length block N (use_ssize_t settings)
        = dtw_distances_length block N (use_ssize_t settings) ->
        dtw_distances_prepare DTWSettings use_ssize_t other_length
          block N AddressOfLocal AddressOfLocal AddressOfLocal settings heap
        = dtw_distances_prepare DTWSettings use_ssize_t dtw_distances_length
            block N AddressOfLocal AddressOfLocal AddressOfLocal settings heap) /\
    forall (rc : Z) (p : prepared),
    dtw_distances_prepare DTWSettings use_ssize_t dtw_distances_length
      block N AddressOfLocal AddressOfLocal AddressOfLocal settings heap = Done (rc, p) ->
    head (pr_trace p) = Some (EvLength block N (use_ssize_t settings)) /\
    (forall b' n f, EvLength b' n f ∈ pr_trace p ->
                    b' = block /\ n = N /\ f = use_ssize_t settings) /\
    (rc = 0 -> pr_length p = dtw_distances_length block N (use_ssize_t settings)) /\
    pr_block p = normalized block N /\
    (rc = 0 ->
     plan_rows (Z.to_nat (re (normalized block N) - rb (normalized block N)))
       (normalized block N) (rb (normalized block N)) 0 0
       (malloc true (planner_bytes (normalized block N)))
       (malloc true (planner_bytes (normalized block N)))
     = Done (pr_cbs p, pr_rls p)) /\
    dtw_distances_ptrs_parallel seq_t DTWSettings use_ssize_t dtw_distances_length
      dtw_distance ptrs N lengths out block settings heap
    = after_prepare
        (fun r c => pr ← fetch ptrs r; lr ← fetch lengths r;
                    pc ← fetch ptrs c; lc ← fetch lengths c;
                    Done (dtw_distance pr lr pc lc settings))
        out rc p (normalized block N) /\
    dtw_distances_ndim_ptrs_parallel seq_t DTWSettings use_ssize_t dtw_distances_length
      dtw_distance_ndim ptrs N lengths ndim out block settings heap
    = after_prepare
        (fun r c => pr ← fetch ptrs r; lr ← fetch lengths r;
                    pc ← fetch ptrs c; lc ← fetch lengths c;
                    Done (dtw_distance_ndim pr lr pc lc ndim settings))
        out rc p (normalized block N) /\
    dtw_distances_matrix_parallel seq_t DTWSettings use_ssize_t dtw_distances_length
      dtw_distance matrix N nb_cols out block settings heap
    = after_prepare
        (fun r c => Done (dtw_distance (matrix + Word.mul r nb_cols) nb_cols
                                       (matrix + Word.mul c nb_cols) nb_cols settings))
        out rc p (normalized block N) /\
    dtw_distances_ndim_matrix_parallel seq_t DTWSettings use_ssize_t dtw_distances_length
      dtw_distance_ndim matrix N nb_cols ndim out block settings heap
    = after_prepare
        (fun r c => Done (dtw_distance_ndim
                            (matrix + Word.mul (Word.mul r nb_cols) (Word.wrap ndim)) nb_cols
                            (matrix + Word.mul (Word.mul c nb_cols) (Word.wrap ndim)) nb_cols
                            ndim settings))
        out rc p (normalized block N).
Proof.
  intros until heap. split.
  { intros other_length Hsame. unfold dtw_distances_prepare. rewrite Hsame. reflexivity. }
  intros rc p H.
  unfold dtw_distances_ptrs_parallel, dtw_distances_ndim_ptrs_parallel,
    dtw_distances_matrix_parallel, dtw_distances_ndim_matrix_parallel,
    distances_parallel, after_prepare.
  rewrite H. cbn [mbind outcome_bind].
  rewrite <- (correct_block_normalized block N).
  apply prepare_inv in H as [(-> & _ & ->)|(-> & _ & -> & Hplan & Hb & Hlen & Htr)].
  - cbn [pr_trace pr_block pr_length head negb Z.eqb].
    split; [reflexivity|]. split.
    { intros b' n f Hin. apply list_elem_of_singleton in Hin. inversion Hin. auto. }
    split; [discriminate|]. split; [reflexivity|]. split; [discriminate|].
    repeat split.
  - rewrite Htr, Hb. cbn [head negb Z.eqb].
    split; [reflexivity|]. split.
    { intros b' n f Hin. rewrite !elem_of_cons in Hin.
      destruct Hin as [Hin|[Hin|[Hin|Hin]]]; try discriminate Hin.
      - inversion Hin. auto.
      - by apply not_elem_of_nil in Hin. }
    split; [intros _; exact Hlen|]. split; [reflexivity|].
    split; [intros _; exact Hplan|]. repeat split.
Qed.

Lemma C10_length_is_queried_before_the_defaulting_witness :
  (exists p, Sample.prepare (mkBlock 0 0 0 0) 4 Sample.granted = Done (0, p) /\
             head (pr_trace p) = Some (EvLength (mkBlock 0 0 0 0) 4 false) /\
             pr_block p = mkBlock 0 4 0 4 /\
             pr_cbs p = Block [Some 1; Some 2; Some 3; Some 4] /\
             pr_rls p = Block [Some 0; Some 3; Some 5; Some 6]).
Proof.
  assert (H : Sample.prepare (mkBlock 0 0 0 0) 4 Sample.granted
              = Done (0, mkPrepared (mkBlock 0 4 0 4) 6
                           (Block [Some 1; Some 2; Some 3; Some 4])
                           (Block [Some 0; Some 3; Some 5; Some 6])
                           [EvLength (mkBlock 0 0 0 0) 4 false;
                            EvMalloc 32 true; EvMalloc 32 true]))
    by (vm_compute; reflexivity).
  eexists. split; [exact H|].
  destruct (proj2 (C10_length_is_queried_before_the_defaulting Z Sample.settings
                     Sample.use_ssize_t region_length Sample.distance Sample.distance_ndim
                     (Sample.ptrs 0 4 3) (Sample.lengths 4 3) 0 4 3 1 (Sample.buffer 8)
                     (mkBlock 0 0 0 0) false Sample.granted) _ _ H)
    as (Hhead & _ & _ & Hblock & _).
  split; [exact Hhead|]. split; [exact Hblock|]. split; reflexivity.
Defined.


(** * Further properties of the code *)

(** ** The slot of each pair *)

Lemma region_writes_stores {V : Type} (val : Z -> Z -> V) (b : DTWBlock) (css : list Z) :
  forall (r : Z) (rls : list Z),
    region_writes val b r css rls
    = (fun s => (fst s, val (fst (snd s)) (snd (snd s))))
        <$> stores (region_events b r css rls).
Proof.
  induction css as [|c0 css IH]; intros r [|rl rls]; try reflexivity.
  cbn [region_writes region_events]. rewrite stores_app, fmap_app, IH, stores_row_events.
  unfold row_writes. rewrite <- list_fmap_compose. reflexivity.
Qed.

Lemma sum_counts_first (b : DTWBlock) (r m : Z) :
  0 < m ->
  sumZ (row_count b <$> seqZ r m) = row_count b r + sumZ (row_count b <$> seqZ (r + 1) (m - 1)).
Proof.
  intros Hm. rewrite seqZ_cons by lia.
  replace (Z.succ r) with (r + 1) by lia. replace (Z.pred m) with (m - 1) by lia.
  reflexivity.
Qed.

(** The stores of the rows from [r] on, one by one. *)
Lemma elem_of_region_stores (b : DTWBlock) (n : nat) :
  forall (r rs i r' c : Z),
    (col_start b r < ce b ->
     0 <= rs /\ rs + sumZ (row_count b <$> seqZ r (Z.of_nat n)) < Word.modulus) ->
    (i, (r', c)) ∈ stores (region_events b r (col_start b <$> seqZ r (Z.of_nat n))
                             (row_offsets_from b r rs n)) <->
    r <= r' < r + Z.of_nat n /\ col_start b r' <= c < ce b /\
    i = rs + sumZ (row_count b <$> seqZ r (r' - r)) + (c - col_start b r').
Proof.
  induction n as [|n IH]; intros r rs i r' c Hrs.
  - cbn. split; [intros H; by apply not_elem_of_nil in H | lia].
  - rewrite sum_counts_cons in Hrs.
    rewrite seqZ_cons by lia. replace (Z.pred (Z.of_nat (S n))) with (Z.of_nat n) by lia.
    replace (Z.succ r) with (r + 1) by lia.
    cbn [fmap list_fmap row_offsets_from region_events].
    rewrite stores_app, elem_of_app, stores_row_events, list_elem_of_fmap.
    pose proof (sum_counts_nonneg b n (r + 1)) as Hnn.
    assert (forall x, r <= x -> col_start b r <= col_start b x) as Hmono
      by (intros x Hx; unfold col_start; lia).
    destruct (Z.lt_ge_cases (col_start b r) (ce b)) as [Hlt|Hge].
    + specialize (Hrs Hlt).
      assert (row_count b r = ce b - col_start b r) as Hcnt by (unfold row_count; lia).
      rewrite IH.
      2:{ intros _. rewrite (sub_small (ce b)) by (unfold Word.in_range, col_start in *; lia).
          rewrite add_small by (unfold Word.in_range; lia). lia. }
      rewrite (sub_small (ce b)) by (unfold Word.in_range, col_start in *; lia).
      rewrite add_small by (unfold Word.in_range; lia).
      split.
      * intros [(c' & Heq & Hc')|(Hr' & Hc & Hi)].
        -- inversion Heq; subst. apply elem_of_seqZ in Hc'.
           rewrite Z.sub_diag, seqZ_nil by lia. cbn. lia.
        -- rewrite (sum_counts_first b r (r' - r)) by lia.
           replace (r' - r - 1) with (r' - (r + 1)) by lia. lia.
      * intros (Hr' & Hc & Hi).
        destruct (Z.eq_dec r' r) as [->|Hne].
        -- left. exists c. rewrite Z.sub_diag, seqZ_nil in Hi by lia. cbn in Hi.
           split; [f_equal; lia | apply elem_of_seqZ; lia].
        -- right. rewrite (sum_counts_first b r (r' - r)) in Hi by lia.
           replace (r' - r - 1) with (r' - (r + 1)) in Hi by lia. lia.
    + rewrite (seqZ_nil (col_start b r)) by lia.
      rewrite IH by (pose proof (col_start_mono b r); lia).
      split.
      * intros [(c' & _ & Hc')|(Hr' & Hc & _)].
        -- by apply not_elem_of_nil in Hc'.
        -- pose proof (Hmono r' ltac:(lia)). lia.
      * intros (Hr' & Hc & _). pose proof (Hmono r' ltac:(lia)). lia.
Qed.

(** A store of a region goes to the slot of its pair. *)
Lemma elem_of_stores_of_region (b : DTWBlock) (i r c : Z) :
  0 <= re b - rb b -> total_pairs b < Word.modulus ->
  (i, (r, c)) ∈ stores (region_events b (rb b) (col_starts b) (row_offsets b)) <->
  rb b <= r < re b /\ col_start b r <= c < ce b /\ i = slot_of b r c.
Proof.
  intros Hrows Hmod. rewrite col_starts_of_nat by lia. unfold row_offsets.
  rewrite elem_of_region_stores
    by (intros _; rewrite <- total_pairs_of_nat by lia; lia).
  unfold slot_of, row_offset. rewrite Z2Nat.id by lia. split; intros (? & ? & ?); lia.
Qed.

Lemma write_all_lookup_other {V : Type} (ws : list (Z * V)) :
  forall (out : list V) (j : nat),
    j ∉ ((fun w => Z.to_nat (fst w)) <$> ws) -> write_all ws out !! j = out !! j.
Proof.
  induction ws as [|w ws IH]; intros out j Hj; [reflexivity|].
  cbn in Hj. rewrite not_elem_of_cons in Hj. destruct Hj as [Hne Hj].
  unfold write_all in *. cbn. rewrite IH by exact Hj.
  apply list_lookup_insert_ne. congruence.
Qed.

Lemma write_all_lookup {V : Type} (ws : list (Z * V)) :
  forall (out : list V) (i : Z) (v : V),
    NoDup ((fun w => Z.to_nat (fst w)) <$> ws) -> (i, v) ∈ ws ->
    (Z.to_nat i < length out)%nat ->
    write_all ws out !! Z.to_nat i = Some v.
Proof.
  induction ws as [|w ws IH]; intros out i v Hnd Hin Hlen.
  - by apply not_elem_of_nil in Hin.
  - cbn in Hnd. apply NoDup_cons in Hnd as [Hnotin Hnd].
    apply elem_of_cons in Hin as [<-|Hin].
    + change (write_all ((i, v) :: ws) out)
        with (write_all ws (<[Z.to_nat i := v]> out)).
      rewrite write_all_lookup_other by exact Hnotin.
      by apply list_lookup_insert_eq.
    + change (write_all (w :: ws) out)
        with (write_all ws (<[Z.to_nat (fst w) := snd w]> out)).
      apply IH; [exact Hnd | exact Hin | by rewrite length_insert].
Qed.

Lemma NoDup_region_write_slots {V : Type} (val : Z -> Z -> V) (b : DTWBlock) :
  0 <= re b - rb b -> total_pairs b < Word.modulus ->
  NoDup ((fun w : Z * V => Z.to_nat (fst w))
           <$> region_writes val b (rb b) (col_starts b) (row_offsets b)).
Proof.
  intros Hrows Hmod.
  change (fun w : Z * V => Z.to_nat (fst w)) with (Z.to_nat ∘ (@fst Z V)).
  rewrite (list_fmap_compose fst Z.to_nat), fst_region_writes, region_store_indices
    by assumption.
  apply NoDup_fmap_2_strong; [|apply NoDup_seqZ].
  intros x y Hx Hy Heq. apply elem_of_seqZ in Hx, Hy. lia.
Qed.

Lemma slot_of_bounds (b : DTWBlock) (r c : Z) :
  rb b <= r < re b -> col_start b r <= c < ce b ->
  0 <= slot_of b r c < total_pairs b.
Proof.
  intros Hr Hc. unfold slot_of, row_offset.
  pose proof (sum_counts_nonneg b (Z.to_nat (r - rb b)) (rb b)) as H0.
  pose proof (sum_counts_prefix b (S (Z.to_nat (r - rb b))) (Z.to_nat (re b - rb b)) (rb b)
                ltac:(lia)) as Hpre.
  rewrite sum_counts_snoc in Hpre. rewrite <- total_pairs_of_nat in Hpre by lia.
  rewrite !Z2Nat.id in * by lia. replace (rb b + (r - rb b)) with r in Hpre by lia.
  assert (row_count b r = ce b - col_start b r) by (unfold row_count; lia). lia.
Qed.

(** The buffer left by the writes of a region: the slot of each pair holds
    its metric, the slots from the pair count on are as before. *)
Lemma region_writes_output {V : Type} (val : Z -> Z -> V) (b : DTWBlock) (out : list V) :
  0 <= re b - rb b -> total_pairs b < Word.modulus ->
  total_pairs b <= Z.of_nat (length out) ->
  let out' := write_all (region_writes val b (rb b) (col_starts b) (row_offsets b)) out in
  length out' = length out /\
  (forall r c, rb b <= r < re b -> col_start b r <= c < ce b ->
               out' !! Z.to_nat (slot_of b r c) = Some (val r c)) /\
  (forall j : nat, total_pairs b <= Z.of_nat j -> out' !! j = out !! j).
Proof.
  intros Hrows Hmod Hout out'. split; [apply length_write_all|]. split.
  - intros r c Hr Hc. pose proof (slot_of_bounds b r c Hr Hc) as Hs.
    apply write_all_lookup; [by apply NoDup_region_write_slots | | lia].
    rewrite region_writes_stores. apply list_elem_of_fmap.
    exists (slot_of b r c, (r, c)). split; [reflexivity|].
    apply elem_of_stores_of_region; auto.
  - intros j Hj. apply write_all_lookup_other.
    change (fun w : Z * V => Z.to_nat (fst w)) with (Z.to_nat ∘ (@fst Z V)).
    rewrite (list_fmap_compose fst Z.to_nat), fst_region_writes, region_store_indices
      by assumption.
    intros Hin. apply list_elem_of_fmap in Hin as (x & -> & Hx).
    apply elem_of_seqZ in Hx. lia.
Qed.

(** ** Regions whose rows all have a slot *)

Section FittingRegion.
Variable seq_t : Type.
Variable DTWSettings : Type.
Variable use_ssize_t : DTWSettings -> bool.
Variable dtw_distances_length : DTWBlock -> Z -> bool -> Z.
Variable dtw_distance : Z -> Z -> Z -> Z -> DTWSettings -> seq_t.
Variable dtw_distance_ndim : Z -> Z -> Z -> Z -> Z -> DTWSettings -> seq_t.

(** Each entry point is then the call that goes through, at its metric. *)
Lemma variants_go_through (ptrs lengths : list Z) (matrix N nb_cols ndim : Z)
    (out : list seq_t) (block : DTWBlock) (settings : DTWSettings) :
  goes_through block N out ->
  Z.of_nat (length ptrs) = N -> Z.of_nat (length lengths) = N ->
  Forall (fun vc => snd vc = gone_through use_ssize_t dtw_distances_length (fst vc)
                                 block N out settings)
    (variants use_ssize_t dtw_distances_length dtw_distance dtw_distance_ndim
       ptrs lengths matrix N nb_cols ndim out block settings (mkAllocator true true)).
Proof.
  intros Hgo Hp Hl. unfold variants. repeat constructor; cbn [fst snd].
  - by apply ptrs_parallel_goes_through.
  - by apply ndim_ptrs_parallel_goes_through.
  - by apply matrix_parallel_goes_through.
  - by apply ndim_matrix_parallel_goes_through.
Qed.
End FittingRegion.

(** X2.  On a valid region whose rows all have a planner slot, with both
    allocations granted and an output buffer that holds the pairs of the
    region, each of the four entry points returns and leaves a buffer of the
    same length in which the slot [row_offset(r) + (c - max(r+1, cb))] of
    every pair [(r, c)] of the region holds the metric of that pair, and the
    slots from the pair count on are as they were. *)
Theorem fitting_region_fills_the_output :
  forall (seq_t DTWSettings : Type) (use_ssize_t : DTWSettings -> bool)
         (dtw_distances_length : DTWBlock -> Z -> bool -> Z)
         (dtw_distance : Z -> Z -> Z -> Z -> DTWSettings -> seq_t)
         (dtw_distance_ndim : Z -> Z -> Z -> Z -> Z -> DTWSettings -> seq_t)
         (ptrs lengths : list Z) (matrix N nb_cols ndim : Z) (out : list seq_t)
         (block : DTWBlock) (settings : DTWSettings),
    goes_through block N out ->
    Z.of_nat (length ptrs) = N -> Z.of_nat (length lengths) = N ->
    Forall (fun vc =>
              exists len res,
                snd vc = Done (len, res) /\
                length (res_output res) = length out /\
                (forall r c,
                    rb (correct_block block N) <= r < re (correct_block block N) ->
                    Z.max (r + 1) (cb (correct_block block N)) <= c
                    < ce (correct_block block N) ->
                    res_output res !! Z.to_nat (slot_of (correct_block block N) r c)
                    = Some (fst vc r c)) /\
                (forall j : nat,
                    total_pairs (correct_block block N) <= Z.of_nat j ->
                    res_output res !! j = out !! j))
      (variants use_ssize_t dtw_distances_length dtw_distance dtw_distance_ndim
         ptrs lengths matrix N nb_cols ndim out block settings (mkAllocator true true)).
Proof.
  intros until settings. intros Hgo Hp Hl.
  eapply Forall_impl; [by apply variants_go_through|].
  intros [val call] Hcall. cbn [fst snd] in *. rewrite Hcall. unfold gone_through.
  destruct Hgo as ((Hrb & Hre & Hcb & Hce) & HN & Hfit & Hout & Hmod).
  destruct (region_writes_output val (correct_block block N) out
              ltac:(lia) Hmod Hout) as (Hlen & Hfill & Hrest).
  eexists _, _. split; [reflexivity|]. cbn [res_output]. auto.
Qed.

Lemma fitting_region_fills_the_output_witness :
  goes_through (mkBlock 1 3 0 4) 4 (Sample.buffer 8) /\
  Forall (fun vc =>
            exists len res,
              snd vc = Done (len, res) /\
              res_output res !! Z.to_nat (slot_of (mkBlock 1 3 0 4) 1 2) = Some (fst vc 1 2) /\
              res_output res !! Z.to_nat (slot_of (mkBlock 1 3 0 4) 1 3) = Some (fst vc 1 3) /\
              res_output res !! Z.to_nat (slot_of (mkBlock 1 3 0 4) 2 3) = Some (fst vc 2 3) /\
              res_output res !! 3%nat = Some (-1))
    (Sample.calls (mkBlock 1 3 0 4) 4 Sample.granted).
Proof.
  assert (Hgo : goes_through (mkBlock 1 3 0 4) 4 (Sample.buffer 8))
    by (vm_compute; repeat split; congruence).
  split; [exact Hgo|].
  eapply Forall_impl;
    [exact (fitting_region_fills_the_output Z Sample.settings Sample.use_ssize_t
              region_length Sample.distance Sample.distance_ndim
              (Sample.ptrs 0 4 3) (Sample.lengths 4 3) 0 4 3 1 (Sample.buffer 8)
              (mkBlock 1 3 0 4) false Hgo eq_refl eq_refl)|].
  intros vc (len & res & Hcall & _ & Hfill & Hrest).
  exists len, res. split; [exact Hcall|].
  split; [apply (Hfill 1 2); vm_compute; split; congruence|].
  split; [apply (Hfill 1 3); vm_compute; split; congruence|].
  split; [apply (Hfill 2 3); vm_compute; split; congruence|].
  rewrite (Hrest 3%nat) by (vm_compute; congruence). reflexivity.
Defined.

(** X1.  On a valid region whose rows all have a planner slot, with both
    allocations granted and an output buffer that holds the pairs of the
    region, each of the four entry points returns what [dtw_distances_length]
    gave for the caller's block, hands back the defaulted block, and stores
    exactly the pairs [(r, c)] with [rb <= r < re] and
    [max(r+1, cb) <= c < ce], each once and at the slot
    [row_offset(r) + (c - max(r+1, cb))]; the slots written are the slots
    [0, 1, ..., total - 1], each once, in whatever order the rows run. *)
Theorem fitting_region_stores_each_pair_once :
  forall (seq_t DTWSettings : Type) (use_ssize_t : DTWSettings -> bool)
         (dtw_distances_length : DTWBlock -> Z -> bool -> Z)
         (dtw_distance : Z -> Z -> Z -> Z -> DTWSettings -> seq_t)
         (dtw_distance_ndim : Z -> Z -> Z -> Z -> Z -> DTWSettings -> seq_t)
         (ptrs lengths : list Z) (matrix N nb_cols ndim : Z) (out : list seq_t)
         (block : DTWBlock) (settings : DTWSettings),
    goes_through block N out ->
    Z.of_nat (length ptrs) = N -> Z.of_nat (length lengths) = N ->
    Forall (fun vc =>
              exists res,
                snd vc = Done (dtw_distances_length block N (use_ssize_t settings), res) /\
                res_block res = correct_block block N /\
                (forall i r c,
                    (i, (r, c)) ∈ stores (res_trace res) <->
                    rb (correct_block block N) <= r < re (correct_block block N) /\
                    Z.max (r + 1) (cb (correct_block block N)) <= c
                    < ce (correct_block block N) /\
                    i = slot_of (correct_block block N) r c) /\
                NoDup (snd <$> stores (res_trace res)) /\
                (fst <$> stores (res_trace res))
                ≡ₚ seqZ 0 (total_pairs (correct_block block N)))
      (variants use_ssize_t dtw_distances_length dtw_distance dtw_distance_ndim
         ptrs lengths matrix N nb_cols ndim out block settings (mkAllocator true true)).
Proof.
  intros until settings. intros Hgo Hp Hl.
  eapply Forall_impl; [by apply variants_go_through|].
  intros [val call] Hcall. cbn [fst snd] in *.
  eexists. split; [rewrite Hcall; reflexivity|]. split; [reflexivity|].
  destruct (gone_through_stores seq_t DTWSettings use_ssize_t dtw_distances_length
              val block N out settings _ _ Hgo eq_refl) as (H1 & H2 & H3 & _).
  destruct Hgo as ((Hrb & Hre & Hcb & Hce) & HN & Hfit & Hout & Hmod).
  split; [|split].
  - intros i r c. rewrite H1. apply elem_of_stores_of_region; [lia | exact Hmod].
  - rewrite H3. apply NoDup_region_pairs.
  - by rewrite H2.
Qed.

Lemma fitting_region_stores_each_pair_once_witness :
  goes_through (mkBlock 1 3 0 4) 4 (Sample.buffer 8) /\
  Forall (fun vc =>
            exists res,
              snd vc = Done (3, res) /\
              res_block res = mkBlock 1 3 0 4 /\
              (fst <$> stores (res_trace res)) ≡ₚ [0; 1; 2] /\
              (1, (1, 3)) ∈ stores (res_trace res) /\
              (2, (2, 3)) ∈ stores (res_trace res))
    (Sample.calls (mkBlock 1 3 0 4) 4 Sample.granted).
Proof.
  assert (Hgo : goes_through (mkBlock 1 3 0 4) 4 (Sample.buffer 8))
    by (vm_compute; repeat split; congruence).
  split; [exact Hgo|].
  eapply Forall_impl;
    [exact (fitting_region_stores_each_pair_once Z Sample.settings Sample.use_ssize_t
              region_length Sample.distance Sample.distance_ndim
              (Sample.ptrs 0 4 3) (Sample.lengths 4 3) 0 4 3 1 (Sample.buffer 8)
              (mkBlock 1 3 0 4) false Hgo eq_refl eq_refl)|].
  intros vc (res & Hcall & Hb & Hin & Hnd & Hidx).
  exists res. split; [exact Hcall|]. split; [exact Hb|]. split; [exact Hidx|].
  split; apply Hin; vm_compute; repeat split; congruence.
Defined.

(** ** The full region *)

(** Twice the pairs of the first [k] rows of the full region. *)
Lemma full_region_rows (N : Z) (k : nat) :
  Z.of_nat k <= N ->
  2 * sumZ (row_count (mkBlock 0 N 0 N) <$> seqZ 0 (Z.of_nat k))
  = Z.of_nat k * (2 * N - Z.of_nat k - 1).
Proof.
  induction k as [|k IH]; intros Hk.
  - reflexivity.
  - rewrite sum_counts_snoc. unfold row_count at 2, col_start. cbn [cb ce]. nia.
Qed.

Lemma full_region_total (N : Z) :
  0 <= N -> total_pairs (mkBlock 0 N 0 N) = N * (N - 1) / 2.
Proof.
  intros HN. rewrite total_pairs_of_nat by (cbn; lia). cbn [rb re].
  pose proof (full_region_rows N (Z.to_nat (N - 0)) ltac:(lia)) as H.
  rewrite Z2Nat.id in * by lia. replace (N - 0) with N in * by lia.
  apply Z.div_unique_exact; lia.
Qed.

Lemma full_region_slot (N r c : Z) :
  0 <= r -> r < c -> c < N ->
  slot_of (mkBlock 0 N 0 N) r c = r * N - r * (r + 1) / 2 + (c - r - 1).
Proof.
  intros Hr Hc HN. unfold slot_of, row_offset, col_start. cbn [rb cb].
  pose proof (full_region_rows N (Z.to_nat (r - 0)) ltac:(lia)) as H.
  rewrite Z2Nat.id in H by lia. replace (r - 0) with r in * by lia.
  assert (r * N - sumZ (row_count (mkBlock 0 N 0 N) <$> seqZ 0 r) = r * (r + 1) / 2) as <-
    by (apply Z.div_unique_exact; lia).
  lia.
Qed.

(** X3.  The full region of [N] series, asked for with the zero sentinels or
    with [re = ce = N]: each of the four entry points stores to the slots
    [0 .. N(N-1)/2 - 1], to each once, and leaves the metric of every pair
    [r < c] at the condensed index [r*N - r(r+1)/2 + (c - r - 1)]; the rest of
    the buffer is as it was and the block handed back is [(0, N, 0, N)]. *)
Theorem full_region_condensed_layout :
  forall (seq_t DTWSettings : Type) (use_ssize_t : DTWSettings -> bool)
         (dtw_distances_length : DTWBlock -> Z -> bool -> Z)
         (dtw_distance : Z -> Z -> Z -> Z -> DTWSettings -> seq_t)
         (dtw_distance_ndim : Z -> Z -> Z -> Z -> Z -> DTWSettings -> seq_t)
         (ptrs lengths : list Z) (matrix N nb_cols ndim : Z) (out : list seq_t)
         (block : DTWBlock) (settings : DTWSettings),
    correct_block block N = mkBlock 0 N 0 N ->
    0 < N < 2 ^ 61 ->
    N * (N - 1) / 2 < Word.modulus ->
    N * (N - 1) / 2 <= Z.of_nat (length out) ->
    Z.of_nat (length ptrs) = N -> Z.of_nat (length lengths) = N ->
    Forall (fun vc =>
              exists res,
                snd vc = Done (dtw_distances_length block N (use_ssize_t settings), res) /\
                res_block res = mkBlock 0 N 0 N /\
                length (res_output res) = length out /\
                (fst <$> stores (res_trace res)) ≡ₚ seqZ 0 (N * (N - 1) / 2) /\
                (forall r c,
                    0 <= r -> r < c -> c < N ->
                    res_output res !! Z.to_nat (r * N - r * (r + 1) / 2 + (c - r - 1))
                    = Some (fst vc r c)) /\
                (forall j : nat,
                    N * (N - 1) / 2 <= Z.of_nat j -> res_output res !! j = out !! j))
      (variants use_ssize_t dtw_distances_length dtw_distance dtw_distance_ndim
         ptrs lengths matrix N nb_cols ndim out block settings (mkAllocator true true)).
Proof.
  intros until settings. intros Hb HN Hmod Hout Hp Hl.
  assert (goes_through block N out) as Hgo.
  { unfold goes_through. rewrite Hb, full_region_total by lia.
    rewrite planner_slots_small by (cbn; lia). unfold valid_region. cbn.
    rewrite modulus_eq in *. lia. }
  eapply Forall_impl; [by apply variants_go_through|].
  intros [val call] Hcall. cbn [fst snd] in *.
  destruct (gone_through_stores seq_t DTWSettings use_ssize_t dtw_distances_length
              val block N out settings _ _ Hgo eq_refl) as (_ & H2 & _ & _).
  rewrite Hb, full_region_total in H2 by lia.
  destruct (region_writes_output val (mkBlock 0 N 0 N) out) as (Hlen & Hfill & Hrest);
    [cbn; lia | by rewrite full_region_total by lia
     | by rewrite full_region_total by lia |].
  eexists. split; [rewrite Hcall; reflexivity|].
  cbn [res_block res_output]. rewrite Hb.
  split; [reflexivity|]. split; [exact Hlen|]. split; [by rewrite H2|]. split.
  - intros r c Hr Hc Hc'. rewrite <- full_region_slot by lia.
    apply Hfill; unfold col_start; cbn; lia.
  - intros j Hj. apply Hrest. by rewrite full_region_total by lia.
Qed.

Lemma full_region_condensed_layout_witness :
  Forall (fun vc =>
            exists res,
              snd vc = Done (6, res) /\
              res_block res = mkBlock 0 4 0 4 /\
              (fst <$> stores (res_trace res)) ≡ₚ [0; 1; 2; 3; 4; 5] /\
              res_output res !! 4%nat = Some (fst vc 1 3) /\
              res_output res !! 5%nat = Some (fst vc 2 3) /\
              res_output res !! 6%nat = Some (-1))
    (Sample.calls (mkBlock 0 0 0 0) 4 Sample.granted).
Proof.
  eapply Forall_impl;
    [apply (full_region_condensed_layout Z Sample.settings Sample.use_ssize_t
              region_length Sample.distance Sample.distance_ndim
              (Sample.ptrs 0 4 3) (Sample.lengths 4 3) 0 4 3 1 (Sample.buffer 8)
              (mkBlock 0 0 0 0) false);
     vm_compute; repeat split; congruence|].
  intros vc (res & Hcall & Hb & _ & Hidx & Hfill & Hrest).
  exists res. split; [exact Hcall|]. split; [exact Hb|]. split; [exact Hidx|].
  split; [apply (Hfill 1 3); vm_compute; congruence|].
  split; [apply (Hfill 2 3); vm_compute; congruence|].
  rewrite (Hrest 6%nat) by (vm_compute; congruence). reflexivity.
Defined.

(** ** Calls that leave defined behaviour *)

(** X4.  Whenever the region after defaulting has more rows than columns
    (and at least one column), with both allocations granted, the planning
    loop of [dtw_distances_prepare] writes outside the two arrays it
    allocated, and so does every entry point, in its call of the preparation
    and before its row loop. *)
Theorem more_rows_than_columns_overflows :
  forall (seq_t DTWSettings : Type) (use_ssize_t : DTWSettings -> bool)
         (dtw_distances_length : DTWBlock -> Z -> bool -> Z)
         (dtw_distance : Z -> Z -> Z -> Z -> DTWSettings -> seq_t)
         (dtw_distance_ndim : Z -> Z -> Z -> Z -> Z -> DTWSettings -> seq_t)
         (ptrs lengths : list Z) (matrix N nb_cols ndim : Z) (out : list seq_t)
         (block : DTWBlock) (settings : DTWSettings),
    0 <= rb (correct_block block N) ->
    re (correct_block block N) < Word.modulus ->
    0 < ce (correct_block block N) - cb (correct_block block N) < 2 ^ 61 ->
    ce (correct_block block N) - cb (correct_block block N)
    < re (correct_block block N) - rb (correct_block block N) ->
    dtw_distances_prepare DTWSettings use_ssize_t dtw_distances_length block N
      AddressOfLocal AddressOfLocal AddressOfLocal settings (mkAllocator true true)
    = Fault OutOfBounds /\
    Forall (fun vc => snd vc = Fault OutOfBounds)
      (variants use_ssize_t dtw_distances_length dtw_distance dtw_distance_ndim
         ptrs lengths matrix N nb_cols ndim out block settings (mkAllocator true true)).
Proof.
  intros until settings. intros Hrb Hre Hcols Hrows.
  assert (nonempty (correct_block block N)) as Hne by (split; lia).
  assert (planner_slots (correct_block block N)
          < re (correct_block block N) - rb (correct_block block N)) as Hs
    by (rewrite planner_slots_small by lia; lia).
  split; [by apply prepare_overflow|].
  unfold variants. repeat constructor; cbn [snd];
    by apply distances_parallel_overflow.
Qed.

Lemma more_rows_than_columns_overflows_witness :
  Sample.prepare (mkBlock 0 3 2 0) 4 Sample.granted = Fault OutOfBounds /\
  Forall (fun vc => snd vc = Fault OutOfBounds)
    (Sample.calls (mkBlock 0 3 2 0) 4 Sample.granted).
Proof.
  apply (more_rows_than_columns_overflows Z Sample.settings Sample.use_ssize_t
           region_length Sample.distance Sample.distance_ndim
           (Sample.ptrs 0 4 3) (Sample.lengths 4 3) 0 4 3 1 (Sample.buffer 8)
           (mkBlock 0 3 2 0) false);
    vm_compute; repeat split; congruence.
Defined.

(** X5.  On every region that is not empty after defaulting, a [malloc] that
    returns [NULL], the first, the second or both, is not noticed:
    [dtw_distances_prepare] does not return, its planning loop stops on a
    write through the null pointer or outside the other array, and each of
    the four entry points stops there as well. *)
Theorem failed_malloc_never_returns :
  forall (seq_t DTWSettings : Type) (use_ssize_t : DTWSettings -> bool)
         (dtw_distances_length : DTWBlock -> Z -> bool -> Z)
         (dtw_distance : Z -> Z -> Z -> Z -> DTWSettings -> seq_t)
         (dtw_distance_ndim : Z -> Z -> Z -> Z -> Z -> DTWSettings -> seq_t)
         (ptrs lengths : list Z) (matrix N nb_cols ndim : Z) (out : list seq_t)
         (block : DTWBlock) (settings : DTWSettings) (heap : allocator),
    nonempty (correct_block block N) ->
    cbs_granted heap = false \/ rls_granted heap = false ->
    exists f : fault,
      (f = NullDereference \/ f = OutOfBounds) /\
      dtw_distances_prepare DTWSettings use_ssize_t dtw_distances_length block N
        AddressOfLocal AddressOfLocal AddressOfLocal settings heap
      = Fault f /\
      Forall (fun vc => snd vc = Fault f)
        (variants use_ssize_t dtw_distances_length dtw_distance dtw_distance_ndim
           ptrs lengths matrix N nb_cols ndim out block settings heap).
Proof.
  intros until heap. intros Hne Hheap.
  assert (exists f : fault,
             (f = NullDereference \/ f = OutOfBounds) /\
             dtw_distances_prepare DTWSettings use_ssize_t dtw_distances_length block N
               AddressOfLocal AddressOfLocal AddressOfLocal settings heap
             = Fault f) as (f & Hf & Hprep).
  { rewrite prepare_nonempty by exact Hne. destruct Hne as [Hr Hc].
    destruct (Z.to_nat (re (correct_block block N) - rb (correct_block block N)))
      as [|n] eqn:En; [lia|].
    cbn [plan_rows].
    destruct (cbs_granted heap) eqn:E1.
    - destruct Hheap as [?|E2]; [congruence|]. rewrite E2. cbn [malloc].
      match goal with
      | |- context [poke (Block ?a) ?i ?v] =>
          destruct (poke (Block a) i v) as [p|f] eqn:Ep
      end.
      + cbn [mbind outcome_bind]. cbn [poke]. cbn [mbind outcome_bind]. eauto.
      + cbn [mbind outcome_bind]. exists f. split; [|reflexivity].
        right. unfold poke in Ep. repeat case_match; congruence.
    - cbn [malloc poke mbind outcome_bind]. eauto. }
  exists f. split; [exact Hf|]. split; [exact Hprep|].
  unfold variants. repeat constructor; cbn [snd];
    unfold dtw_distances_ptrs_parallel, dtw_distances_ndim_ptrs_parallel,
      dtw_distances_matrix_parallel, dtw_distances_ndim_matrix_parallel,
      distances_parallel;
    rewrite Hprep; reflexivity.
Qed.

Lemma failed_malloc_never_returns_witness :
  exists f : fault,
    (f = NullDereference \/ f = OutOfBounds) /\
    Sample.prepare (mkBlock 0 0 0 0) 4 (mkAllocator true false) = Fault f /\
    Forall (fun vc => snd vc = Fault f)
      (Sample.calls (mkBlock 0 0 0 0) 4 (mkAllocator true false)).
Proof.
  apply (failed_malloc_never_returns Z Sample.settings Sample.use_ssize_t
           region_length Sample.distance Sample.distance_ndim
           (Sample.ptrs 0 4 3) (Sample.lengths 4 3) 0 4 3 1 (Sample.buffer 8)
           (mkBlock 0 0 0 0) false (mkAllocator true false)).
  - vm_compute. split; reflexivity.
  - right. reflexivity.
Defined.

(** ** The row loop in any order *)

(** X6.  The rows of the loop under [#pragma omp parallel for] may run in
    any order: on a region that goes through, the stores recorded by each
    entry point, replayed on the caller's buffer in any order whatever, give
    the buffer the call leaves, as no two of them go to the same slot. *)
Theorem stores_commute :
  forall (seq_t DTWSettings : Type) (use_ssize_t : DTWSettings -> bool)
         (dtw_distances_length : DTWBlock -> Z -> bool -> Z)
         (dtw_distance : Z -> Z -> Z -> Z -> DTWSettings -> seq_t)
         (dtw_distance_ndim : Z -> Z -> Z -> Z -> Z -> DTWSettings -> seq_t)
         (ptrs lengths : list Z) (matrix N nb_cols ndim : Z) (out : list seq_t)
         (block : DTWBlock) (settings : DTWSettings),
    goes_through block N out ->
    Z.of_nat (length ptrs) = N -> Z.of_nat (length lengths) = N ->
    Forall (fun vc =>
              exists len res,
                snd vc = Done (len, res) /\
                NoDup (fst <$> writes_of (fst vc) (res_trace res)) /\
                forall ws : list (Z * seq_t),
                  ws ≡ₚ writes_of (fst vc) (res_trace res) ->
                  write_all ws out = res_output res)
      (variants use_ssize_t dtw_distances_length dtw_distance dtw_distance_ndim
         ptrs lengths matrix N nb_cols ndim out block settings (mkAllocator true true)).
Proof.
  intros until settings. intros Hgo Hp Hl.
  eapply Forall_impl; [by apply variants_go_through|].
  intros [val call] Hcall. cbn [fst snd] in *.
  eexists _, _. split; [rewrite Hcall; reflexivity|]. cbn [res_output].
  destruct (gone_through_stores seq_t DTWSettings use_ssize_t dtw_distances_length
              val block N out settings _ _ Hgo eq_refl) as (H1 & H2 & _ & _).
  destruct Hgo as ((Hrb & Hre & Hcb & Hce) & HN & Hfit & Hout & Hmod).
  unfold writes_of. split.
  - rewrite <- list_fmap_compose.
    change (fst ∘ _) with (@fst Z (Z * Z)). rewrite H2. apply NoDup_seqZ.
  - intros ws Hws. rewrite H1, <- region_writes_stores in Hws.
    apply region_writes_any_order; [lia | exact Hmod | by symmetry].
Qed.

Lemma stores_commute_witness :
  goes_through (mkBlock 1 3 0 4) 4 (Sample.buffer 8) /\
  Forall (fun vc =>
            exists len res,
              snd vc = Done (len, res) /\
              write_all (reverse (writes_of (fst vc) (res_trace res))) (Sample.buffer 8)
              = res_output res)
    (Sample.calls (mkBlock 1 3 0 4) 4 Sample.granted).
Proof.
  assert (Hgo : goes_through (mkBlock 1 3 0 4) 4 (Sample.buffer 8))
    by (vm_compute; repeat split; congruence).
  split; [exact Hgo|].
  eapply Forall_impl;
    [exact (stores_commute Z Sample.settings Sample.use_ssize_t
              region_length Sample.distance Sample.distance_ndim
              (Sample.ptrs 0 4 3) (Sample.lengths 4 3) 0 4 3 1 (Sample.buffer 8)
              (mkBlock 1 3 0 4) false Hgo eq_refl eq_refl)|].
  intros vc (len & res & Hcall & _ & Hany).
  exists len, res. split; [exact Hcall|]. apply Hany. apply reverse_Permutation.
Defined.

(** ** The two multi-channel variants *)

(** X7.  For the same series data, [ptrs[i]] pointing at row [i] of a
    contiguous matrix of [nb_cols * ndim] values per row and
    [lengths[i] = nb_cols] for every [i], the ragged and the contiguous
    multi-channel entry points have the same outcome on every region inside
    the grid: the same length, output buffer, block and trace, or the same
    fault. *)
Theorem ndim_ragged_and_contiguous_agree :
  forall (seq_t DTWSettings : Type) (use_ssize_t : DTWSettings -> bool)
         (dtw_distances_length : DTWBlock -> Z -> bool -> Z)
         (dtw_distance_ndim : Z -> Z -> Z -> Z -> Z -> DTWSettings -> seq_t)
         (ptrs lengths : list Z) (matrix N nb_cols ndim : Z) (out : list seq_t)
         (block : DTWBlock) (settings : DTWSettings) (heap : allocator),
    (forall i, 0 <= i < N -> ptrs !! Z.to_nat i = Some (matrix + i * nb_cols * ndim)) ->
    (forall i, 0 <= i < N -> lengths !! Z.to_nat i = Some nb_cols) ->
    0 <= nb_cols -> 0 <= ndim -> N * nb_cols * ndim < Word.modulus -> N < Word.modulus ->
    0 <= rb (correct_block block N) -> 0 <= cb (correct_block block N) ->
    re (correct_block block N) <= N -> ce (correct_block block N) <= N ->
    dtw_distances_ndim_ptrs_parallel seq_t DTWSettings use_ssize_t dtw_distances_length
      dtw_distance_ndim ptrs N lengths ndim out block settings heap
    = dtw_distances_ndim_matrix_parallel seq_t DTWSettings use_ssize_t dtw_distances_length
        dtw_distance_ndim matrix N nb_cols ndim out block settings heap.
Proof.
  intros seq_t DTWSettings use_ssize_t dtw_distances_length dtw_distance_ndim ptrs lengths
    matrix N nb_cols ndim out block settings heap Hp Hl Hcols Hdim Hfit HN Hrb Hcb Hre Hce.
  unfold dtw_distances_ndim_ptrs_parallel, dtw_distances_ndim_matrix_parallel.
  apply distances_parallel_ext; try assumption.
  intros r c Hr Hc.
  assert (forall i, 0 <= i < N ->
                    fetch ptrs i
                    = Done (matrix + Word.mul (Word.mul i nb_cols) (Word.wrap ndim))) as Hfp.
  { intros i Hi. unfold fetch. destruct (Z.ltb_spec i 0); [lia|]. rewrite Hp by exact Hi.
    unfold Word.mul, Word.wrap. rewrite <- Z.mul_mod by (rewrite modulus_eq; lia).
    rewrite Z.mod_small; [reflexivity|].
    assert (i * nb_cols <= N * nb_cols) by nia.
    assert (i * nb_cols * ndim <= N * nb_cols * ndim) by nia.
    assert (0 <= i * nb_cols) by nia. assert (0 <= i * nb_cols * ndim) by nia. lia. }
  assert (forall i, 0 <= i < N -> fetch lengths i = Done nb_cols) as Hfl.
  { intros i Hi. unfold fetch. destruct (Z.ltb_spec i 0); [lia|]. by rewrite Hl. }
  rewrite !Hfp, !Hfl by assumption. reflexivity.
Qed.

Lemma ndim_ragged_and_contiguous_agree_witness :
  dtw_distances_ndim_ptrs_parallel Z Sample.settings Sample.use_ssize_t region_length
    Sample.distance_ndim (Sample.ptrs 0 4 6) 4 (Sample.lengths 4 3) 2 (Sample.buffer 8)
    (mkBlock 0 0 0 0) false Sample.granted
  = dtw_distances_ndim_matrix_parallel Z Sample.settings Sample.use_ssize_t region_length
      Sample.distance_ndim 0 4 3 2 (Sample.buffer 8) (mkBlock 0 0 0 0) false Sample.granted /\
  exists res,
    dtw_distances_ndim_matrix_parallel Z Sample.settings Sample.use_ssize_t region_length
      Sample.distance_ndim 0 4 3 2 (Sample.buffer 8) (mkBlock 0 0 0 0) false Sample.granted
    = Done (6, res).
Proof.
  split.
  - apply ndim_ragged_and_contiguous_agree; try (vm_compute; congruence);
      intros i Hi;
      assert (i = 0 \/ i = 1 \/ i = 2 \/ i = 3) as [->|[->|[->| ->]]] by lia; reflexivity.
  - eexists. vm_compute. reflexivity.
Defined.

(** ** What every returning call has stored *)

Section Returned.
Variable seq_t : Type.
Variable value : Z -> Z -> outcome seq_t.

(** The stores of the inner loop are of the row [r] and of the columns
    [c .. c + n - 1], inside the buffer. *)
Lemma walk_columns_inv (r r_i : Z) (rls : pointer) (n : nat) :
  forall (c c_i : Z) (out out' : list seq_t) (evs : list event),
    0 <= c -> c + Z.of_nat n < Word.modulus ->
    walk_columns seq_t value n r r_i c c_i rls out = Done (out', evs) ->
    Forall (fun s => fst (snd s) = r /\ c <= snd (snd s) < c + Z.of_nat n /\
                     0 <= fst s < Z.of_nat (length out)) (stores evs).
Proof.
  induction n as [|n IH]; intros c c_i out out' evs Hc Hn H.
  - cbn [walk_columns] in H. inversion H; subst. constructor.
  - cbn [walk_columns] in H. bind_inv H. bind_inv H. bind_inv H. bind_inv H.
    destruct a2 as [o e]. inversion H; subst. clear H.
    apply store_inv in E1 as [Hi ->].
    rewrite (add_small c 1) in E2 by (unfold Word.in_range; lia).
    apply IH in E2; [|lia..]. rewrite length_insert in E2.
    cbn [stores omap]. fold (stores e). constructor.
    + cbn [fst snd]. lia.
    + eapply Forall_impl; [exact E2|]. cbn beta. intros s (? & ? & ?). lia.
Qed.

(** The stores of the row loop, the slots of [cbs] holding the column
    starts of the rows. *)
Lemma walk_rows_inv (b : DTWBlock) (cbs rls : pointer) (n : nat) :
  forall (r_i : Z) (out out' : list seq_t) (evs : list event),
    0 <= rb b -> 0 <= r_i -> rb b + r_i + Z.of_nat n <= re b -> re b < Word.modulus ->
    0 <= cb b < Word.modulus -> ce b < Word.modulus ->
    (forall i c0, 0 <= i -> rb b + i < re b ->
                  peek cbs i = Done c0 -> c0 = col_start b (rb b + i)) ->
    walk_rows seq_t value n b r_i cbs rls out = Done (out', evs) ->
    Forall (store_in_region b (length out)) (stores evs).
Proof.
  induction n as [|n IH]; intros r_i out out' evs Hrb Hri Hn Hre Hcb Hce Hcbs H.
  - cbn [walk_rows] in H. inversion H; subst. constructor.
  - cbn [walk_rows] in H. bind_inv H. bind_inv H. destruct a0 as [o1 e1].
    bind_inv H. destruct a0 as [o2 e2]. inversion H; subst. clear H.
    apply Hcbs in E as ->; [|lia..].
    rewrite (add_small (rb b) r_i) in E0 by (unfold Word.in_range; lia).
    rewrite (add_small r_i 1) in E1 by (unfold Word.in_range; lia).
    pose proof (walk_columns_frame _ _ _ _ _ _ _ _ _ _ _ E0) as (Hlen & _ & _).
    apply walk_columns_inv in E0; [|unfold col_start; lia..].
    apply IH in E1; [|first [assumption | lia]..].
    rewrite stores_app. apply Forall_app. split.
    + eapply Forall_impl; [exact E0|]. cbn beta. unfold store_in_region, col_start.
      intros s (-> & ? & ?). lia.
    + by rewrite <- Hlen.
Qed.
End Returned.

Section ReturnedCall.
Variable seq_t : Type.
Variable DTWSettings : Type.
Variable use_ssize_t : DTWSettings -> bool.
Variable dtw_distances_length : DTWBlock -> Z -> bool -> Z.
Variable value : Z -> Z -> outcome seq_t.

(** What the shared body has done when it returns. *)
Lemma distances_parallel_returned (N : Z) (out : list seq_t) (block : DTWBlock)
    (settings : DTWSettings) (heap : allocator) (len : Z) (res : result seq_t) :
  0 <= rb (correct_block block N) -> re (correct_block block N) < Word.modulus ->
  0 <= cb (correct_block block N) < Word.modulus ->
  ce (correct_block block N) < Word.modulus ->
  distances_parallel seq_t DTWSettings use_ssize_t dtw_distances_length value
    N out block settings heap = Done (len, res) ->
  Forall (store_in_region (correct_block block N) (length out))
    (stores (res_trace res)) /\
  (nonempty (correct_block block N) ->
   heap = mkAllocator true true /\
   re (correct_block block N) - rb (correct_block block N)
   <= planner_slots (correct_block block N) /\
   len = dtw_distances_length block N (use_ssize_t settings)) /\
  (~ nonempty (correct_block block N) ->
   len = 0 /\ stores (res_trace res) = []).
Proof.
  intros Hrb Hre Hcb Hce H. unfold distances_parallel in H. bind_inv H.
  destruct a as [rc p].
  apply prepare_inv in E
    as [(-> & Hempty & ->)|(-> & Hne & -> & Hplan & Hb & Hlen & Htr)].
  - cbn in H. inversion H; subst. cbn [res_trace].
    split; [constructor|]. split; [|done].
    intros [? ?]. lia.
  - cbn [negb Z.eqb] in H. rewrite Hb in H. bind_inv H. destruct a as [o e].
    inversion H; subst. clear H. cbn [res_trace].
    set (b := correct_block block N) in *. destruct Hne as [Hr Hc].
    pose proof (planner_slots_bound b) as Hs.
    cbn [malloc] in Hplan. unfold planner_bytes in Hplan.
    fold (planner_slots b) in Hplan.
    assert (re b - rb b <= planner_slots b) as Hfit.
    { destruct (Z.le_gt_cases (re b - rb b) (planner_slots b)) as [|Hgt]; [done|].
      rewrite plan_rows_fresh_overflow in Hplan by lia. discriminate. }
    split; [|split; [done | intros Hn; exfalso; apply Hn; split; lia]].
    rewrite Htr, !stores_app.
    change (stores [EvFree; EvFree]) with (@nil (Z * (Z * Z))).
    change (stores [EvLength block N (use_ssize_t settings);
                    EvMalloc (planner_bytes b) true; EvMalloc (planner_bytes b) true])
      with (@nil (Z * (Z * Z))).
    rewrite app_nil_r. cbn [app].
    rewrite sub_small in E by (unfold Word.in_range; lia).
    eapply walk_rows_inv; [| | | | | | |exact E]; try lia.
    intros i c0 Hi Hin Hpeek.
    rewrite plan_rows_fresh in Hplan by lia. inversion Hplan as [[Hpc Hpl]].
    rewrite <- Hpc in Hpeek.
    assert ((Some <$> (col_start b <$> seqZ (rb b) (Z.of_nat (Z.to_nat (re b - rb b)))))
            !! Z.to_nat i = Some (Some (col_start b (rb b + i)))) as Hlook.
    { rewrite !list_lookup_fmap, lookup_seqZ_lt by lia. cbn. do 3 f_equal. lia. }
    apply (lookup_app_l_Some _ (replicate (Z.to_nat (planner_slots b - (re b - rb b))) None))
      in Hlook.
    apply peek_block in Hlook. rewrite (Z2Nat.id i) in Hlook by lia.
    rewrite Hlook in Hpeek. by inversion Hpeek.
Qed.
End ReturnedCall.

(** X10.  Whatever the output buffer, the answers of [malloc] and the
    region (its bounds being [size_t] values), an entry point that returns
    on a region that is not empty after defaulting had both allocations
    granted, returns what [dtw_distances_length] gave for the caller's
    block, and has stored only pairs [(r, c)] of the region with
    [max(r+1, cb) <= c], so never a pair with [c <= r]; on an empty region it
    returns 0 and stores nothing. *)
Theorem returning_call_stores_pairs_of_the_region :
  forall (seq_t DTWSettings : Type) (use_ssize_t : DTWSettings -> bool)
         (dtw_distances_length : DTWBlock -> Z -> bool -> Z)
         (dtw_distance : Z -> Z -> Z -> Z -> DTWSettings -> seq_t)
         (dtw_distance_ndim : Z -> Z -> Z -> Z -> Z -> DTWSettings -> seq_t)
         (ptrs lengths : list Z) (matrix N nb_cols ndim : Z) (out : list seq_t)
         (block : DTWBlock) (settings : DTWSettings) (heap : allocator),
    0 <= rb (correct_block block N) -> re (correct_block block N) < Word.modulus ->
    0 <= cb (correct_block block N) < Word.modulus ->
    ce (correct_block block N) < Word.modulus ->
    Forall (fun vc =>
              forall len res,
                snd vc = Done (len, res) ->
                Forall (pair_in_region (correct_block block N))
                  (stores (res_trace res)) /\
                (nonempty (correct_block block N) ->
                 heap = mkAllocator true true /\
                 len = dtw_distances_length block N (use_ssize_t settings)) /\
                (~ nonempty (correct_block block N) ->
                 len = 0 /\ stores (res_trace res) = []))
      (variants use_ssize_t dtw_distances_length dtw_distance dtw_distance_ndim
         ptrs lengths matrix N nb_cols ndim out block settings heap).
Proof.
  intros until heap. intros Hrb Hre Hcb Hce.
  unfold variants.
  repeat (apply List.Forall_cons;
          [cbn [snd]; intros len res H;
           eapply distances_parallel_returned in H as (Hst & Hne & Hempty);
           [|assumption..];
           split; [|split; [intros Hn; destruct (Hne Hn) as (? & _ & ?); done
                           | exact Hempty]];
           eapply Forall_impl; [exact Hst|];
           intros s (? & ? & _); by split|]).
  apply List.Forall_nil.
Qed.

Lemma returning_call_stores_pairs_of_the_region_witness :
  Forall (fun vc =>
            exists res,
              snd vc = Done (6, res) /\
              Forall (fun s => fst (snd s) < snd (snd s)) (stores (res_trace res)))
    (Sample.calls (mkBlock 0 0 0 0) 4 Sample.granted).
Proof.
  assert (Forall (fun vc => exists res : result Z, snd vc = Done (6, res))
            (Sample.calls (mkBlock 0 0 0 0) 4 Sample.granted)) as Hdone
    by (repeat constructor; eexists; vm_compute; reflexivity).
  pose proof (returning_call_stores_pairs_of_the_region Z Sample.settings
                Sample.use_ssize_t region_length Sample.distance Sample.distance_ndim
                (Sample.ptrs 0 4 3) (Sample.lengths 4 3) 0 4 3 1 (Sample.buffer 8)
                (mkBlock 0 0 0 0) false Sample.granted
                ltac:(vm_compute; congruence) ltac:(vm_compute; congruence)
                ltac:(vm_compute; split; congruence) ltac:(vm_compute; congruence))
    as Hin.
  pose proof (proj2 (Forall_and _ _) (conj Hdone Hin)) as Hboth.
  eapply Forall_impl; [exact Hboth|]. cbn beta.
  intros vc [(res & Hcall) Hstores]. exists res. split; [exact Hcall|].
  destruct (Hstores _ _ Hcall) as (Hst & _ & _).
  eapply Forall_impl; [exact Hst|]. cbn beta. unfold pair_in_region.
  intros s (Hr & Hc). cbn [rb re cb ce correct_block] in *. lia.
Defined.

(** ** Calling again with the block handed back *)

Lemma correct_block_idempotent (block : DTWBlock) (N : Z) :
  correct_block (correct_block block N) N = correct_block block N.
Proof.
  rewrite !correct_block_normalized. unfold normalized. destruct block as [b1 e1 b2 e2].
  cbn [rb re cb ce].
  destruct (Z.eqb_spec e1 0), (Z.eqb_spec e2 0); subst;
    repeat match goal with
           | |- context [?x =? 0] => destruct (Z.eqb_spec x 0)
           end; congruence.
Qed.

Section Reuse.
Variable seq_t : Type.
Variable DTWSettings : Type.
Variable use_ssize_t : DTWSettings -> bool.
Variable dtw_distances_length : DTWBlock -> Z -> bool -> Z.
Variable value : Z -> Z -> outcome seq_t.

(** The shared body on the defaulted block, when [dtw_distances_length]
    gives the same for it as for the caller's block. *)
Lemma distances_parallel_again (N : Z) (out : list seq_t) (block : DTWBlock)
    (settings : DTWSettings) (heap : allocator) :
  dtw_distances_length (correct_block block N) N (use_ssize_t settings)
  = dtw_distances_length block N (use_ssize_t settings) ->
  distances_parallel seq_t DTWSettings use_ssize_t dtw_distances_length value
    N out (correct_block block N) settings heap
  = requeried (correct_block block N) N (use_ssize_t settings)
      (distances_parallel seq_t DTWSettings use_ssize_t dtw_distances_length value
         N out block settings heap).
Proof.
  intros HL. unfold distances_parallel.
  destruct (Z.le_gt_cases (re (correct_block block N)) (rb (correct_block block N)))
    as [Hr|Hr].
  { rewrite !prepare_empty by (rewrite ?correct_block_idempotent; left; exact Hr).
    rewrite correct_block_idempotent. reflexivity. }
  destruct (Z.le_gt_cases (ce (correct_block block N)) (cb (correct_block block N)))
    as [Hc|Hc].
  { rewrite !prepare_empty by (rewrite ?correct_block_idempotent; right; exact Hc).
    rewrite correct_block_idempotent. reflexivity. }
  assert (nonempty (correct_block block N)) as Hne by (split; lia).
  rewrite !prepare_nonempty by (rewrite ?correct_block_idempotent; exact Hne).
  rewrite correct_block_idempotent, HL.
  destruct (plan_rows _ _ _ _ _ _ _) as [[pc pl]|f]; [|reflexivity].
  cbn [mbind outcome_bind negb Z.eqb pr_block pr_cbs pr_rls pr_trace pr_length].
  destruct (walk_rows _ _ _ _ _ _ _ _) as [[o e]|f]; reflexivity.
Qed.
End Reuse.

(** X8.  The block an entry point hands back can be passed again: when
    [dtw_distances_length] gives the same for the defaulted block as for the
    caller's, each of the four entry points does on the defaulted block what
    it does on the caller's block, the same length, buffer, block, allocations
    and stores or the same fault, its length query apart. *)
Theorem defaulted_block_can_be_passed_again :
  forall (seq_t DTWSettings : Type) (use_ssize_t : DTWSettings -> bool)
         (dtw_distances_length : DTWBlock -> Z -> bool -> Z)
         (dtw_distance : Z -> Z -> Z -> Z -> DTWSettings -> seq_t)
         (dtw_distance_ndim : Z -> Z -> Z -> Z -> Z -> DTWSettings -> seq_t)
         (ptrs lengths : list Z) (matrix N nb_cols ndim : Z) (out : list seq_t)
         (block : DTWBlock) (settings : DTWSettings) (heap : allocator),
    dtw_distances_length (correct_block block N) N (use_ssize_t settings)
    = dtw_distances_length block N (use_ssize_t settings) ->
    Forall2 (fun vc vc' =>
               snd vc' = requeried (correct_block block N) N (use_ssize_t settings) (snd vc))
      (variants use_ssize_t dtw_distances_length dtw_distance dtw_distance_ndim
         ptrs lengths matrix N nb_cols ndim out block settings heap)
      (variants use_ssize_t dtw_distances_length dtw_distance dtw_distance_ndim
         ptrs lengths matrix N nb_cols ndim out (correct_block block N) settings heap).
Proof.
  intros until heap. intros HL. unfold variants.
  repeat (apply List.Forall2_cons; [cbn [snd]; by apply distances_parallel_again|]).
  apply List.Forall2_nil.
Qed.

Lemma defaulted_block_can_be_passed_again_witness :
  region_length (mkBlock 0 4 0 4) 4 (Sample.use_ssize_t false)
  = region_length (mkBlock 0 0 0 0) 4 (Sample.use_ssize_t false) /\
  Forall2 (fun vc vc' =>
             snd vc' = requeried (mkBlock 0 4 0 4) 4 (Sample.use_ssize_t false) (snd vc))
    (Sample.calls (mkBlock 0 0 0 0) 4 Sample.granted)
    (Sample.calls (mkBlock 0 4 0 4) 4 Sample.granted).
Proof.
  split; [reflexivity|].
  exact (defaulted_block_can_be_passed_again Z Sample.settings Sample.use_ssize_t
           region_length Sample.distance Sample.distance_ndim
           (Sample.ptrs 0 4 3) (Sample.lengths 4 3) 0 4 3 1 (Sample.buffer 8)
           (mkBlock 0 0 0 0) false Sample.granted eq_refl).
Defined.

(** ** The ways the preparation returns *)

(** X11.  Whatever the addresses passed for [cbs], [rls] and [length] and the
    answers of [malloc], [dtw_distances_prepare] returns in two ways only:
    1 on a region that is empty after defaulting, with length 0 and nothing
    allocated, or 0 on a region that is not, with both allocations granted
    and the length [dtw_distances_length] gave for the caller's block.  The
    return of the test [length == 0] and the two branches that print the
    allocation error are never taken.  The address [length] of a returning
    call was not null; those of [cbs] and [rls] were not null when it
    returns 0, and are not looked at when it returns 1. *)
Theorem prepare_returns_in_two_ways :
  forall (DTWSettings : Type) (use_ssize_t : DTWSettings -> bool)
         (dtw_distances_length : DTWBlock -> Z -> bool -> Z)
         (block : DTWBlock) (nb_series : Z) (cbs rls length : address)
         (settings : DTWSettings) (heap : allocator) (rc : Z) (p : prepared),
    dtw_distances_prepare DTWSettings use_ssize_t dtw_distances_length
      block nb_series cbs rls length settings heap = Done (rc, p) ->
    length = AddressOfLocal /\
    pr_block p = correct_block block nb_series /\
    count is_printf (pr_trace p) = 0%nat /\
    ((rc = 1 /\
      (re (correct_block block nb_series) <= rb (correct_block block nb_series) \/
       ce (correct_block block nb_series) <= cb (correct_block block nb_series)) /\
      pr_length p = 0 /\ count is_granted (pr_trace p) = 0%nat)
     \/
     (rc = 0 /\ nonempty (correct_block block nb_series) /\
      cbs = AddressOfLocal /\ rls = AddressOfLocal /\
      heap = mkAllocator true true /\
      pr_length p = dtw_distances_length block nb_series (use_ssize_t settings) /\
      count is_granted (pr_trace p) = 2%nat)).
Proof.
  intros until p. intros H.
  destruct length; [unfold dtw_distances_prepare in H; cbn [is_null] in H; discriminate|].
  split; [reflexivity|].
  destruct (Z.le_gt_cases (re (correct_block block nb_series))
                          (rb (correct_block block nb_series))) as [Hr|Hr].
  { unfold dtw_distances_prepare in H. cbn [is_null] in H.
    destruct (Z.leb_spec (re (correct_block block nb_series))
                         (rb (correct_block block nb_series))); [|lia].
    inversion H; subst. cbn. auto 10. }
  destruct (Z.le_gt_cases (ce (correct_block block nb_series))
                          (cb (correct_block block nb_series))) as [Hc|Hc].
  { unfold dtw_distances_prepare in H. cbn [is_null] in H.
    destruct (Z.leb_spec (re (correct_block block nb_series))
                         (rb (correct_block block nb_series))); [lia|].
    destruct (Z.leb_spec (ce (correct_block block nb_series))
                         (cb (correct_block block nb_series))); [|lia].
    inversion H; subst. cbn. auto 10. }
  assert (cbs = AddressOfLocal /\ rls = AddressOfLocal) as [-> ->].
  { unfold dtw_distances_prepare in H. cbn [is_null] in H.
    destruct (Z.leb_spec (re (correct_block block nb_series))
                         (rb (correct_block block nb_series))); [lia|].
    destruct (Z.leb_spec (ce (correct_block block nb_series))
                         (cb (correct_block block nb_series))); [lia|].
    destruct cbs; [discriminate H|]. destruct rls; [discriminate H|]. done. }
  apply prepare_inv in H
    as [(-> & Hempty & ->)|(-> & Hne & -> & Hplan & Hb & Hlen & Htr)]; [lia|].
  split; [exact Hb|]. rewrite Htr. split; [reflexivity|]. right. auto 10.
Qed.

Lemma prepare_returns_in_two_ways_witness :
  exists p,
    Sample.prepare (mkBlock 0 0 0 0) 4 Sample.granted = Done (0, p) /\
    pr_block p = mkBlock 0 4 0 4 /\ pr_length p = 6 /\
    count is_printf (pr_trace p) = 0%nat /\ count is_granted (pr_trace p) = 2%nat.
Proof.
  destruct (Sample.prepare (mkBlock 0 0 0 0) 4 Sample.granted) as [[rc p]|f] eqn:E;
    [|vm_compute in E; discriminate E].
  assert (rc = 0) as -> by (vm_compute in E; congruence).
  exists p. split; [reflexivity|].
  destruct (prepare_returns_in_two_ways _ _ _ _ _ _ _ _ _ _ _ _ E)
    as (_ & Hb & Hpr & [(Hrc & _)|(_ & _ & _ & _ & _ & Hlen & Hgr)]);
    [discriminate Hrc|].
  split; [exact Hb|]. split; [exact Hlen|]. split; [exact Hpr | exact Hgr].
Defined.

(** ** The ways a call goes wrong *)

Lemma store_fault {V : Type} (out : list V) (i : Z) (v : V) (f : fault) :
  store out i v = Fault f -> f = OutOfBounds.
Proof. unfold store. destruct (_ && _); congruence. Qed.

Lemma fetch_fault {A : Type} (a : list A) (i : Z) (f : fault) :
  fetch a i = Fault f -> f = OutOfBounds.
Proof. unfold fetch. repeat case_match; congruence. Qed.

Lemma plan_rows_fault (b : DTWBlock) (n : nat) :
  forall (r ir rs : Z) (a1 a2 : array) (f : fault),
    plan_rows n b r ir rs (Block a1) (Block a2) = Fault f -> f = OutOfBounds.
Proof.
  induction n as [|n IH]; intros r ir rs a1 a2 f H.
  - discriminate H.
  - cbn [plan_rows poke] in H.
    destruct ((0 <=? ir) && (ir <? Z.of_nat (length a1)));
      cbn [mbind outcome_bind] in H; [|congruence].
    destruct ((0 <=? ir) && (ir <? Z.of_nat (length a2)));
      cbn [mbind outcome_bind] in H; [|congruence].
    eapply IH. exact H.
Qed.

Lemma peek_filled (l : list Z) (pad : array) (i : Z) :
  0 <= i < Z.of_nat (length l) ->
  exists v, peek (Block ((Some <$> l) ++ pad)) i = Done v.
Proof.
  intros Hi. destruct (lookup_lt_is_Some_2 l (Z.to_nat i)) as [v Hv]; [lia|].
  exists v. rewrite <- (Z2Nat.id i) at 1 by lia. apply peek_block.
  apply lookup_app_l_Some. by rewrite list_lookup_fmap, Hv.
Qed.

Lemma row_offsets_from_length (b : DTWBlock) (n : nat) :
  forall r rs, length (row_offsets_from b r rs n) = n.
Proof. induction n as [|n IH]; intros r rs; cbn; [reflexivity | by rewrite IH]. Qed.

Section Faults.
Variable seq_t : Type.
Variable DTWSettings : Type.
Variable use_ssize_t : DTWSettings -> bool.
Variable dtw_distances_length : DTWBlock -> Z -> bool -> Z.
Variable value : Z -> Z -> outcome seq_t.
Hypothesis value_fault : forall r c f, value r c = Fault f -> f = OutOfBounds.

Lemma walk_columns_fault (r r_i : Z) (rls : pointer) (n : nat) :
  forall (c c_i : Z) (out : list seq_t) (f : fault),
    (exists rl, peek rls r_i = Done rl) ->
    walk_columns seq_t value n r r_i c c_i rls out = Fault f -> f = OutOfBounds.
Proof.
  induction n as [|n IH]; intros c c_i out f [rl Hrl] H.
  - discriminate H.
  - cbn [walk_columns] in H.
    destruct (value r c) as [v|f0] eqn:Ev; cbn [mbind outcome_bind] in H;
      [|inversion H; subst; by eapply value_fault].
    rewrite Hrl in H. cbn [mbind outcome_bind] in H.
    destruct (store out (Word.add rl c_i) v) as [o|f0] eqn:Es;
      cbn [mbind outcome_bind] in H; [|inversion H; subst; by eapply store_fault].
    destruct (walk_columns seq_t value n r r_i (Word.add c 1) (Word.add c_i 1) rls o)
      as [[o' e]|f0] eqn:Ew; cbn [mbind outcome_bind] in H; [discriminate H|].
    inversion H; subst. eapply IH; [by exists rl | exact Ew].
Qed.

Lemma walk_rows_fault (b : DTWBlock) (cbs rls : pointer) (n : nat) :
  forall (r_i : Z) (out : list seq_t) (f : fault),
    0 <= r_i -> r_i + Z.of_nat n < Word.modulus ->
    (forall i, r_i <= i < r_i + Z.of_nat n ->
               (exists v, peek cbs i = Done v) /\ (exists v, peek rls i = Done v)) ->
    walk_rows seq_t value n b r_i cbs rls out = Fault f -> f = OutOfBounds.
Proof.
  induction n as [|n IH]; intros r_i out f Hri Hn Hpeek H.
  - discriminate H.
  - cbn [walk_rows] in H.
    destruct (Hpeek r_i ltac:(lia)) as [[c0 Hc0] Hrl].
    rewrite Hc0 in H. cbn [mbind outcome_bind] in H.
    destruct (walk_columns _ _ _ _ _ _ _ _ _) as [[o e]|f0] eqn:Ec;
      cbn [mbind outcome_bind] in H;
      [|inversion H; subst; by eapply walk_columns_fault].
    destruct (walk_rows _ _ _ _ _ _ _ _) as [[o' e']|f0] eqn:Er;
      cbn [mbind outcome_bind] in H; [discriminate H|].
    inversion H; subst.
    rewrite (add_small r_i 1) in Er by (unfold Word.in_range; lia).
    eapply IH; [| | |exact Er]; [lia | lia |].
    intros i Hi. apply Hpeek. lia.
Qed.

(** With both allocations granted the shared body goes wrong only by an
    access out of bounds. *)
Lemma distances_parallel_fault (N : Z) (out : list seq_t) (block : DTWBlock)
    (settings : DTWSettings) (f : fault) :
  0 <= rb (correct_block block N) -> re (correct_block block N) < Word.modulus ->
  distances_parallel seq_t DTWSettings use_ssize_t dtw_distances_length value
    N out block settings (mkAllocator true true) = Fault f ->
  f = OutOfBounds.
Proof.
  intros Hrb Hre H. unfold distances_parallel in H.
  set (b := correct_block block N) in *.
  destruct (Z.le_gt_cases (re b) (rb b)) as [Hr|Hr].
  { rewrite prepare_empty in H by (left; exact Hr). discriminate H. }
  destruct (Z.le_gt_cases (ce b) (cb b)) as [Hc|Hc].
  { rewrite prepare_empty in H by (right; exact Hc). discriminate H. }
  pose proof (planner_slots_bound b) as Hs.
  destruct (Z.le_gt_cases (re b - rb b) (planner_slots b)) as [Hfit|Hover].
  - rewrite prepare_fits in H by (subst b; try split; lia).
    cbn [mbind outcome_bind negb Z.eqb pr_block pr_cbs pr_rls pr_trace pr_length] in H.
    fold b in H.
    destruct (walk_rows _ _ _ _ _ _ _ _) as [[o e]|f0] eqn:Er;
      cbn [mbind outcome_bind] in H; [discriminate H|].
    inversion H; subst. rewrite sub_small in Er by (unfold Word.in_range; lia).
    eapply walk_rows_fault; [| | |exact Er]; [lia | lia |].
    intros i Hi. split; apply peek_filled.
    + rewrite length_col_starts. lia.
    + unfold row_offsets. rewrite row_offsets_from_length. lia.
  - rewrite prepare_overflow in H by (subst b; try split; lia).
    cbn [mbind outcome_bind] in H. congruence.
Qed.
End Faults.

(** X12.  With both allocations granted and a region whose row bounds are
    [size_t] values, an entry point that does not return has made an access
    out of bounds (of a planner array, of the series arrays or of the output
    buffer): the assertion [rb < re] never fails, and the row loop never
    reads a planner slot that the planning loop has not written. *)
Theorem granted_calls_fail_only_out_of_bounds :
  forall (seq_t DTWSettings : Type) (use_ssize_t : DTWSettings -> bool)
         (dtw_distances_length : DTWBlock -> Z -> bool -> Z)
         (dtw_distance : Z -> Z -> Z -> Z -> DTWSettings -> seq_t)
         (dtw_distance_ndim : Z -> Z -> Z -> Z -> Z -> DTWSettings -> seq_t)
         (ptrs lengths : list Z) (matrix N nb_cols ndim : Z) (out : list seq_t)
         (block : DTWBlock) (settings : DTWSettings),
    0 <= rb (correct_block block N) -> re (correct_block block N) < Word.modulus ->
    Forall (fun vc => forall f, snd vc = Fault f -> f = OutOfBounds)
      (variants use_ssize_t dtw_distances_length dtw_distance dtw_distance_ndim
         ptrs lengths matrix N nb_cols ndim out block settings (mkAllocator true true)).
Proof.
  intros until settings. intros Hrb Hre. unfold variants.
  repeat (apply List.Forall_cons;
          [cbn [snd]; intros f H;
           eapply distances_parallel_fault; [| exact Hrb | exact Hre | exact H];
           intros r c f0 Hv; cbn beta in Hv;
           repeat match type of Hv with
                  | (?m ≫= _) = Fault _ =>
                      let E := fresh "E" in
                      destruct m eqn:E; cbn [mbind outcome_bind] in Hv;
                      [|inversion Hv; subst; by eapply fetch_fault]
                  end;
           discriminate Hv|]).
  apply List.Forall_nil.
Qed.

Lemma granted_calls_fail_only_out_of_bounds_witness :
  Forall (fun vc => snd vc = Fault OutOfBounds)
    (variants Sample.use_ssize_t region_length Sample.distance Sample.distance_ndim
       (Sample.ptrs 0 4 3) (Sample.lengths 4 3) 0 4 3 1 (Sample.buffer 2)
       (mkBlock 0 0 0 0) false Sample.granted).
Proof.
  assert (Forall (fun vc => exists f : fault, snd vc = Fault f)
            (variants Sample.use_ssize_t region_length Sample.distance Sample.distance_ndim
               (Sample.ptrs 0 4 3) (Sample.lengths 4 3) 0 4 3 1 (Sample.buffer 2)
               (mkBlock 0 0 0 0) false Sample.granted)) as Hfault
    by (repeat constructor; eexists; vm_compute; reflexivity).
  pose proof (granted_calls_fail_only_out_of_bounds Z Sample.settings
                Sample.use_ssize_t region_length Sample.distance Sample.distance_ndim
                (Sample.ptrs 0 4 3) (Sample.lengths 4 3) 0 4 3 1 (Sample.buffer 2)
                (mkBlock 0 0 0 0) false
                ltac:(vm_compute; congruence) ltac:(vm_compute; congruence)) as Honly.
  pose proof (proj2 (Forall_and _ _) (conj Hfault Honly)) as Hboth.
  eapply Forall_impl; [exact Hboth|]. cbn beta.
  intros vc [(f & Hf) Hk]. rewrite Hf. f_equal. by apply Hk.
Defined.

(** ** An output buffer that is too short *)

Section ShortBuffer.
Variable seq_t : Type.
Variable DTWSettings : Type.
Variable use_ssize_t : DTWSettings -> bool.
Variable dtw_distances_length : DTWBlock -> Z -> bool -> Z.
Variable value : Z -> Z -> outcome seq_t.

Lemma store_pad (out out' pad : list seq_t) (i : Z) (v : seq_t) :
  store out i v = Done out' -> store (out ++ pad) i v = Done (out' ++ pad).
Proof.
  intros H. apply store_inv in H as [Hi ->]. unfold store. rewrite length_app.
  destruct (Z.leb_spec 0 i); [|lia].
  destruct (Z.ltb_spec i (Z.of_nat (length out + length pad))); [|lia].
  cbn [andb]. rewrite insert_app_l by lia. reflexivity.
Qed.

(** The loops do the same on a longer buffer. *)
Lemma walk_columns_pad (r r_i : Z) (rls : pointer) (pad : list seq_t) (n : nat) :
  forall (c c_i : Z) (out out' : list seq_t) (evs : list event),
    walk_columns seq_t value n r r_i c c_i rls out = Done (out', evs) ->
    walk_columns seq_t value n r r_i c c_i rls (out ++ pad) = Done (out' ++ pad, evs).
Proof.
  induction n as [|n IH]; intros c c_i out out' evs H.
  - cbn [walk_columns] in *. by inversion H.
  - cbn [walk_columns] in *. bind_inv H. bind_inv H. bind_inv H. bind_inv H.
    destruct a2 as [o e]. inversion H; subst. clear H.
    cbn [mbind outcome_bind]. rewrite (store_pad _ _ _ _ _ E1).
    cbn [mbind outcome_bind]. rewrite (IH _ _ _ _ _ E2). reflexivity.
Qed.

Lemma walk_rows_pad (b : DTWBlock) (cbs rls : pointer) (pad : list seq_t) (n : nat) :
  forall (r_i : Z) (out out' : list seq_t) (evs : list event),
    walk_rows seq_t value n b r_i cbs rls out = Done (out', evs) ->
    walk_rows seq_t value n b r_i cbs rls (out ++ pad) = Done (out' ++ pad, evs).
Proof.
  induction n as [|n IH]; intros r_i out out' evs H.
  - cbn [walk_rows] in *. by inversion H.
  - cbn [walk_rows] in *. bind_inv H. bind_inv H. destruct a0 as [o1 e1].
    bind_inv H. destruct a0 as [o2 e2]. inversion H; subst. clear H.
    cbn [mbind outcome_bind]. rewrite (walk_columns_pad _ _ _ _ _ _ _ _ _ _ E0).
    cbn [mbind outcome_bind]. rewrite (IH _ _ _ _ E1). reflexivity.
Qed.

Lemma distances_parallel_pad (N : Z) (out pad : list seq_t) (block : DTWBlock)
    (settings : DTWSettings) (heap : allocator) (len : Z) (res : result seq_t) :
  distances_parallel seq_t DTWSettings use_ssize_t dtw_distances_length value
    N out block settings heap = Done (len, res) ->
  distances_parallel seq_t DTWSettings use_ssize_t dtw_distances_length value
    N (out ++ pad) block settings heap
  = Done (len, mkResult (res_block res) (res_output res ++ pad) (res_trace res)).
Proof.
  unfold distances_parallel. intros H. bind_inv H. destruct a as [rc p].
  cbn [mbind outcome_bind].
  destruct (negb (rc =? 0)); [by inversion H|].
  bind_inv H. destruct a as [o e]. inversion H; subst. clear H.
  rewrite (walk_rows_pad _ _ _ _ _ _ _ _ _ E0). reflexivity.
Qed.

Variable val : Z -> Z -> seq_t.
Hypothesis value_fault : forall r c f, value r c = Fault f -> f = OutOfBounds.

(** The shared body on a buffer that does not hold the pairs of the region. *)
Lemma distances_parallel_short (N : Z) (out : list seq_t) (block : DTWBlock)
    (settings : DTWSettings) :
  valid_region (correct_block block N) N -> N < Word.modulus ->
  re (correct_block block N) - rb (correct_block block N)
  <= planner_slots (correct_block block N) ->
  total_pairs (correct_block block N) < Word.modulus ->
  Z.of_nat (length out) < total_pairs (correct_block block N) ->
  (forall r c,
      rb (correct_block block N) <= r < re (correct_block block N) ->
      col_start (correct_block block N) r <= c < ce (correct_block block N) ->
      value r c = Done (val r c)) ->
  distances_parallel seq_t DTWSettings use_ssize_t dtw_distances_length value
    N out block settings (mkAllocator true true) = Fault OutOfBounds.
Proof.
  intros Hv HN Hfit Hmod Hshort Hval. pose proof Hv as (Hrb & Hre & Hcb & Hce).
  destruct (distances_parallel _ _ _ _ _ _ _ _ _ _) as [[len res]|f] eqn:E.
  - exfalso.
    pose proof E as Hin.
    apply distances_parallel_returned in Hin as (Hin & _ & _); [|lia..].
    apply (distances_parallel_pad N out
             (replicate (Z.to_nat (total_pairs (correct_block block N))) (val 0 0))) in E.
    rewrite (distances_parallel_fits seq_t DTWSettings use_ssize_t dtw_distances_length
               value val) in E;
      [| assumption | assumption | assumption
       | rewrite length_app, length_replicate; lia | assumption | assumption].
    inversion E as [[Hlen Hblock Hout Htrace]].
    rewrite <- Htrace in Hin. unfold full_trace in Hin. rewrite !stores_app in Hin.
    apply Forall_app in Hin as [_ Hin]. apply Forall_app in Hin as [Hin _].
    assert (total_pairs (correct_block block N) - 1
            ∈ fst <$> stores (region_events (correct_block block N)
                                (rb (correct_block block N))
                                (col_starts (correct_block block N))
                                (row_offsets (correct_block block N)))) as Hlast.
    { rewrite region_store_indices by lia. apply elem_of_seqZ. lia. }
    apply list_elem_of_fmap in Hlast as (s & Hs & Hel).
    rewrite Forall_forall in Hin. destruct (Hin s Hel) as (_ & _ & Hidx). lia.
  - f_equal. eapply distances_parallel_fault; [exact value_fault| | |exact E]; lia.
Qed.
End ShortBuffer.

(** X13.  The output buffer must hold the pairs of the region: on a valid
    region whose rows all have a planner slot, with both allocations granted
    and the series arrays holding [N] entries, some pair of the region has
    its slot [row_offset(r) + (c - max(r+1, cb))] past the end of a shorter
    buffer, and each of the four entry points called with that buffer makes
    an access out of bounds. *)
Theorem short_output_buffer_overflows :
  forall (seq_t DTWSettings : Type) (use_ssize_t : DTWSettings -> bool)
         (dtw_distances_length : DTWBlock -> Z -> bool -> Z)
         (dtw_distance : Z -> Z -> Z -> Z -> DTWSettings -> seq_t)
         (dtw_distance_ndim : Z -> Z -> Z -> Z -> Z -> DTWSettings -> seq_t)
         (ptrs lengths : list Z) (matrix N nb_cols ndim : Z) (out : list seq_t)
         (block : DTWBlock) (settings : DTWSettings),
    valid_region (correct_block block N) N -> N < Word.modulus ->
    re (correct_block block N) - rb (correct_block block N)
    <= planner_slots (correct_block block N) ->
    total_pairs (correct_block block N) < Word.modulus ->
    Z.of_nat (length out) < total_pairs (correct_block block N) ->
    Z.of_nat (length ptrs) = N -> Z.of_nat (length lengths) = N ->
    (exists r c,
        rb (correct_block block N) <= r < re (correct_block block N) /\
        Z.max (r + 1) (cb (correct_block block N)) <= c < ce (correct_block block N) /\
        Z.of_nat (length out) <= slot_of (correct_block block N) r c) /\
    Forall (fun vc => snd vc = Fault OutOfBounds)
      (variants use_ssize_t dtw_distances_length dtw_distance dtw_distance_ndim
         ptrs lengths matrix N nb_cols ndim out block settings (mkAllocator true true)).
Proof.
  intros until settings. intros Hv HN Hfit Hmod Hshort Hp Hl.
  pose proof Hv as (Hrb & Hre & Hcb & Hce).
  split.
  { assert (total_pairs (correct_block block N) - 1
            ∈ fst <$> stores (region_events (correct_block block N)
                                (rb (correct_block block N))
                                (col_starts (correct_block block N))
                                (row_offsets (correct_block block N)))) as Hlast.
    { rewrite region_store_indices by lia. apply elem_of_seqZ. lia. }
    apply list_elem_of_fmap in Hlast as ([i [r c]] & Hi & Hel). cbn [fst] in Hi.
    apply elem_of_stores_of_region in Hel as (Hr & Hc & Hslot); [|lia..].
    exists r, c. unfold col_start in Hc. split; [exact Hr|]. split; [exact Hc|]. lia. }
  unfold variants.
  apply List.Forall_cons;
    [cbn [snd]; unfold dtw_distances_ptrs_parallel;
     apply (distances_parallel_short seq_t DTWSettings use_ssize_t dtw_distances_length _
              (ptrs_metric dtw_distance ptrs lengths settings)); try assumption|].
  - intros r c f0 Hf. cbn beta in Hf.
    repeat match type of Hf with
           | (?m ≫= _) = Fault _ =>
               let E := fresh "E" in
               destruct m eqn:E; cbn [mbind outcome_bind] in Hf;
               [|inversion Hf; subst; by eapply fetch_fault]
           end; discriminate Hf.
  - intros r c Hr Hc. unfold col_start in Hc. rewrite !fetch_in by lia. reflexivity.
  - apply List.Forall_cons;
      [cbn [snd]; unfold dtw_distances_ndim_ptrs_parallel;
       apply (distances_parallel_short seq_t DTWSettings use_ssize_t dtw_distances_length _
                (ndim_ptrs_metric dtw_distance_ndim ptrs lengths ndim settings));
       try assumption|].
    + intros r c f0 Hf. cbn beta in Hf.
      repeat match type of Hf with
             | (?m ≫= _) = Fault _ =>
                 let E := fresh "E" in
                 destruct m eqn:E; cbn [mbind outcome_bind] in Hf;
                 [|inversion Hf; subst; by eapply fetch_fault]
             end; discriminate Hf.
    + intros r c Hr Hc. unfold col_start in Hc. rewrite !fetch_in by lia. reflexivity.
    + apply List.Forall_cons;
        [cbn [snd]; unfold dtw_distances_matrix_parallel;
         apply (distances_parallel_short seq_t DTWSettings use_ssize_t
                  dtw_distances_length _
                  (matrix_metric dtw_distance matrix nb_cols settings));
         try assumption; [intros r c f0 Hf; discriminate Hf | reflexivity]|].
      apply List.Forall_cons;
        [cbn [snd]; unfold dtw_distances_ndim_matrix_parallel;
         apply (distances_parallel_short seq_t DTWSettings use_ssize_t
                  dtw_distances_length _
                  (ndim_matrix_metric dtw_distance_ndim matrix nb_cols ndim settings));
         try assumption; [intros r c f0 Hf; discriminate Hf | reflexivity]|].
      apply List.Forall_nil.
Qed.

Lemma short_output_buffer_overflows_witness :
  Forall (fun vc => snd vc = Fault OutOfBounds)
    (variants Sample.use_ssize_t region_length Sample.distance Sample.distance_ndim
       (Sample.ptrs 0 4 3) (Sample.lengths 4 3) 0 4 3 1 (Sample.buffer 5)
       (mkBlock 0 0 0 0) false Sample.granted).
Proof.
  refine (proj2 _).
  apply (short_output_buffer_overflows Z Sample.settings Sample.use_ssize_t
           region_length Sample.distance Sample.distance_ndim
           (Sample.ptrs 0 4 3) (Sample.lengths 4 3) 0 4 3 1 (Sample.buffer 5)
           (mkBlock 0 0 0 0) false);
    vm_compute; repeat split; congruence.
Defined.

(** ** The planner arrays after the planning loop *)

Lemma peek_unwritten (l : list Z) (k : nat) (i : Z) :
  Z.of_nat (length l) <= i < Z.of_nat (length l) + Z.of_nat k ->
  peek (Block ((Some <$> l) ++ replicate k None)) i = Fault UninitialisedRead.
Proof.
  intros Hi. unfold peek.
  rewrite lookup_app_r by (rewrite length_fmap; lia).
  rewrite lookup_replicate_2 by (rewrite length_fmap; lia). reflexivity.
Qed.

(** X9.  On a region that is not empty after defaulting and whose rows all
    have a planner slot, with both allocations granted, the preparation
    returns 0 and leaves in [cbs] the column start [max(r + 1, cb)] of each
    row [r = rb + k], so a start above its row and starts that do not
    decrease, and in [rls] the offset 0 for the first row; the slots of both
    arrays past the rows are left unwritten. *)
Theorem planner_arrays_after_the_loop :
  forall (DTWSettings : Type) (use_ssize_t : DTWSettings -> bool)
         (dtw_distances_length : DTWBlock -> Z -> bool -> Z)
         (block : DTWBlock) (N : Z) (settings : DTWSettings),
    nonempty (correct_block block N) ->
    0 <= rb (correct_block block N) -> re (correct_block block N) < Word.modulus ->
    re (correct_block block N) - rb (correct_block block N)
    <= planner_slots (correct_block block N) ->
    exists p,
      dtw_distances_prepare DTWSettings use_ssize_t dtw_distances_length
        block N AddressOfLocal AddressOfLocal AddressOfLocal settings
        (mkAllocator true true) = Done (0, p) /\
      pr_block p = correct_block block N /\
      pr_length p = dtw_distances_length block N (use_ssize_t settings) /\
      (forall k, 0 <= k < re (correct_block block N) - rb (correct_block block N) ->
                 peek (pr_cbs p) k
                 = Done (Z.max (rb (correct_block block N) + k + 1)
                               (cb (correct_block block N))) /\
                 exists v, peek (pr_rls p) k = Done v) /\
      peek (pr_rls p) 0 = Done 0 /\
      (forall k, re (correct_block block N) - rb (correct_block block N) <= k
                 < planner_slots (correct_block block N) ->
                 peek (pr_cbs p) k = Fault UninitialisedRead /\
                 peek (pr_rls p) k = Fault UninitialisedRead).
Proof.
  intros until settings. intros Hne Hrb Hre Hfit.
  set (b := correct_block block N) in *. pose proof Hne as [Hr Hc].
  eexists. split; [apply prepare_fits; assumption|]. fold b.
  cbn [pr_block pr_length pr_cbs pr_rls].
  split; [reflexivity|]. split; [reflexivity|].
  assert (length (row_offsets b) = Z.to_nat (re b - rb b)) as Hlen
    by (unfold row_offsets; apply row_offsets_from_length).
  split; [|split].
  - intros k Hk. split.
    + rewrite <- (Z2Nat.id k) at 1 by lia. apply peek_block.
      apply lookup_app_l_Some. unfold col_starts, rows.
      rewrite !list_lookup_fmap, lookup_seqZ_lt by lia. cbn.
      unfold col_start. do 3 f_equal. lia.
    + apply peek_filled. lia.
  - unfold row_offsets. destruct (Z.to_nat (re b - rb b)) as [|n] eqn:En; [lia|].
    reflexivity.
  - intros k Hk. split; apply peek_unwritten.
    + rewrite length_col_starts. lia.
    + rewrite Hlen. lia.
Qed.

Lemma planner_arrays_after_the_loop_witness :
  exists p,
    Sample.prepare (mkBlock 1 3 0 0) 4 Sample.granted = Done (0, p) /\
    peek (pr_cbs p) 0 = Done 2 /\ peek (pr_cbs p) 1 = Done 3 /\
    peek (pr_rls p) 0 = Done 0 /\
    peek (pr_cbs p) 2 = Fault UninitialisedRead /\
    peek (pr_rls p) 3 = Fault UninitialisedRead.
Proof.
  destruct (planner_arrays_after_the_loop Sample.settings Sample.use_ssize_t region_length
              (mkBlock 1 3 0 0) 4 false)
    as (p & Hp & _ & _ & Hcbs & Hrls & Hrest);
    [vm_compute; split; reflexivity | vm_compute; congruence..|].
  exists p. split; [exact Hp|].
  split; [apply (Hcbs 0); vm_compute; split; congruence|].
  split; [apply (Hcbs 1); vm_compute; split; congruence|].
  split; [exact Hrls|].
  split; [apply (Hrest 2) | apply (Hrest 3)]; vm_compute; split; congruence.
Defined.
